(** * mcp-mysql-server: authorization, result cache and connection lifecycle

    A shallow embedding of [src/auth.ts], [src/cache.ts],
    [src/mysql-client.ts] and the handlers of [src/index.ts], with the
    properties of the specification stated and settled on it.

    Conventions of the embedding.
    - A JavaScript string is a [string] of its UTF-16 code units, one
      character for each: the texts are those whose code units are below
      256 (ISO 8859-1), and the character [ascii_of_N n] is the code unit
      [n], so U+00A0 is the one character [ascii_of_N 160].  On these
      texts [toLowerCase] folds A-Z and the capital letters of U+00C0 to
      U+00DE, [trim] strips TAB, LF, VT, FF, CR, SPACE and U+00A0, and
      the bytes that are hashed are those of the UTF-8 encoding.
    - A JavaScript number is NaN, an infinity or an integer that a double
      represents exactly; arithmetic that leaves the integers is not used
      by the sources.
    - A [Map] whose iteration order is observed (the cache) is an
      association list in insertion order; the other maps are [gmap]s.
    - [Date.now()] and [Math.random()] are inputs of the operation that
      reads them; the outcome of a call to the database driver is an input
      of the handler that makes the call. *)

From Stdlib Require Import ZArith List Bool Ascii String Lia.
From Stdlib Require Import Numbers.DecimalString Numbers.DecimalPos Numbers.DecimalZ.
From stdpp Require Import base option gmap strings.

Local Open Scope string_scope.
Local Open Scope Z_scope.

(** ** String primitives of the JavaScript runtime used by the sources *)

Module Str.

Definition code (c : ascii) : Z := Z.of_N (N_of_ascii c).

(** the lower-case mapping of Unicode below U+0100: A-Z, and U+00C0 to
    U+00DE but for the multiplication sign U+00D7 *)
Definition lowerChar (c : ascii) : ascii :=
  if ((65 <=? code c) && (code c <=? 90))
     || ((192 <=? code c) && (code c <=? 222) && negb (code c =? 215))
  then ascii_of_N (N_of_ascii c + 32)
  else c.

(** [String.prototype.toLowerCase] *)
Fixpoint toLowerCase (s : string) : string :=
  match s with
  | EmptyString => EmptyString
  | String c s' => String (lowerChar c) (toLowerCase s')
  end.

(** WhiteSpace and LineTerminator below U+0100: TAB, LF, VT, FF, CR,
    SPACE and the no-break space U+00A0 *)
Definition isWhite (c : ascii) : bool :=
  ((9 <=? code c) && (code c <=? 13)) || (code c =? 32) || (code c =? 160).

Fixpoint trimStart (s : string) : string :=
  match s with
  | EmptyString => EmptyString
  | String c s' => if isWhite c then trimStart s' else s
  end.

Fixpoint trimEnd (s : string) : string :=
  match s with
  | EmptyString => EmptyString
  | String c s' =>
      match trimEnd s' with
      | EmptyString => if isWhite c then EmptyString else String c EmptyString
      | r => String c r
      end
  end.

(** [String.prototype.trim] *)
Definition trim (s : string) : string := trimEnd (trimStart s).

(** [s.startsWith(p)] *)
Definition startsWith (s p : string) : bool := String.prefix p s.

(** [s.includes(p)]: [p] occurs in [s] as a contiguous substring *)
Fixpoint includes (s p : string) : bool :=
  if startsWith s p then true
  else match s with
       | EmptyString => false
       | String _ s' => includes s' p
       end.

(** truthiness of a string: only the empty string is falsy *)
Definition truthy (s : string) : bool :=
  match s with EmptyString => false | _ => true end.

Fixpoint chars (s : string) : list ascii :=
  match s with
  | EmptyString => nil
  | String c s' => c :: chars s'
  end.

(** the UTF-8 encoding of a code unit below 256: one byte below 128, two
    bytes from there *)
Definition utf8Char (c : ascii) : list Z :=
  if code c <? 128 then [code c]
  else [192 + code c / 64; 128 + code c mod 64].

Fixpoint utf8 (s : string) : list Z :=
  match s with
  | EmptyString => nil
  | String c s' => utf8Char c ++ utf8 s'
  end.

End Str.

(** ** [crypto.createHash('md5').update(data).digest('hex')] (RFC 1321) *)

Module MD5.

Definition wrap (x : Z) : Z := x mod 4294967296.

Definition rotl (x : Z) (n : Z) : Z :=
  wrap (Z.lor (Z.shiftl x n) (Z.shiftr x (32 - n))).

Definition not32 (x : Z) : Z := 4294967295 - x.

Definition K : list Z :=
  [ 3614090360; 3905402710; 606105819; 3250441966;
    4118548399; 1200080426; 2821735955; 4249261313;
    1770035416; 2336552879; 4294925233; 2304563134;
    1804603682; 4254626195; 2792965006; 1236535329;
    4129170786; 3225465664; 643717713; 3921069994;
    3593408605; 38016083; 3634488961; 3889429448;
    568446438; 3275163606; 4107603335; 1163531501;
    2850285829; 4243563512; 1735328473; 2368359562;
    4294588738; 2272392833; 1839030562; 4259657740;
    2763975236; 1272893353; 4139469664; 3200236656;
    681279174; 3936430074; 3572445317; 76029189;
    3654602809; 3873151461; 530742520; 3299628645;
    4096336452; 1126891415; 2878612391; 4237533241;
    1700485571; 2399980690; 4293915773; 2240044497;
    1873313359; 4264355552; 2734768916; 1309151649;
    4149444226; 3174756917; 718787259; 3951481745 ].

Definition R : list Z :=
  [ 7; 12; 17; 22; 7; 12; 17; 22; 7; 12; 17; 22; 7; 12; 17; 22;
    5; 9; 14; 20; 5; 9; 14; 20; 5; 9; 14; 20; 5; 9; 14; 20;
    4; 11; 16; 23; 4; 11; 16; 23; 4; 11; 16; 23; 4; 11; 16; 23;
    6; 10; 15; 21; 6; 10; 15; 21; 6; 10; 15; 21; 6; 10; 15; 21 ].

Definition nthZ (l : list Z) (i : nat) : Z := nth i l 0.

Record digest := Digest { dA : Z; dB : Z; dC : Z; dD : Z }.

Definition init : digest :=
  Digest 1732584193 4023233417 2562383102 271733878.

(** one of the 64 operations of a block *)
Definition step (M : list Z) (st : digest) (i : nat) : digest :=
  let '(Digest a b c d) := st in
  let '(f, g) :=
    if (i <? 16)%nat then (Z.lor (Z.land b c) (Z.land (not32 b) d), i)
    else if (i <? 32)%nat
         then (Z.lor (Z.land d b) (Z.land (not32 d) c), ((5 * i + 1) mod 16)%nat)
    else if (i <? 48)%nat
         then (Z.lxor (Z.lxor b c) d, ((3 * i + 5) mod 16)%nat)
    else (Z.lxor c (Z.lor b (not32 d)), ((7 * i) mod 16)%nat) in
  let f' := wrap (f + a + nthZ K i + nthZ M g) in
  Digest d (wrap (b + rotl f' (nthZ R i))) b c.

Definition block (st : digest) (M : list Z) : digest :=
  let '(Digest a b c d) := fold_left (step M) (seq 0 64) st in
  Digest (wrap (dA st + a)) (wrap (dB st + b))
         (wrap (dC st + c)) (wrap (dD st + d)).

(** little-endian bytes of a word, and back *)
Fixpoint le_bytes (n : nat) (x : Z) : list Z :=
  match n with
  | O => nil
  | S n' => (x mod 256) :: le_bytes n' (x / 256)
  end.

Fixpoint le_word (bs : list Z) : Z :=
  match bs with
  | nil => 0
  | b :: bs' => b + 256 * le_word bs'
  end.

(** the message followed by 0x80, zeros up to 56 mod 64, and its bit length *)
Definition pad (msg : list Z) : list Z :=
  let len := Z.of_nat (List.length msg) in
  let zeros := Z.to_nat ((55 - len) mod 64) in
  msg ++ 128 :: repeat 0 zeros ++ le_bytes 8 ((8 * len) mod 2 ^ 64).

Fixpoint words (n : nat) (bs : list Z) : list Z :=
  match n with
  | O => nil
  | S n' => le_word (firstn 4 bs) :: words n' (skipn 4 bs)
  end.

Fixpoint blocks (n : nat) (bs : list Z) (st : digest) : digest :=
  match n with
  | O => st
  | S n' => blocks n' (skipn 64 bs) (block st (words 16 bs))
  end.

Definition digest_bytes (msg : list Z) : list Z :=
  let p := pad msg in
  let '(Digest a b c d) := blocks (List.length p / 64) p init in
  le_bytes 4 a ++ le_bytes 4 b ++ le_bytes 4 c ++ le_bytes 4 d.

Definition hexDigit (n : Z) : ascii :=
  if n <? 10 then ascii_of_N (Z.to_N (48 + n))
  else ascii_of_N (Z.to_N (87 + n)).

Fixpoint hex (bs : list Z) : string :=
  match bs with
  | nil => EmptyString
  | b :: bs' =>
      String (hexDigit ((b / 16) mod 16)) (String (hexDigit (b mod 16)) (hex bs'))
  end.

(** a string is hashed as its UTF-8 encoding *)
Definition md5hex (s : string) : string :=
  hex (digest_bytes (Str.utf8 s)).

End MD5.

(** ** Numbers: [parseInt] rounds to a double, [toString] prints one

    A number is NaN, an infinity or an integer; the integers that occur
    are those a double represents exactly, the results of [nearest]. *)

Module Num.

Inductive t :=
| NaN
| Infinity (negative : bool)
| Int (n : Z).

Definition opp (x : t) : t :=
  match x with
  | NaN => NaN
  | Infinity b => Infinity (negb b)
  | Int n => Int (- n)
  end.

(** an integer of magnitude below 2^53; every one of them is a double *)
Definition isSafe (n : Z) : bool := Z.abs n <? 2 ^ 53.

(** the double nearest to a natural number, ties to even; from 2^1024 on
    it is infinite *)
Definition nearest (v : Z) : t :=
  if v <? 2 ^ 53 then Int v
  else
    let e := Z.log2 v - 52 in
    let q := Z.shiftr v e in
    let r := v - Z.shiftl q e in
    let half := Z.shiftl 1 (e - 1) in
    let q' := if (half <? r) || ((r =? half) && Z.odd q) then q + 1 else q in
    let x := Z.shiftl q' e in
    if 2 ^ 1024 <=? x then Infinity false else Int x.

Definition decimal (n : Z) : string := NilZero.string_of_int (Z.to_int n).

(** whether the natural number [c] rounds to the double [x], for
    [2^53 <= x]: the bounds are half way to the neighbours of [x], and
    belong to [x] when its significand is even *)
Definition roundsTo (x c : Z) : bool :=
  let e := Z.log2 x - 52 in
  let m := Z.shiftr x e in
  let up := Z.shiftl 1 (e + 1) in
  let down := if m =? 2 ^ 52 then Z.shiftl 1 e else up in
  if Z.even m
  then (4 * x - down <=? 4 * c) && (4 * c <=? 4 * x + up)
  else (4 * x - down <? 4 * c) && (4 * c <? 4 * x + up).

(** the shortest decimal that rounds to [x], and of these the closest:
    its value and the number of zeros it ends with, searched from [j]
    zeros down *)
Fixpoint shortest (j : nat) (x : Z) : Z * nat :=
  match j with
  | O => (x, O)
  | S j' =>
      let p := 10 ^ Z.of_nat j in
      let c1 := (x / p) * p in
      let c2 := c1 + p in
      let ok1 := (0 <? c1) && roundsTo x c1 in
      let ok2 := roundsTo x c2 in
      if ok1 && ok2 then (if x - c1 <=? c2 - x then (c1, j) else (c2, j))
      else if ok1 then (c1, j)
      else if ok2 then (c2, j)
      else shortest j' x
  end.

Fixpoint zeros (n : nat) : string :=
  match n with
  | O => EmptyString
  | S n' => String "0" (zeros n')
  end.

(** [Number::toString] of a natural number: all its digits below 2^53;
    from there the shortest digits, followed by zeros up to 21 digits and
    by an exponent beyond *)
Definition natToString (x : Z) : string :=
  if x <? 2 ^ 53 then decimal x
  else
    let '(c, j) := shortest (String.length (decimal x)) x in
    let digits := decimal (c / 10 ^ Z.of_nat j) in
    let n := (String.length digits + j)%nat in
    if (n <=? 21)%nat then String.append digits (zeros j)
    else
      let exponent := String.append "e+" (decimal (Z.of_nat n - 1)) in
      match digits with
      | EmptyString => EmptyString
      | String d EmptyString => String d exponent
      | String d rest => String d (String.append "." (String.append rest exponent))
      end.

(** [Number.prototype.toString] *)
Definition toString (x : t) : string :=
  match x with
  | NaN => "NaN"
  | Infinity false => "Infinity"
  | Infinity true => "-Infinity"
  | Int n => if n <? 0 then String.append "-" (natToString (- n)) else natToString n
  end.

End Num.

(** ** [JSON.stringify] of a parameter array

    The parameters of a query are an array of scalars: strings,
    integers, booleans and [null]. *)

Module Json.

Inductive JsParam :=
| PStr (s : string)
| PNum (n : Z)
| PBool (b : bool)
| PNull.

Definition hexDigit := MD5.hexDigit.

Definition dquote : ascii := ascii_of_N 34.

(** QuoteJSONString, one code unit *)
Definition quoteChar (c : ascii) : string :=
  let n := Str.code c in
  if n =? 34 then String "\" (String dquote EmptyString)
  else if n =? 92 then "\\"
  else if n =? 8 then "\b"
  else if n =? 9 then "\t"
  else if n =? 10 then "\n"
  else if n =? 12 then "\f"
  else if n =? 13 then "\r"
  else if n <? 32
       then String.append "\u00"
              (String (hexDigit (n / 16)) (String (hexDigit (n mod 16)) EmptyString))
  else String c EmptyString.

Fixpoint quoteBody (s : string) : string :=
  match s with
  | EmptyString => EmptyString
  | String c s' => String.append (quoteChar c) (quoteBody s')
  end.

Definition quote (s : string) : string :=
  String.append (String dquote (quoteBody s)) (String dquote EmptyString).

Definition stringifyParam (p : JsParam) : string :=
  match p with
  | PStr s => quote s
  | PNum n => Num.toString (Num.Int n)
  | PBool true => "true"
  | PBool false => "false"
  | PNull => "null"
  end.

Fixpoint join (sep : string) (l : list string) : string :=
  match l with
  | nil => EmptyString
  | x :: nil => x
  | x :: l' => String.append x (String.append sep (join sep l'))
  end.

(** [JSON.stringify(params)] for an array [params] *)
Definition stringify (params : list JsParam) : string :=
  String.append "[" (String.append (join "," (map stringifyParam params)) "]").

End Json.

(** ** A JavaScript [Map] with string keys, in insertion order *)

Module JsMap.
Section Ops.
Context {V : Type}.

Definition t := list (string * V).

Fixpoint get (k : string) (m : t) : option V :=
  match m with
  | nil => None
  | (k', v) :: m' => if String.eqb k' k then Some v else get k m'
  end.

Definition has (k : string) (m : t) : bool :=
  match get k m with Some _ => true | None => false end.

(** [m.set(k, v)]: an existing key keeps its position, a new key goes last *)
Fixpoint set (k : string) (v : V) (m : t) : t :=
  match m with
  | nil => (k, v) :: nil
  | (k', v') :: m' =>
      if String.eqb k' k then (k, v) :: m' else (k', v') :: set k v m'
  end.

Fixpoint delete (k : string) (m : t) : t :=
  match m with
  | nil => nil
  | (k', v') :: m' =>
      if String.eqb k' k then m' else (k', v') :: delete k m'
  end.

Definition size (m : t) : Z := Z.of_nat (List.length m).

Definition keys (m : t) : list string := map fst m.

End Ops.
Arguments t : clear implicits.
End JsMap.

(** ** [src/cache.ts] *)

Module Cache.
Section WithData.
Context {A : Type}.

Record CacheEntry := mkEntry {
  data : A;
  timestamp : Z;
  ttl : Z   (* time to live in milliseconds *)
}.

Record QueryCache := mkCache {
  cache : JsMap.t CacheEntry;
  maxSize : Z;
  defaultTTL : Z
}.

Definition withCache (qc : QueryCache) (m : JsMap.t CacheEntry) : QueryCache :=
  mkCache m (maxSize qc) (defaultTTL qc).

(** the constructor; its timer only schedules [cleanExpired] *)
Definition new (maxSize defaultTTL : option Z) : QueryCache :=
  mkCache nil
          (match maxSize with Some n => n | None => 1000 end)
          (match defaultTTL with Some n => n | None => 5 * 60 * 1000 end).

(** the string that is hashed: [sql + (params ? JSON.stringify(params) : '')] *)
Definition keyInput (sql : string) (params : option (list Json.JsParam)) : string :=
  String.append sql
    (match params with
     | Some ps => Json.stringify ps
     | None => EmptyString
     end).

Definition generateKey (sql : string) (params : option (list Json.JsParam)) : string :=
  MD5.md5hex (keyInput sql params).

Definition isExpired (now : Z) (entry : CacheEntry) : bool :=
  ttl entry <? now - timestamp entry.

Definition cleanExpired (now : Z) (qc : QueryCache) : QueryCache :=
  withCache qc (List.filter (fun ke => negb (isExpired now (snd ke))) (cache qc)).

(** the scan of [evictOldest]: the first entry strictly older than all
    before it, starting from the current time *)
Definition oldestScan (now : Z) (m : JsMap.t CacheEntry) : string * Z :=
  fold_left
    (fun (acc : string * Z) (ke : string * CacheEntry) =>
       if timestamp (snd ke) <? snd acc then (fst ke, timestamp (snd ke)) else acc)
    m (EmptyString, now).

Definition evictOldest (now : Z) (qc : QueryCache) : QueryCache :=
  if JsMap.size (cache qc) =? 0 then qc
  else
    let oldestKey := fst (oldestScan now (cache qc)) in
    if Str.truthy oldestKey
    then withCache qc (JsMap.delete oldestKey (cache qc))
    else qc.

(** [get]: the value or [null] ([None]), and the cache afterwards *)
Definition get (now : Z) (sql : string) (params : option (list Json.JsParam))
    (qc : QueryCache) : option A * QueryCache :=
  let key := generateKey sql params in
  match JsMap.get key (cache qc) with
  | None => (None, qc)
  | Some entry =>
      if isExpired now entry
      then (None, withCache qc (JsMap.delete key (cache qc)))
      else (Some (data entry), qc)
  end.

(** [set]: [nowEvict] is the clock read by [evictOldest], [now] the clock
    read for the timestamp of the entry; [ttl || defaultTTL] takes the
    default for an absent and for a zero [ttl] *)
Definition set (nowEvict now : Z) (sql : string) (v : A)
    (params : option (list Json.JsParam)) (ttl : option Z)
    (qc : QueryCache) : QueryCache :=
  let key := generateKey sql params in
  let qc1 :=
    if (maxSize qc <=? JsMap.size (cache qc)) && negb (JsMap.has key (cache qc))
    then evictOldest nowEvict qc
    else qc in
  let entry :=
    mkEntry v now
      (match ttl with
       | Some t => if t =? 0 then defaultTTL qc else t
       | None => defaultTTL qc
       end) in
  withCache qc1 (JsMap.set key entry (cache qc1)).

(** [invalidate(pattern?)]: an absent or empty pattern clears the cache *)
Definition invalidate (pattern : option string) (qc : QueryCache) : QueryCache :=
  match pattern with
  | None => withCache qc nil
  | Some p =>
      if negb (Str.truthy p) then withCache qc nil
      else withCache qc
             (List.filter (fun ke => negb (Str.includes (fst ke) p)) (cache qc))
  end.

Definition invalidateTable (tableName : string) (qc : QueryCache) : QueryCache :=
  invalidate (Some (Str.toLowerCase tableName)) qc.

Definition getStats (qc : QueryCache) : Z * Z :=
  (JsMap.size (cache qc), maxSize qc).

Definition shouldCache (sql : string) : bool :=
  let trimmedSql := Str.toLowerCase (Str.trim sql) in
  Str.startsWith trimmedSql "select" ||
  Str.startsWith trimmedSql "show" ||
  Str.startsWith trimmedSql "describe" ||
  Str.startsWith trimmedSql "desc".

End WithData.
Arguments CacheEntry : clear implicits.
Arguments QueryCache : clear implicits.
End Cache.

(** ** [src/auth.ts] *)

Module Auth.

Inductive UserRole := ADMIN | READ_WRITE | READ_ONLY.

Inductive Permission := SELECT | INSERT | UPDATE | DELETE | SHOW | DESCRIBE.

(** the string values of the enums *)
Definition roleValue (r : UserRole) : string :=
  match r with
  | ADMIN => "admin"
  | READ_WRITE => "read_write"
  | READ_ONLY => "read_only"
  end.

Definition permissionValue (p : Permission) : string :=
  match p with
  | SELECT => "select"
  | INSERT => "insert"
  | UPDATE => "update"
  | DELETE => "delete"
  | SHOW => "show"
  | DESCRIBE => "describe"
  end.

Definition permission_eqb (p q : Permission) : bool :=
  String.eqb (permissionValue p) (permissionValue q).

(** [list.includes(permission)] *)
Definition includes (l : list Permission) (p : Permission) : bool :=
  existsb (permission_eqb p) l.

Record User := mkUser {
  username : string;
  password : string;
  role : UserRole
}.

Record AuthManager := mkAuth {
  users : gmap string User;
  sessions : gmap string string   (* sessionId -> username *)
}.

(** [process.env.NAME || fallback] *)
Definition envOr (env : gmap string string) (name fallback : string) : string :=
  match env !! name with
  | Some v => if Str.truthy v then v else fallback
  | None => fallback
  end.

Definition initializeDefaultUsers (env : gmap string string) : gmap string User :=
  let adminUser :=
    mkUser (envOr env "MYSQL_ADMIN_USER" "admin")
           (envOr env "MYSQL_ADMIN_PASSWORD" "admin123") ADMIN in
  let readWriteUser :=
    mkUser (envOr env "MYSQL_RW_USER" "readwrite")
           (envOr env "MYSQL_RW_PASSWORD" "rw123") READ_WRITE in
  let readOnlyUser :=
    mkUser (envOr env "MYSQL_RO_USER" "readonly")
           (envOr env "MYSQL_RO_PASSWORD" "ro123") READ_ONLY in
  <[username readOnlyUser := readOnlyUser]>
    (<[username readWriteUser := readWriteUser]>
       (<[username adminUser := adminUser]> ∅)).

Definition new (env : gmap string string) : AuthManager :=
  mkAuth (initializeDefaultUsers env) ∅.

(** [authenticate]: [rnd] is the value of
    [Math.random().toString(36).substring(7)] drawn by the call *)
Definition authenticate (username password : string) (rnd : string)
    (am : AuthManager) : option string * AuthManager :=
  match users am !! username with
  | None => (None, am)
  | Some (mkUser _ userPassword _) =>
      if negb (String.eqb userPassword password) then (None, am)
      else
        let sessionId := rnd in
        (Some sessionId, mkAuth (users am) (<[sessionId := username]> (sessions am)))
  end.

Definition getUserFromSession (sessionId : string) (am : AuthManager) : option User :=
  match sessions am !! sessionId with
  | None => None
  | Some username =>
      if negb (Str.truthy username) then None else users am !! username
  end.

Definition hasPermission (user : User) (permission : Permission) : bool :=
  match role user with
  | ADMIN => true
  | READ_WRITE => includes [SELECT; INSERT; UPDATE; SHOW; DESCRIBE] permission
  | READ_ONLY => includes [SELECT; SHOW; DESCRIBE] permission
  end.

Definition getPermissionForOperation (operation : string) : Permission :=
  let op := Str.toLowerCase operation in
  if String.eqb op "mysql_query" then SELECT
  else if String.eqb op "mysql_list_databases" then SHOW
  else if String.eqb op "mysql_list_tables" then SHOW
  else if String.eqb op "mysql_describe_table" then DESCRIBE
  else if String.eqb op "mysql_get_table_data" then SELECT
  else if String.eqb op "mysql_insert" then INSERT
  else if String.eqb op "mysql_update" then UPDATE
  else if String.eqb op "mysql_delete" then DELETE
  else SELECT.

Definition parseQueryPermission (sql : string) : Permission :=
  let trimmedSql := Str.toLowerCase (Str.trim sql) in
  if Str.startsWith trimmedSql "select" then SELECT
  else if Str.startsWith trimmedSql "insert" then INSERT
  else if Str.startsWith trimmedSql "update" then UPDATE
  else if Str.startsWith trimmedSql "delete" then DELETE
  else if Str.startsWith trimmedSql "show" then SHOW
  else if Str.startsWith trimmedSql "describe" || Str.startsWith trimmedSql "desc"
       then DESCRIBE
  else SELECT.

Definition logout (sessionId : string) (am : AuthManager) : AuthManager :=
  mkAuth (users am) (delete sessionId (sessions am)).

End Auth.

(** ** [src/mysql-client.ts] and the driver behind it

    The driver is the outside world: it hands out connection handles and
    keeps the set of open ones.  Whether a connection attempt or a close
    succeeds is an input of the operation; the text with which the driver
    refuses a connection or a close is not modelled.  Each call of a
    helper sends one statement, whose outcome is an input. *)

Module Client.

Inductive Thrown :=
| JsError (message : string)                  (* [new Error(message)] *)
| TypeError                                   (* a property read on [null] *)
| ZodError                                    (* a rejected schema *)
| McpError (code : string) (message : string)
| ToolExecutionFailed (cause : Thrown).       (* [`Tool execution failed: ${cause}`] *)

Record ConnectionConfig := mkConfig {
  host : string;
  port : Num.t;
  user : string;
  password : string;
  database : option string
}.

Inductive Event :=
| Opened (h : nat) (cfg : ConnectionConfig)
| Refused (cfg : ConnectionConfig)
| Closed (h : nat).

Record Driver := mkDriver {
  live : gset nat;            (* open connection handles *)
  fresh : nat;
  trace : list Event          (* oldest first *)
}.

Record MySQLClient := mkClient {
  connection : option nat;
  config : ConnectionConfig
}.

(** the constructor: [ConnectionConfigSchema.parse] rejects a NaN port;
    [z.number()] of zod 3 takes every other number *)
Definition new (cfg : ConnectionConfig) : option MySQLClient :=
  match port cfg with
  | Num.NaN => None
  | _ => Some (mkClient None cfg)
  end.

Definition connect (ok : bool) (c : MySQLClient) (d : Driver)
  : option Thrown * MySQLClient * Driver :=
  if ok
  then (None,
        mkClient (Some (fresh d)) (config c),
        mkDriver ({[ fresh d ]} ∪ live d) (S (fresh d))
                 (trace d ++ [Opened (fresh d) (config c)]))
  else (Some (JsError "Failed to connect to MySQL"),
        c,
        mkDriver (live d) (fresh d) (trace d ++ [Refused (config c)])).

Definition disconnect (ok : bool) (c : MySQLClient) (d : Driver)
  : option Thrown * MySQLClient * Driver :=
  match connection c with
  | None => (None, c, d)
  | Some h =>
      if ok
      then (None, mkClient None (config c),
            mkDriver (live d ∖ {[ h ]}) (fresh d) (trace d ++ [Closed h]))
      else (Some (JsError "Failed to end the connection"), c, d)
  end.

(** rows are records of scalars; a statement that is not a read answers
    with a header, which is not an array *)
Definition Row := list (string * Json.JsParam).
Definition Rows := list Row.

(** the driver answers with rows, with a header, or rejects with an
    [Error] of the given message *)
Inductive DbOutcome :=
| DbRows (rows : Rows)
| DbHeader (affectedRows : Z)
| DbFail (message : string).

(** [`${error}`] for [error = new Error(message)] *)
Definition errorToString (message : string) : string :=
  if Str.truthy message then String.append "Error: " message else "Error".

(** [query]: [Array.isArray(rows) ? rows : []] *)
Definition query (c : MySQLClient) (db : DbOutcome) : Rows + Thrown :=
  match connection c with
  | None => inr (JsError "Not connected to database")
  | Some _ =>
      match db with
      | DbRows rows => inl rows
      | DbHeader _ => inl nil
      | DbFail m =>
          inr (JsError (String.append "Query failed: " (errorToString m)))
      end
  end.

(** [insertData], [updateData], [deleteData]: [this.connection!.execute],
    whose error is not caught by the client *)
Definition execute (c : MySQLClient) (db : DbOutcome) : DbOutcome + Thrown :=
  match connection c with
  | None => inr TypeError
  | Some _ =>
      match db with
      | DbFail m => inr (JsError m)
      | r => inl r
      end
  end.

End Client.

(** ** [src/index.ts]: the services, the reconnection on a configuration
    change and the tool handlers *)

Module Server.
Import Client.

(** the fields of [Config] that [initializeMySQLClient] reads *)
Record Config := mkEnv {
  MYSQL_HOST : string;
  MYSQL_PORT : Num.t;
  MYSQL_USER : string;
  MYSQL_PASSWORD : string;
  MYSQL_DATABASE : option string
}.

(** the module-level variables, and the driver they act on *)
Record State := mkState {
  mysqlClient : option MySQLClient;
  authManager : Auth.AuthManager;
  queryCache : Cache.QueryCache Rows;
  configWatcher : Config;       (* the configuration [getConfig()] returns *)
  driver : Driver
}.

Definition setClient (c : option MySQLClient) (d : Driver) (st : State) : State :=
  mkState c (authManager st) (queryCache st) (configWatcher st) d.

Definition setAuth (am : Auth.AuthManager) (st : State) : State :=
  mkState (mysqlClient st) am (queryCache st) (configWatcher st) (driver st).

Definition setCache (qc : Cache.QueryCache Rows) (st : State) : State :=
  mkState (mysqlClient st) (authManager st) qc (configWatcher st) (driver st).

Definition setConfig (cfg : Config) (st : State) : State :=
  mkState (mysqlClient st) (authManager st) (queryCache st) cfg (driver st).

(** *** Computations that read and write the state and may throw *)

Inductive outcome (T : Type) :=
| Returned (v : T)
| Threw (e : Thrown).
Arguments Returned {T} v.
Arguments Threw {T} e.

Definition M (T : Type) := State -> outcome T * State.

Definition ret {T} (v : T) : M T := fun st => (Returned v, st).

Definition throw {T} (e : Thrown) : M T := fun st => (Threw e, st).

Definition bind {T U} (m : M T) (k : T -> M U) : M U :=
  fun st =>
    match m st with
    | (Returned v, st') => k v st'
    | (Threw e, st') => (Threw e, st')
    end.

Definition tryCatch {T} (m : M T) (handler : Thrown -> M T) : M T :=
  fun st =>
    match m st with
    | (Returned v, st') => (Returned v, st')
    | (Threw e, st') => handler e st'
    end.

Definition gets {T} (f : State -> T) : M T := fun st => (Returned (f st), st).

Definition modify (f : State -> State) : M unit := fun st => (Returned tt, f st).

Notation "x <- m ;; k" := (bind m (fun x => k))
  (at level 100, m at level 99, right associativity).
Notation "m ;;; k" := (bind m (fun _ => k))
  (at level 100, right associativity).

(** *** The connection *)

(** the inputs of a reconnection: whether the driver closes the old
    connection and whether it accepts the new one *)
Record Link := mkLink { endOk : bool; connectOk : bool }.

Definition clientConnect (ok : bool) (c : MySQLClient) : M unit :=
  fun st =>
    match connect ok c (driver st) with
    | (None, c', d') => (Returned tt, setClient (Some c') d' st)
    | (Some e, c', d') => (Threw e, setClient (Some c') d' st)
    end.

Definition clientDisconnect (ok : bool) (c : MySQLClient) : M unit :=
  fun st =>
    match disconnect ok c (driver st) with
    | (None, c', d') => (Returned tt, setClient (Some c') d' st)
    | (Some e, c', d') => (Threw e, setClient (Some c') d' st)
    end.

(** the [connectionConfig] object that [initializeMySQLClient] builds *)
Definition connectionConfigOf (config : Config) : ConnectionConfig :=
  mkConfig (MYSQL_HOST config) (MYSQL_PORT config) (MYSQL_USER config)
           (MYSQL_PASSWORD config) (MYSQL_DATABASE config).

Definition initializeMySQLClient (ok : bool) : M unit :=
  config <- gets configWatcher ;;
  let connectionConfig := connectionConfigOf config in
  if negb (Str.truthy (user connectionConfig))
     || negb (Str.truthy (password connectionConfig))
  then throw (JsError "MYSQL_USER and MYSQL_PASSWORD are required")
  else
    match Client.new connectionConfig with
    | None => throw ZodError
    | Some c =>
        modify (fun st => setClient (Some c) (driver st) st) ;;;
        clientConnect ok c
    end.

(** the listener registered with [configWatcher.onChange]; the error it
    catches is only logged *)
Definition onChange (io : Link) : M unit :=
  tryCatch
    (client <- gets mysqlClient ;;
     match client with
     | Some c => clientDisconnect (endOk io) c
     | None => ret tt
     end ;;;
     initializeMySQLClient (connectOk io) ;;;
     (* Clear cache when config changes *)
     modify (fun st => setCache (Cache.invalidate None (queryCache st)) st))
    (fun _ => ret tt).

(** the configuration source replaces its configuration, then notifies *)
Definition configChanged (newConfig : Config) (io : Link) (st : State) : State :=
  snd (onChange io (setConfig newConfig st)).

(** [initializeServices], up to the registration of the listener *)
Definition initializeServices (env : gmap string string) (config : Config)
    (ok : bool) : outcome unit * State :=
  initializeMySQLClient ok
    (mkState None (Auth.new env) (Cache.new None None) config
             (mkDriver ∅ 0 nil)).

(** *** The tools *)

Definition InvalidRequest : string := "InvalidRequest".
Definition InternalError : string := "InternalError".
Definition MethodNotFound : string := "MethodNotFound".

Definition Record_ := list (string * Json.JsParam).

Inductive Request :=
| mysql_auth (username password : string)
| mysql_query (session_id query : string) (params : option (list Json.JsParam))
| mysql_list_databases (session_id : string)
| mysql_list_tables (session_id : string) (database : option string)
| mysql_describe_table (session_id table : string) (database : option string)
| mysql_get_table_data (session_id table : string) (limit : option Z)
    (database : option string)
| mysql_insert (session_id table : string) (data : Record_)
    (database : option string)
| mysql_update (session_id table : string) (data where_ : Record_)
    (database : option string)
| mysql_delete (session_id table : string) (where_ : Record_)
    (database : option string)
| unknown_tool (name : string).

(** what the text of a successful response is made of *)
Inductive Reply :=
| AuthSuccessful (sessionId : string)
| CachedResult (rows : Rows)
| QueryResult (rows : Rows)
| Databases (rows : Rows)
| Tables (database : option string) (rows : Rows)
| Schema (table : string) (database : option string) (rows : Rows)
| TableData (table : string) (database : option string) (limit : Z) (rows : Rows)
| Inserted (table : string) (database : option string) (result : DbOutcome)
| Updated (table : string) (database : option string) (result : DbOutcome)
| Deleted (table : string) (database : option string) (result : DbOutcome).

(** the inputs of one tool call: the random session id, the clock as read
    by [get], by [evictOldest] and by [set], and the answer of the
    database to the one statement the call sends *)
Record Inputs := mkInputs {
  rnd : string;
  tGet : Z;
  tEvict : Z;
  tSet : Z;
  db : DbOutcome
}.

Definition authenticateAndAuthorize (sessionId operation : string)
    (sql : option string) : M unit :=
  am <- gets authManager ;;
  match Auth.getUserFromSession sessionId am with
  | None => throw (McpError InvalidRequest "Invalid session ID or session expired")
  | Some user =>
      let permission :=
        match sql with
        | Some q =>
            if String.eqb operation "mysql_query" && Str.truthy q
            then Auth.parseQueryPermission q
            else Auth.getPermissionForOperation operation
        | None => Auth.getPermissionForOperation operation
        end in
      if negb (Auth.hasPermission user permission)
      then throw (McpError InvalidRequest
                    (String.append "User "
                       (String.append (Auth.username user)
                          (String.append " does not have permission for "
                             (String.append (Auth.permissionValue permission)
                                            " operation")))))
      else ret tt
  end.

Definition liftResult {T} (r : T + Thrown) : M T :=
  match r with
  | inl v => ret v
  | inr e => throw e
  end.

Definition clientQuery (c : MySQLClient) (io : Inputs) : M Rows :=
  liftResult (Client.query c (db io)).

Definition clientExecute (c : MySQLClient) (io : Inputs) : M DbOutcome :=
  liftResult (Client.execute c (db io)).

Definition cacheGet (io : Inputs) (query : string)
    (params : option (list Json.JsParam)) : M (option Rows) :=
  fun st =>
    let '(r, qc) := Cache.get (tGet io) query params (queryCache st) in
    (Returned r, setCache qc st).

Definition cacheSet (io : Inputs) (query : string) (result : Rows)
    (params : option (list Json.JsParam)) : M unit :=
  modify (fun st =>
    setCache (Cache.set (tEvict io) (tSet io) query result params None
                        (queryCache st)) st).

Definition cacheInvalidateTable (table : string) : M unit :=
  modify (fun st => setCache (Cache.invalidateTable table (queryCache st)) st).

Definition handle (c : MySQLClient) (req : Request) (io : Inputs) : M Reply :=
  match req with
  | mysql_auth username password =>
      fun st =>
        match Auth.authenticate username password (rnd io) (authManager st) with
        | (Some sessionId, am) =>
            if negb (Str.truthy sessionId)
            then (Threw (McpError InvalidRequest "Invalid username or password"),
                  setAuth am st)
            else (Returned (AuthSuccessful sessionId), setAuth am st)
        | (None, am) =>
            (Threw (McpError InvalidRequest "Invalid username or password"),
             setAuth am st)
        end
  | mysql_query session_id query params =>
      authenticateAndAuthorize session_id "mysql_query" (Some query) ;;;
      (* Check cache first for read operations *)
      cached <- (if Cache.shouldCache query
                 then cacheGet io query params
                 else ret None) ;;
      match cached with
      | Some cachedResult => ret (CachedResult cachedResult)
      | None =>
          result <- clientQuery c io ;;
          (* Cache the result if it's a read operation *)
          (if Cache.shouldCache query
           then cacheSet io query result params
           else ret tt) ;;;
          ret (QueryResult result)
      end
  | mysql_list_databases session_id =>
      authenticateAndAuthorize session_id "mysql_list_databases" None ;;;
      rows <- clientQuery c io ;;
      ret (Databases rows)
  | mysql_list_tables session_id database =>
      authenticateAndAuthorize session_id "mysql_list_tables" None ;;;
      rows <- clientQuery c io ;;
      ret (Tables database rows)
  | mysql_describe_table session_id table database =>
      authenticateAndAuthorize session_id "mysql_describe_table" None ;;;
      rows <- clientQuery c io ;;
      ret (Schema table database rows)
  | mysql_get_table_data session_id table limit database =>
      authenticateAndAuthorize session_id "mysql_get_table_data" None ;;;
      rows <- clientQuery c io ;;
      ret (TableData table database
             (match limit with Some n => n | None => 100 end) rows)
  | mysql_insert session_id table data database =>
      authenticateAndAuthorize session_id "mysql_insert" None ;;;
      result <- clientExecute c io ;;
      (* Invalidate cache for this table *)
      cacheInvalidateTable table ;;;
      ret (Inserted table database result)
  | mysql_update session_id table data where_ database =>
      authenticateAndAuthorize session_id "mysql_update" None ;;;
      result <- clientExecute c io ;;
      cacheInvalidateTable table ;;;
      ret (Updated table database result)
  | mysql_delete session_id table where_ database =>
      authenticateAndAuthorize session_id "mysql_delete" None ;;;
      result <- clientExecute c io ;;
      cacheInvalidateTable table ;;;
      ret (Deleted table database result)
  | unknown_tool name =>
      throw (McpError MethodNotFound (String.append "Unknown tool: " name))
  end.

(** the [CallToolRequestSchema] handler *)
Definition callTool (req : Request) (io : Inputs) : M Reply :=
  client <- gets mysqlClient ;;
  match client with
  | None => throw (McpError InternalError "MySQL client not initialized")
  | Some c =>
      tryCatch (handle c req io)
               (fun error => throw (ToolExecutionFailed error))
  end.

End Server.

(** ** The tables of the specification, for comparison with the code *)

Module Spec.
Import Auth.

(** section 4.1: the permission classes each role is granted *)
Definition allows (r : UserRole) (c : Permission) : bool :=
  match r with
  | ADMIN => true
  | READ_WRITE =>
      match c with
      | SELECT | INSERT | UPDATE | SHOW | DESCRIBE => true
      | DELETE => false
      end
  | READ_ONLY =>
      match c with
      | SELECT | SHOW | DESCRIBE => true
      | INSERT | UPDATE | DELETE => false
      end
  end.

(** section 4.3: the leading keywords and their classes *)
Definition keywords : list (string * Permission) :=
  [ ("select", SELECT); ("insert", INSERT); ("update", UPDATE);
    ("delete", DELETE); ("show", SHOW); ("describe", DESCRIBE);
    ("desc", DESCRIBE) ].

Definition isLetter (c : ascii) : bool :=
  (97 <=? Str.code c) && (Str.code c <=? 122).

(** the leading token of a case-folded text: its first run of letters *)
Fixpoint leadingToken (s : string) : string :=
  match s with
  | EmptyString => EmptyString
  | String c s' => if isLetter c then String c (leadingToken s') else EmptyString
  end.

Fixpoint lookupKeyword (w : string) (table : list (string * Permission))
  : Permission :=
  match table with
  | nil => SELECT
  | (k, p) :: table' => if String.eqb w k then p else lookupKeyword w table'
  end.

(** section 4.3 read by tokens: the class of the leading token when it
    is one of the keywords, Select for every other leading token *)
Definition classifyToken (rawQuery : string) : Permission :=
  lookupKeyword (leadingToken (Str.toLowerCase (Str.trimStart rawQuery))) keywords.

(** a text made of whitespace only *)
Fixpoint allWhite (s : string) : bool :=
  match s with
  | EmptyString => true
  | String c s' => Str.isWhite c && allWhite s'
  end.

(** no character of [k] is whitespace *)
Fixpoint noWhite (k : string) : bool :=
  match k with
  | EmptyString => true
  | String c k' => negb (Str.isWhite c) && noWhite k'
  end.

(** the operations after whose success the handler invalidates a table *)
Definition invalidatedTable (req : Server.Request) : option string :=
  match req with
  | Server.mysql_insert _ table _ _ => Some table
  | Server.mysql_update _ table _ _ _ => Some table
  | Server.mysql_delete _ table _ _ => Some table
  | _ => None
  end.

(** the entry a [set] stores: the value, the time of the call and the
    time to live in force *)
Definition stored {A} (v : A) (now : Z) (ttl : option Z)
    (qc : Cache.QueryCache A) : Cache.CacheEntry A :=
  Cache.mkEntry v now
    (match ttl with
     | Some t => if t =? 0 then Cache.defaultTTL qc else t
     | None => Cache.defaultTTL qc
     end).

(** a configuration that [initializeMySQLClient] and the schema of the
    client accept: a user, a password and a port that is a number *)
Definition acceptable (config : Server.Config) : bool :=
  Str.truthy (Server.MYSQL_USER config)
  && Str.truthy (Server.MYSQL_PASSWORD config)
  && match Server.MYSQL_PORT config with Num.NaN => false | _ => true end.

Definition isHex (c : ascii) : bool :=
  ((48 <=? Str.code c) && (Str.code c <=? 57))
  || ((97 <=? Str.code c) && (Str.code c <=? 102)).

(** a collision of the hash: two texts with one digest *)
Definition collision (x y : string) : Prop :=
  x <> y /\ MD5.md5hex x = MD5.md5hex y.

End Spec.

(** ** A server started on the default registry, for the examples *)

Module Sample.

Definition configA : Server.Config :=
  Server.mkEnv "localhost" (Num.Int 3306) "root" "secret" (Some "shop").

Definition configB : Server.Config :=
  Server.mkEnv "localhost" (Num.Int 3306) "root" "secret" (Some "archive").

(** the services after a successful start under [configA] *)
Definition started : Server.State :=
  snd (Server.initializeServices ∅ configA true).

Definition inputs (db : Client.DbOutcome) : Server.Inputs :=
  Server.mkInputs "k3x9f" 1000 1000 1000 db.

Definition noRows : Client.DbOutcome := Client.DbRows nil.

Definition signIn (username password sessionId : string) (st : Server.State)
  : Server.State :=
  snd (Server.callTool (Server.mysql_auth username password)
         (Server.mkInputs sessionId 1000 1000 1000 noRows) st).

(** the started server with a session of each of the default accounts *)
Definition signedIn : Server.State :=
  signIn "readonly" "ro123" "ro7x2"
    (signIn "readwrite" "rw123" "rw4m8" (signIn "admin" "admin123" "k3x9f" started)).

Definition client : Client.MySQLClient :=
  Client.mkClient (Some 0%nat) (Server.connectionConfigOf configA).

Definition oneRow : Client.Rows := [[("id", Json.PNum 1)]].

(** the read-only user has read [t], and the rows are cached *)
Definition cachedRead : Server.State :=
  snd (Server.callTool (Server.mysql_query "ro7x2" "SELECT * FROM t" None)
         (inputs (Client.DbRows oneRow)) signedIn).

(** then the configuration changes and the new connection is refused *)
Definition disconnected : Server.State :=
  Server.configChanged configB (Server.mkLink true false) cachedRead.

End Sample.

(** ** [src/mysql-client.ts]: the statements of the helpers

    A record of the caller is the list of its keys and values in the
    order of [Object.keys]. *)

Module Statements.
Import Client.

(** [if (database)]: an absent and an empty database name are falsy *)
Definition given (database : option string) : option string :=
  match database with
  | Some d => if Str.truthy d then Some d else None
  | None => None
  end.

(** [`\`${database}\`.\`${tableName}\``], or the table alone *)
Definition target (tableName : string) (database : option string) : string :=
  match given database with
  | Some d => "`" +:+ d +:+ "`.`" +:+ tableName +:+ "`"
  | None => "`" +:+ tableName +:+ "`"
  end.

Definition listDatabasesSql : string := "SHOW DATABASES".

(** [rows.map(row => row.Database)]; a missing property is [undefined] *)
Definition listDatabases (rows : Rows) : list (option Json.JsParam) :=
  map (JsMap.get "Database") rows.

Definition listTablesSql (database : option string) : string :=
  match given database with
  | Some d => "SHOW TABLES FROM `" +:+ d +:+ "`"
  | None => "SHOW TABLES"
  end.

(** the column read is the first key of the first row *)
Definition listTables (rows : Rows) : list (option Json.JsParam) :=
  match rows with
  | nil => nil
  | firstRow :: _ =>
      match firstRow with
      | nil => nil
      | (key, _) :: _ =>
          if negb (Str.truthy key) then nil
          else map (JsMap.get key) rows
      end
  end.

Definition describeTableSql (tableName : string) (database : option string)
  : string :=
  "DESCRIBE " +:+ target tableName database.

Definition getTableDataSql (tableName : string) (database : option string)
  : string :=
  "SELECT * FROM " +:+ target tableName database +:+ " LIMIT ?".

Definition getTableDataValues (limit : Z) : list Json.JsParam :=
  [Json.PNum limit].

(** [values.map(() => '?').join(', ')] *)
Definition placeholders (values : list Json.JsParam) : string :=
  Json.join ", " (map (fun _ => "?") values).

(** [keys.map(key => `\`${key}\` = ?`).join(sep)] *)
Definition assignments (sep : string) (keys : list string) : string :=
  Json.join sep (map (fun key => "`" +:+ key +:+ "` = ?") keys).

Definition insertDataSql (tableName : string) (data : Server.Record_)
    (database : option string) : string :=
  let columns := map fst data in
  let values := map snd data in
  "INSERT INTO " +:+ target tableName database
  +:+ " (`" +:+ Json.join "`, `" columns +:+ "`) VALUES ("
  +:+ placeholders values +:+ ")".

Definition insertDataValues (data : Server.Record_) : list Json.JsParam :=
  map snd data.

Definition updateDataSql (tableName : string) (data where_ : Server.Record_)
    (database : option string) : string :=
  let setClause := assignments ", " (map fst data) in
  let whereClause := assignments " AND " (map fst where_) in
  "UPDATE " +:+ target tableName database +:+ " SET " +:+ setClause
  +:+ " WHERE " +:+ whereClause.

Definition updateDataValues (data where_ : Server.Record_)
  : list Json.JsParam :=
  (map snd data ++ map snd where_)%list.

Definition deleteDataSql (tableName : string) (where_ : Server.Record_)
    (database : option string) : string :=
  let whereClause := assignments " AND " (map fst where_) in
  "DELETE FROM " +:+ target tableName database +:+ " WHERE " +:+ whereClause.

Definition deleteDataValues (where_ : Server.Record_) : list Json.JsParam :=
  map snd where_.

(** the number of occurrences of a character *)
Fixpoint count (c : ascii) (s : string) : nat :=
  match s with
  | EmptyString => O
  | String a s' => ((if Ascii.eqb a c then 1 else 0) + count c s')%nat
  end.

End Statements.

(** ** [src/config-watcher.ts]

    [process.env] and the variables of the [.env] file are maps from
    names to texts.  The port is the number that [parseInt] returns. *)

Module Watcher.

Record Config := mkConfig {
  MYSQL_HOST : string;
  MYSQL_PORT : Num.t;
  MYSQL_USER : string;
  MYSQL_PASSWORD : string;
  MYSQL_DATABASE : option string;
  MYSQL_ADMIN_USER : option string;
  MYSQL_ADMIN_PASSWORD : option string;
  MYSQL_RW_USER : option string;
  MYSQL_RW_PASSWORD : option string;
  MYSQL_RO_USER : option string;
  MYSQL_RO_PASSWORD : option string
}.

(** [s.split(sep)] for a separator of one character *)
Fixpoint split (sep : ascii) (s : string) : list string :=
  match s with
  | EmptyString => [EmptyString]
  | String c s' =>
      if Ascii.eqb c sep then EmptyString :: split sep s'
      else match split sep s' with
           | x :: r => String c x :: r
           | nil => [String c EmptyString]
           end
  end.

(** [env[name] = value] on the plain object [env]: the name [__proto__]
    is the accessor of [Object.prototype], whose setter ignores a string
    and stores nothing *)
Definition assign (name value : string) (env : gmap string string)
  : gmap string string :=
  if String.eqb name "__proto__" then env else <[name := value]> env.

(** one line of the file, applied to the variables read so far *)
Definition parseLine (env : gmap string string) (line : string)
  : gmap string string :=
  let trimmed := Str.trim line in
  if Str.truthy trimmed && negb (Str.startsWith trimmed "#")
  then match split "=" trimmed with
       | key :: valueParts =>
           if Str.truthy key && (0 <? Z.of_nat (List.length valueParts))
           then assign (Str.trim key) (Str.trim (Json.join "=" valueParts)) env
           else env
       | nil => env
       end
  else env.

(** [parseEnvFile]: [None] is a file that cannot be read *)
Definition parseEnvFile (envFile : option string) : gmap string string :=
  match envFile with
  | None => ∅
  | Some text => fold_left parseLine (split "010" text) ∅
  end.

Definition isDigit (c : ascii) : bool :=
  (48 <=? Str.code c) && (Str.code c <=? 57).

Fixpoint digitPrefix (s : string) : string :=
  match s with
  | EmptyString => EmptyString
  | String c s' => if isDigit c then String c (digitPrefix s') else EmptyString
  end.

Definition hexValue (c : ascii) : option Z :=
  let n := Str.code c in
  if (48 <=? n) && (n <=? 57) then Some (n - 48)
  else if (97 <=? n) && (n <=? 102) then Some (n - 87)
  else if (65 <=? n) && (n <=? 70) then Some (n - 55)
  else None.

(** the value of the longest prefix of hexadecimal digits, if there is one *)
Fixpoint hexPrefix (acc : option Z) (s : string) : option Z :=
  match s with
  | EmptyString => acc
  | String c s' =>
      match hexValue c with
      | Some v =>
          hexPrefix (Some (16 * match acc with Some a => a | None => 0 end + v)) s'
      | None => acc
      end
  end.

(** a text of digits only *)
Definition allDigits (s : string) : Prop :=
  Forall (fun c => isDigit c = true) (Str.chars s).

(** the digits after an optional [0x] or [0X], which selects radix 16 *)
Definition unsignedInt (s : string) : option Z :=
  if Str.startsWith s "0x" || Str.startsWith s "0X"
  then hexPrefix None (String.substring 2 (String.length s - 2) s)
  else match digitPrefix s with
       | EmptyString => None
       | digits => option_map Z.of_uint (NilEmpty.uint_of_string digits)
       end.

(** the number of the digits read: NaN without a digit, else the double
    nearest to their value *)
Definition magnitude (s : string) : Num.t :=
  match unsignedInt s with
  | None => Num.NaN
  | Some v => Num.nearest v
  end.

(** [parseInt(s)] without a radix: leading whitespace, a sign, digits *)
Definition parseInt (s : string) : Num.t :=
  match Str.trimStart s with
  | EmptyString => Num.NaN
  | String c s' =>
      if Ascii.eqb c "-" then Num.opp (magnitude s')
      else if Ascii.eqb c "+" then magnitude s'
      else magnitude (String c s')
  end.

(** [config.MYSQL_PORT.toString()] *)
Definition portToString (port : Num.t) : string := Num.toString port.

(** a port that is NaN or an integer of magnitude below 2^53 *)
Definition safePort (port : Num.t) : bool :=
  match port with
  | Num.NaN => true
  | Num.Infinity _ => false
  | Num.Int n => Num.isSafe n
  end.

(** [loadConfig]: the variables of the process take precedence over
    those of the file *)
Definition loadConfig (envFile : option string) (processEnv : gmap string string)
  : Config :=
  let envVars := parseEnvFile envFile in
  let merged := processEnv ∪ envVars in
  mkConfig
    (Auth.envOr merged "MYSQL_HOST" "localhost")
    (parseInt (Auth.envOr merged "MYSQL_PORT" "3306"))
    (Auth.envOr merged "MYSQL_USER" "root")
    (Auth.envOr merged "MYSQL_PASSWORD" "")
    (merged !! "MYSQL_DATABASE")
    (merged !! "MYSQL_ADMIN_USER")
    (merged !! "MYSQL_ADMIN_PASSWORD")
    (merged !! "MYSQL_RW_USER")
    (merged !! "MYSQL_RW_PASSWORD")
    (merged !! "MYSQL_RO_USER")
    (merged !! "MYSQL_RO_PASSWORD").

(** [if (value) process.env.NAME = value] *)
Definition setIfTruthy (name : string) (value : option string)
    (processEnv : gmap string string) : gmap string string :=
  match value with
  | Some v => if Str.truthy v then <[name := v]> processEnv else processEnv
  | None => processEnv
  end.

Definition updateProcessEnv (config : Config) (processEnv : gmap string string)
  : gmap string string :=
  setIfTruthy "MYSQL_RO_PASSWORD" (MYSQL_RO_PASSWORD config)
    (setIfTruthy "MYSQL_RO_USER" (MYSQL_RO_USER config)
       (setIfTruthy "MYSQL_RW_PASSWORD" (MYSQL_RW_PASSWORD config)
          (setIfTruthy "MYSQL_RW_USER" (MYSQL_RW_USER config)
             (setIfTruthy "MYSQL_ADMIN_PASSWORD" (MYSQL_ADMIN_PASSWORD config)
                (setIfTruthy "MYSQL_ADMIN_USER" (MYSQL_ADMIN_USER config)
                   (setIfTruthy "MYSQL_DATABASE" (MYSQL_DATABASE config)
                      (<["MYSQL_PASSWORD" := MYSQL_PASSWORD config]>
                         (<["MYSQL_USER" := MYSQL_USER config]>
                            (<["MYSQL_PORT" := portToString (MYSQL_PORT config)]>
                               (<["MYSQL_HOST" := MYSQL_HOST config]>
                                  processEnv)))))))))).

(** the part of the configuration that [initializeMySQLClient] reads *)
Definition connectionPart (config : Config) : Server.Config :=
  Server.mkEnv (MYSQL_HOST config) (MYSQL_PORT config) (MYSQL_USER config)
               (MYSQL_PASSWORD config) (MYSQL_DATABASE config).

End Watcher.

(** ** Reading a parameter back from its JSON text

    The inverse of [Json.stringifyParam], by which the text that is
    hashed determines the parameters. *)

Module Reader.
Import Json.

Definition keep (c : ascii) (r : option (string * string))
  : option (string * string) :=
  match r with
  | Some (s, rest) => Some (String c s, rest)
  | None => None
  end.

(** the text of a string after its opening quote: the characters up to
    the closing quote, and what follows it *)
Fixpoint unquote (s : string) : option (string * string) :=
  match s with
  | EmptyString => None
  | String c s' =>
      if Ascii.eqb c dquote then Some (EmptyString, s')
      else if Ascii.eqb c "\" then
        match s' with
        | EmptyString => None
        | String e s'' =>
            if Ascii.eqb e dquote then keep dquote (unquote s'')
            else if Ascii.eqb e "\" then keep "\" (unquote s'')
            else if Ascii.eqb e "b" then keep (ascii_of_N 8) (unquote s'')
            else if Ascii.eqb e "t" then keep (ascii_of_N 9) (unquote s'')
            else if Ascii.eqb e "n" then keep (ascii_of_N 10) (unquote s'')
            else if Ascii.eqb e "f" then keep (ascii_of_N 12) (unquote s'')
            else if Ascii.eqb e "r" then keep (ascii_of_N 13) (unquote s'')
            else if Ascii.eqb e "u" then
              match s'' with
              | String _ (String _ (String h (String l s3))) =>
                  match Watcher.hexValue h, Watcher.hexValue l with
                  | Some a, Some b =>
                      keep (ascii_of_N (Z.to_N (16 * a + b))) (unquote s3)
                  | _, _ => None
                  end
              | _ => None
              end
            else None
        end
      else keep c (unquote s')
  end.

Fixpoint drop (n : nat) (s : string) : string :=
  match n, s with
  | S n', String _ s' => drop n' s'
  | _, _ => s
  end.

Definition isNumberChar (c : ascii) : bool :=
  Watcher.isDigit c || Ascii.eqb c "-".

(** the longest prefix made of digits and minus signs *)
Fixpoint numberPrefix (s : string) : string :=
  match s with
  | EmptyString => EmptyString
  | String c s' =>
      if isNumberChar c then String c (numberPrefix s') else EmptyString
  end.

(** one parameter at the head of a text, and the rest of the text *)
Definition readParam (s : string) : option (JsParam * string) :=
  match s with
  | EmptyString => None
  | String c s' =>
      if Ascii.eqb c dquote
      then match unquote s' with
           | Some (v, rest) => Some (PStr v, rest)
           | None => None
           end
      else if Str.startsWith s "true" then Some (PBool true, drop 4 s)
      else if Str.startsWith s "false" then Some (PBool false, drop 5 s)
      else if Str.startsWith s "null" then Some (PNull, drop 4 s)
      else
        let token := numberPrefix s in
        match NilZero.int_of_string token with
        | Some d => Some (PNum (Z.of_int d), drop (String.length token) s)
        | None => None
        end
  end.

(** a parameter whose number, if it is one, is below 2^53 in magnitude *)
Definition safe (p : JsParam) : bool :=
  match p with
  | PNum n => Num.isSafe n
  | _ => true
  end.

(** what follows a parameter in the text of an array *)
Definition closes (rest : string) : bool :=
  Str.startsWith rest "," || Str.startsWith rest "]".

Definition safeParams (params : option (list JsParam)) : Prop :=
  match params with
  | Some ps => Forall (fun p => safe p = true) ps
  | None => True
  end.

End Reader.

(** ** The permission each tool asks for, and runs of the server *)

Module Gate.
Import Server.

Definition sessionOf (req : Request) : option string :=
  match req with
  | mysql_auth _ _ | unknown_tool _ => None
  | mysql_query s _ _ | mysql_list_databases s | mysql_list_tables s _
  | mysql_describe_table s _ _ | mysql_get_table_data s _ _ _
  | mysql_insert s _ _ _ | mysql_update s _ _ _ _ | mysql_delete s _ _ _ => Some s
  end.

(** the permission class the gate checks for a tool call *)
Definition toolPermission (req : Request) : option Auth.Permission :=
  match req with
  | mysql_auth _ _ | unknown_tool _ => None
  | mysql_query _ query _ => Some (Auth.parseQueryPermission query)
  | mysql_list_databases _ | mysql_list_tables _ _ => Some Auth.SHOW
  | mysql_describe_table _ _ _ => Some Auth.DESCRIBE
  | mysql_get_table_data _ _ _ _ => Some Auth.SELECT
  | mysql_insert _ _ _ _ => Some Auth.INSERT
  | mysql_update _ _ _ _ _ => Some Auth.UPDATE
  | mysql_delete _ _ _ _ => Some Auth.DELETE
  end.

(** the error of a refused call *)
Definition denied (user : Auth.User) (permission : Auth.Permission)
  : Client.Thrown :=
  Client.ToolExecutionFailed
    (Client.McpError InvalidRequest
       ("User " +:+ Auth.username user +:+ " does not have permission for "
        +:+ Auth.permissionValue permission +:+ " operation")).

Definition invalidSession : Client.Thrown :=
  Client.ToolExecutionFailed
    (Client.McpError InvalidRequest "Invalid session ID or session expired").

(** an event: a change of configuration, or a tool call, with the
    answers of the driver while it is handled *)
Inductive Step :=
| ConfigChange (newConfig : Config) (io : Link)
| ToolCall (req : Request) (io : Inputs).

(** one event, handled from its start to its end *)
Definition step (st : State) (s : Step) : State :=
  match s with
  | ConfigChange newConfig io => configChanged newConfig io st
  | ToolCall req io => snd (callTool req io st)
  end.

(** a run in which each event is handled to its end before the next
    one starts.  The listener and the handlers are asynchronous and are
    not awaited by their callers: the runs in which two of them overlap
    are not runs of this definition. *)
Definition run (steps : list Step) (st : State) : State :=
  fold_left step steps st.

(** the open connections are exactly the one of the client, if it has one *)
Definition oneConnection (st : State) : Prop :=
  match mysqlClient st with
  | Some c =>
      match Client.connection c with
      | Some h => Client.live (driver st) = {[ h ]}
                  /\ (h < Client.fresh (driver st))%nat
      | None => Client.live (driver st) = ∅
      end
  | None => Client.live (driver st) = ∅
  end.

(** the operations of the cache *)
Inductive CacheOp (A : Type) :=
| OpGet (now : Z) (sql : string) (params : option (list Json.JsParam))
| OpSet (nowEvict now : Z) (sql : string) (v : A)
    (params : option (list Json.JsParam)) (ttl : option Z)
| OpInvalidate (pattern : option string)
| OpInvalidateTable (tableName : string)
| OpCleanExpired (now : Z).
Arguments OpGet {A}.
Arguments OpSet {A}.
Arguments OpInvalidate {A}.
Arguments OpInvalidateTable {A}.
Arguments OpCleanExpired {A}.

Definition apply {A} (qc : Cache.QueryCache A) (op : CacheOp A)
  : Cache.QueryCache A :=
  match op with
  | OpGet now sql params => snd (Cache.get now sql params qc)
  | OpSet nowEvict now sql v params ttl =>
      Cache.set nowEvict now sql v params ttl qc
  | OpInvalidate pattern => Cache.invalidate pattern qc
  | OpInvalidateTable tableName => Cache.invalidateTable tableName qc
  | OpCleanExpired now => Cache.cleanExpired now qc
  end.

(** a key is a digest: 32 characters among [0-9a-f] *)
Definition isDigest (k : string) : bool :=
  (String.length k =? 32)%nat && forallb Spec.isHex (Str.chars k).

(** the keys of the cache are distinct digests *)
Definition digestKeys {A} (qc : Cache.QueryCache A) : Prop :=
  NoDup (JsMap.keys (Cache.cache qc))
  /\ Forall (fun k => isDigest k = true) (JsMap.keys (Cache.cache qc)).

End Gate.

(** ** The listener, await by await

    The listener registered with [onChange] is an asynchronous function
    that nothing awaits.  It is suspended while the driver closes the old
    connection and while it opens the new one, and other events are
    handled in the meantime; between two such points it runs without
    interruption.  A client is an object: the variable [mysqlClient]
    refers to one, and so does [this] in a suspended [disconnect] or
    [connect], whatever [mysqlClient] refers to by then. *)

Module Async.
Import Client.

(** where a run of the listener is suspended *)
Inductive Progress :=
| AwaitEnd (this : nat) (h : nat)   (* [await this.connection.end()] *)
| AwaitCreate (this : nat)          (* [await mysql.createConnection(...)] *)
| Finished.

Record State := mkState {
  heap : list MySQLClient;          (* the client objects, by address *)
  mysqlClient : option nat;         (* the variable [mysqlClient] *)
  authManager : Auth.AuthManager;
  queryCache : Cache.QueryCache Rows;
  configWatcher : Server.Config;
  driver : Driver;
  runs : list Progress              (* the runs of the listener, oldest first *)
}.

(** [initializeMySQLClient] up to [await mysql.createConnection(...)]: the
    state it leaves, and where the run of the listener is then; an error
    is caught by the listener, which ends *)
Definition startInit (a : State) : State * Progress :=
  let connectionConfig := Server.connectionConfigOf (configWatcher a) in
  if negb (Str.truthy (user connectionConfig))
     || negb (Str.truthy (password connectionConfig))
  then (a, Finished)
  else
    match Client.new connectionConfig with
    | None => (a, Finished)
    | Some c =>
        let this := List.length (heap a) in
        (mkState (heap a ++ [c]) (Some this) (authManager a) (queryCache a)
                 (configWatcher a) (driver a) (runs a),
         AwaitCreate this)
    end.

Definition setRuns (ts : list Progress) (a : State) : State :=
  mkState (heap a) (mysqlClient a) (authManager a) (queryCache a)
          (configWatcher a) (driver a) ts.

Inductive Event :=
| Change (newConfig : Server.Config)   (* the listener is called *)
| EndSettled (t : nat) (ok : bool)     (* [end()] of the run [t] settles *)
| CreateSettled (t : nat) (ok : bool). (* its [createConnection] does *)

(** the listener from its call to its first suspension *)
Definition called (a : State) : State * Progress :=
  match mysqlClient a with
  | Some this =>
      match heap a !! this with
      | Some c =>
          match connection c with
          | Some h => (a, AwaitEnd this h)
          | None => startInit a
          end
      | None => startInit a
      end
  | None => startInit a
  end.

Definition step (a : State) (e : Event) : State :=
  match e with
  | Change newConfig =>
      let '(a', progress) :=
        called (mkState (heap a) (mysqlClient a) (authManager a) (queryCache a)
                        newConfig (driver a) (runs a)) in
      setRuns (runs a ++ [progress]) a'
  | EndSettled t ok =>
      match runs a !! t with
      | Some (AwaitEnd this h) =>
          if ok
          then
            let d := driver a in
            let '(a', progress) :=
              startInit
                (mkState
                   (alter (fun c => mkClient None (config c)) this (heap a))
                   (mysqlClient a) (authManager a) (queryCache a)
                   (configWatcher a)
                   (mkDriver (live d ∖ {[ h ]}) (fresh d) (trace d ++ [Closed h]))
                   (runs a)) in
            setRuns (<[t := progress]> (runs a)) a'
          else setRuns (<[t := Finished]> (runs a)) a
      | _ => a
      end
  | CreateSettled t ok =>
      match runs a !! t with
      | Some (AwaitCreate this) =>
          match heap a !! this with
          | Some c =>
              let d := driver a in
              if ok
              then
                mkState
                  (<[this := mkClient (Some (fresh d)) (config c)]> (heap a))
                  (mysqlClient a) (authManager a)
                  (Cache.invalidate None (queryCache a)) (configWatcher a)
                  (mkDriver ({[ fresh d ]} ∪ live d) (S (fresh d))
                            (trace d ++ [Opened (fresh d) (config c)]))
                  (<[t := Finished]> (runs a))
              else
                mkState (heap a) (mysqlClient a) (authManager a) (queryCache a)
                        (configWatcher a)
                        (mkDriver (live d) (fresh d)
                                  (trace d ++ [Refused (config c)]))
                        (<[t := Finished]> (runs a))
          | None => a
          end
      | _ => a
      end
  end.

Definition run (events : list Event) (a : State) : State :=
  fold_left step events a.

(** the state as the handlers see it *)
Definition view (a : State) : Server.State :=
  Server.mkState (mysqlClient a ≫= (fun this => heap a !! this))
                 (authManager a) (queryCache a) (configWatcher a) (driver a).

(** a state in which no run of the listener is suspended *)
Definition idle (st : Server.State) : State :=
  mkState (match Server.mysqlClient st with Some c => [c] | None => nil end)
          (match Server.mysqlClient st with Some _ => Some O | None => None end)
          (Server.authManager st) (Server.queryCache st)
          (Server.configWatcher st) (Server.driver st) nil.

(** one change handled to its end before anything else happens *)
Definition alone (newConfig : Server.Config) (io : Server.Link) (a : State)
  : State :=
  let t := List.length (runs a) in
  run [Change newConfig; EndSettled t (Server.endOk io);
       CreateSettled t (Server.connectOk io)] a.

(** the variable [mysqlClient] refers to an object *)
Definition wellFormed (a : State) : Prop :=
  match mysqlClient a with
  | Some this => (this < List.length (heap a))%nat
  | None => True
  end.

End Async.

(** * Properties *)

(** ** The digest: the test suite of RFC 1321, and two longer messages *)

Lemma md5_test_suite :
  MD5.md5hex "" = "d41d8cd98f00b204e9800998ecf8427e"
  /\ MD5.md5hex "a" = "0cc175b9c0f1b6a831c399e269772661"
  /\ MD5.md5hex "abc" = "900150983cd24fb0d6963f7d28e17f72"
  /\ MD5.md5hex "message digest" = "f96b697d7cb7938d525a2f31aaf161d0"
  /\ MD5.md5hex "abcdefghijklmnopqrstuvwxyz" = "c3fcd3d76192e4007dfb496cca67e13b"
  /\ MD5.md5hex "ABCDEFGHIJKLMNOPQRSTUVWXYZabcdefghijklmnopqrstuvwxyz0123456789"
     = "d174ab98d277d9f5a5611c2c9f419d9f"
  /\ MD5.md5hex "12345678901234567890123456789012345678901234567890123456789012345678901234567890"
     = "57edf4a22be3c955ac49da2e2107b67a".
Proof. repeat split; vm_compute; reflexivity. Qed.

Lemma md5_of_cached_queries :
  MD5.md5hex "SELECT * FROM users" = "a4fc5c1e8c543e92a123211bce782272"
  /\ MD5.md5hex "SELECT * FROM products" = "ff5b0a6a018c4776b09f076275fdd727".
Proof. split; vm_compute; reflexivity. Qed.

(** texts with characters from U+0080 on are hashed as UTF-8: the text
    of U+00E9 alone, and [caf] followed by U+00E9, a space, U+00A0 and
    U+00FF *)
Lemma md5_of_latin1 :
  MD5.md5hex (String (ascii_of_N 233) "") = "66ddcd97cfdeabb2f6fb8a999b4bc76f"
  /\ MD5.md5hex
       ("caf" +:+ String (ascii_of_N 233)
                    (String " " (String (ascii_of_N 160)
                                   (String (ascii_of_N 255) ""))))
     = "6292c9fb0ee8e714a37e588dd32215ec".
Proof. split; vm_compute; reflexivity. Qed.

(** ** Numbers: what [parseInt] reads and [toString] prints *)

Lemma parseInt_examples :
  Watcher.parseInt "3306" = Num.Int 3306
  /\ Watcher.parseInt "  -42abc" = Num.Int (-42)
  /\ Watcher.parseInt "0x1F" = Num.Int 31
  /\ Watcher.parseInt "abc" = Num.NaN
  /\ Watcher.parseInt "" = Num.NaN
  /\ Watcher.parseInt "Infinity" = Num.NaN
  /\ Watcher.parseInt "9007199254740993" = Num.Int 9007199254740992
  /\ Watcher.parseInt "999999999999999999999" = Num.Int (10 ^ 21)
  /\ Watcher.parseInt "100000000000000000000000"
     = Num.Int 99999999999999991611392
  /\ Watcher.parseInt "1e+21" = Num.Int 1
  /\ Num.nearest ((2 ^ 53 - 1) * 2 ^ 971 + 2 ^ 970 - 1)
     = Num.Int ((2 ^ 53 - 1) * 2 ^ 971)
  /\ Num.nearest ((2 ^ 53 - 1) * 2 ^ 971 + 2 ^ 970) = Num.Infinity false.
Proof. repeat split; vm_compute; reflexivity. Qed.

Lemma toString_examples :
  Num.toString (Num.Int 3306) = "3306"
  /\ Num.toString (Num.Int (-42)) = "-42"
  /\ Num.toString (Num.Int 0) = "0"
  /\ Num.toString (Num.Int (2 ^ 53)) = "9007199254740992"
  /\ Num.toString (Num.Int (2 ^ 60)) = "1152921504606847000"
  /\ Num.toString (Num.Int (2 ^ 64)) = "18446744073709552000"
  /\ Num.toString (Num.Int 766255669847101407232) = "766255669847101400000"
  /\ Num.toString (Num.Int (10 ^ 21)) = "1e+21"
  /\ Num.toString (Num.Int (10 ^ 22)) = "1e+22"
  /\ Num.toString (Num.Int 99999999999999991611392) = "1e+23"
  /\ Num.toString (Num.Int (2 ^ 70)) = "1.1805916207174113e+21"
  /\ Num.toString (Num.Int (- 2 ^ 70)) = "-1.1805916207174113e+21"
  /\ Num.toString (Num.Int 123456789012345677877719597056)
     = "1.2345678901234568e+29"
  /\ Num.toString (Num.Int (2 ^ 1023)) = "8.98846567431158e+307"
  /\ Num.toString (Num.Int ((2 ^ 53 - 1) * 2 ^ 971)) = "1.7976931348623157e+308"
  /\ Num.toString (Num.Infinity true) = "-Infinity"
  /\ Num.toString Num.NaN = "NaN".
Proof. repeat split; vm_compute; reflexivity. Qed.

(** ** Strings *)

Section StringFacts.

Lemma lowerChar_white c : Str.isWhite (Str.lowerChar c) = Str.isWhite c.
Proof.
  destruct c as [[] [] [] [] [] [] [] []]; vm_compute; reflexivity.
Qed.

Lemma toLowerCase_app s t :
  Str.toLowerCase (String.append s t)
  = String.append (Str.toLowerCase s) (Str.toLowerCase t).
Proof.
  induction s as [|c s IH]; simpl; [reflexivity | now rewrite IH].
Qed.

Lemma toLowerCase_trimStart s :
  Str.toLowerCase (Str.trimStart s) = Str.trimStart (Str.toLowerCase s).
Proof.
  induction s as [|c s IH]; simpl; [reflexivity|].
  rewrite lowerChar_white. destruct (Str.isWhite c); [exact IH | reflexivity].
Qed.

Lemma toLowerCase_trimEnd s :
  Str.toLowerCase (Str.trimEnd s) = Str.trimEnd (Str.toLowerCase s).
Proof.
  induction s as [|c s IH]; simpl; [reflexivity|].
  rewrite <- IH, lowerChar_white.
  destruct (Str.trimEnd s); simpl; [destruct (Str.isWhite c)|]; reflexivity.
Qed.

Lemma trimStart_white ws s :
  Spec.allWhite ws = true ->
  Str.trimStart (String.append ws s) = Str.trimStart s.
Proof.
  induction ws as [|c ws IH]; simpl; [reflexivity|].
  intros [Hc Hws]%andb_prop. rewrite Hc. auto.
Qed.

Lemma allWhite_lower ws :
  Spec.allWhite (Str.toLowerCase ws) = Spec.allWhite ws.
Proof.
  induction ws as [|c ws IH]; simpl; [reflexivity|].
  now rewrite lowerChar_white, IH.
Qed.

(** trimming the end does not change whether a text starts with a word *)
Lemma startsWith_trimEnd k : forall s,
  Spec.noWhite k = true ->
  Str.startsWith (Str.trimEnd s) k = Str.startsWith s k.
Proof.
  unfold Str.startsWith.
  induction k as [|a k IH]; intros s Hk; [destruct s, (Str.trimEnd _); reflexivity|].
  simpl in Hk. apply andb_prop in Hk as [Ha Hk].
  destruct s as [|c s]; [reflexivity|].
  simpl. destruct (ascii_dec a c) as [->|Hne].
  - apply negb_true_iff in Ha.
    replace (match Str.trimEnd s with
             | EmptyString => if Str.isWhite c then EmptyString else String c EmptyString
             | String a0 s0 => String c (String a0 s0)
             end) with (String c (Str.trimEnd s))
      by (rewrite Ha; destruct (Str.trimEnd s); reflexivity).
    simpl. destruct (ascii_dec c c); [|congruence]. now apply IH.
  - destruct (Str.trimEnd s); [destruct (Str.isWhite c)|]; simpl; try reflexivity;
      destruct (ascii_dec a c); congruence.
Qed.

Lemma prefix_nil s : String.prefix EmptyString s = true.
Proof. destruct s; reflexivity. Qed.

Lemma prefix_cons a p b s :
  String.prefix (String a p) (String b s)
  = if ascii_dec a b then String.prefix p s else false.
Proof. reflexivity. Qed.

Lemma startsWith_app k s : Str.startsWith (String.append k s) k = true.
Proof.
  unfold Str.startsWith. induction k as [|a k IH]; simpl.
  - destruct s; reflexivity.
  - destruct (ascii_dec a a); [exact IH | congruence].
Qed.

End StringFacts.

(** ** Permission model *)

(** C3.  For every user, whatever its role, and every permission class,
    [hasPermission] answers as the table of section 4.1: Admin is allowed
    all six classes, ReadWrite all but Delete, ReadOnly only Select, Show
    and Describe. *)
Theorem hasPermission_matches_table (u : Auth.User) (c : Auth.Permission) :
  Auth.hasPermission u c = Spec.allows (Auth.role u) c.
Proof.
  unfold Auth.hasPermission. destruct (Auth.role u), c; reflexivity.
Qed.

(** ** Query classifier *)

(** the trailing trim is irrelevant: the class is decided by the text
    after the leading whitespace, case-folded *)
Lemma parseQueryPermission_leading sql :
  let t := Str.toLowerCase (Str.trimStart sql) in
  Auth.parseQueryPermission sql =
    if Str.startsWith t "select" then Auth.SELECT
    else if Str.startsWith t "insert" then Auth.INSERT
    else if Str.startsWith t "update" then Auth.UPDATE
    else if Str.startsWith t "delete" then Auth.DELETE
    else if Str.startsWith t "show" then Auth.SHOW
    else if Str.startsWith t "describe" || Str.startsWith t "desc"
         then Auth.DESCRIBE
    else Auth.SELECT.
Proof.
  unfold Auth.parseQueryPermission, Str.trim. cbv zeta.
  rewrite toLowerCase_trimEnd.
  rewrite !startsWith_trimEnd by reflexivity. reflexivity.
Qed.

Lemma shouldCache_leading sql :
  let t := Str.toLowerCase (Str.trimStart sql) in
  Cache.shouldCache sql =
    (Str.startsWith t "select" || Str.startsWith t "show"
     || Str.startsWith t "describe" || Str.startsWith t "desc").
Proof.
  unfold Cache.shouldCache, Str.trim. cbv zeta.
  rewrite toLowerCase_trimEnd.
  rewrite !startsWith_trimEnd by reflexivity. reflexivity.
Qed.

(** C4, as the code has it.  The class of a query is decided by a prefix
    test on its text after the leading whitespace, case-folded: a text
    that starts with one of the keywords, in any case and whatever
    follows it, has the class of that keyword; a text that starts with
    none of them is a Select, as are the empty text and an ALTER
    statement. *)
Theorem parseQueryPermission_by_prefix :
  (forall ws kw rest k p,
      Spec.allWhite ws = true ->
      In (k, p) Spec.keywords ->
      Str.toLowerCase kw = k ->
      Auth.parseQueryPermission (String.append ws (String.append kw rest)) = p)
  /\ (forall sql,
         (forall k p, In (k, p) Spec.keywords ->
                      Str.startsWith (Str.toLowerCase (Str.trimStart sql)) k = false) ->
         Auth.parseQueryPermission sql = Auth.SELECT)
  /\ Auth.parseQueryPermission "" = Auth.SELECT
  /\ Auth.parseQueryPermission "ALTER TABLE t ADD COLUMN c INT" = Auth.SELECT.
Proof.
  split; [|split; [|split; reflexivity]].
  - intros ws kw rest k p Hws Hin Hk.
    rewrite parseQueryPermission_leading. cbv zeta.
    rewrite toLowerCase_trimStart, !toLowerCase_app, Hk.
    rewrite trimStart_white by (now rewrite allWhite_lower).
    simpl in Hin.
    repeat (destruct Hin as [Hin|Hin];
            [ injection Hin as <- <-; simpl; unfold Str.startsWith;
              rewrite ?prefix_nil;
              repeat match goal with
                     | |- context [String.prefix ?a ?b] =>
                         destruct (String.prefix a b)
                     end;
              reflexivity
            | ]).
    contradiction.
  - intros sql Hnone.
    rewrite parseQueryPermission_leading. cbv zeta.
    rewrite (Hnone "select" Auth.SELECT), (Hnone "insert" Auth.INSERT),
      (Hnone "update" Auth.UPDATE), (Hnone "delete" Auth.DELETE),
      (Hnone "show" Auth.SHOW), (Hnone "describe" Auth.DESCRIBE),
      (Hnone "desc" Auth.DESCRIBE) by (simpl; tauto).
    reflexivity.
Qed.

(** a query in mixed case after blanks, a query after the no-break space
    U+00A0, which [trim] strips too, and one that starts with no keyword *)
Lemma parseQueryPermission_by_prefix_witness :
  Auth.parseQueryPermission "  SeLeCt * FROM t" = Auth.SELECT
  /\ Auth.parseQueryPermission " DESC t " = Auth.DESCRIBE
  /\ Auth.parseQueryPermission (String (ascii_of_N 160) "DELETE FROM t")
     = Auth.DELETE
  /\ Auth.parseQueryPermission "GRANT ALL ON t TO u" = Auth.SELECT.
Proof.
  destruct parseQueryPermission_by_prefix as (Hkw & Hnone & _).
  split; [|split; [|split]].
  - apply (Hkw "  " "SeLeCt" " * FROM t" "select" Auth.SELECT);
      [reflexivity | simpl; tauto | reflexivity].
  - apply (Hkw " " "DESC" " t " "desc" Auth.DESCRIBE);
      [reflexivity | simpl; tauto | reflexivity].
  - apply (Hkw (String (ascii_of_N 160) "") "DELETE" " FROM t" "delete"
               Auth.DELETE);
      [reflexivity | simpl; tauto | reflexivity].
  - apply Hnone. intros k p Hin. simpl in Hin.
    repeat (destruct Hin as [Hin|Hin]; [injection Hin as <- <-; reflexivity|]).
    contradiction.
Defined.

(** C4, as it is worded: a leading token other than the keywords is not
    always a Select.  The token [deleted] is none of the keywords, and the
    query is classified as a Delete. *)
Lemma leading_token_counterexample :
  Spec.leadingToken (Str.toLowerCase (Str.trimStart "DELETED FROM t")) = "deleted"
  /\ Spec.classifyToken "DELETED FROM t" = Auth.SELECT
  /\ Auth.parseQueryPermission "DELETED FROM t" = Auth.DELETE.
Proof. repeat split; reflexivity. Qed.

(** ** The insertion-ordered map *)

Section JsMapFacts.
Context {V : Type}.
Implicit Types (m : JsMap.t V) (k : string) (v : V).

Lemma get_set_eq k v m : JsMap.get k (JsMap.set k v m) = Some v.
Proof.
  induction m as [|[k' v'] m IH]; simpl.
  - now rewrite String.eqb_refl.
  - destruct (String.eqb k' k) eqn:E; simpl.
    + now rewrite String.eqb_refl.
    + now rewrite E.
Qed.

Lemma get_set_ne k k' v m :
  k <> k' -> JsMap.get k' (JsMap.set k v m) = JsMap.get k' m.
Proof.
  intros Hne. induction m as [|[k0 v0] m IH]; simpl.
  - apply String.eqb_neq in Hne. now rewrite Hne.
  - destruct (String.eqb k0 k) eqn:E; simpl.
    + apply String.eqb_eq in E. subst k0.
      apply String.eqb_neq in Hne. now rewrite Hne.
    + now rewrite IH.
Qed.

Lemma get_delete_ne k k' m :
  k <> k' -> JsMap.get k' (JsMap.delete k m) = JsMap.get k' m.
Proof.
  intros Hne. induction m as [|[k0 v0] m IH]; simpl; [reflexivity|].
  destruct (String.eqb k0 k) eqn:E; simpl.
  - apply String.eqb_eq in E. subst k0.
    apply String.eqb_neq in Hne. now rewrite Hne.
  - now rewrite IH.
Qed.

Lemma get_In k v m : JsMap.get k m = Some v -> In (k, v) m.
Proof.
  induction m as [|[k0 v0] m IH]; simpl; [discriminate|].
  destruct (String.eqb k0 k) eqn:E.
  - apply String.eqb_eq in E. intros [= ->]. left. now subst.
  - intros H. right. auto.
Qed.

Lemma delete_In k x m : In x (JsMap.delete k m) -> In x m.
Proof.
  induction m as [|[k0 v0] m IH]; simpl; [tauto|].
  destruct (String.eqb k0 k); simpl; intuition.
Qed.

Lemma size_set_new k v m :
  JsMap.has k m = false ->
  JsMap.size (JsMap.set k v m) = JsMap.size m + 1.
Proof.
  unfold JsMap.has, JsMap.size. intros Hnew.
  enough (List.length (JsMap.set k v m) = S (List.length m)) as -> by lia.
  induction m as [|[k0 v0] m IH]; simpl in *; [reflexivity|].
  destruct (String.eqb k0 k); [discriminate|]. simpl. now rewrite IH.
Qed.

(** a filter that only looks at keys keeps or drops all the entries of a key *)
Lemma get_filter_key (f : string -> bool) k m :
  f k = true ->
  JsMap.get k (List.filter (fun ke => f (fst ke)) m) = JsMap.get k m.
Proof.
  intros Hk. induction m as [|[k0 v0] m IH]; simpl; [reflexivity|].
  destruct (String.eqb k0 k) eqn:E.
  - apply String.eqb_eq in E. subst k0. rewrite Hk. simpl.
    now rewrite String.eqb_refl.
  - destruct (f k0); simpl; [now rewrite E|]; exact IH.
Qed.

End JsMapFacts.

(** ** Keys are hexadecimal digests *)

Lemma hexDigit_isHex n : 0 <= n < 16 -> Spec.isHex (MD5.hexDigit n) = true.
Proof.
  intros Hn.
  assert (Hm : (Z.to_nat n < 16)%nat) by lia.
  replace n with (Z.of_nat (Z.to_nat n)) by lia.
  revert Hm. generalize (Z.to_nat n) as m. intros m Hm.
  do 16 (destruct m as [|m]; [reflexivity|]). lia.
Qed.

Lemma hex_isHex bs c :
  In c (Str.chars (MD5.hex bs)) -> Spec.isHex c = true.
Proof.
  induction bs as [|b bs IH]; simpl; [tauto|].
  intros [<-|[<-|H]]; auto; apply hexDigit_isHex; apply Z.mod_pos_bound; lia.
Qed.

Lemma generateKey_isHex sql params c :
  In c (Str.chars (Cache.generateKey sql params)) -> Spec.isHex c = true.
Proof. apply hex_isHex. Qed.

Lemma prefix_chars p : forall s c,
  String.prefix p s = true -> In c (Str.chars p) -> In c (Str.chars s).
Proof.
  induction p as [|a p IH]; intros s c Hp Hc; [contradiction|].
  destruct s as [|b s]; [discriminate|]. simpl in Hp.
  destruct (ascii_dec a b) as [->|]; [|discriminate].
  destruct Hc as [<-|Hc]; [now left | right; eauto].
Qed.

(** a text includes a pattern only if it has all the characters of it *)
Lemma includes_chars s p c :
  Str.includes s p = true -> In c (Str.chars p) -> In c (Str.chars s).
Proof.
  induction s as [|a s IH].
  - destruct p; simpl; [tauto | discriminate].
  - change (Str.includes (String a s) p)
      with (if Str.startsWith (String a s) p then true else Str.includes s p).
    unfold Str.startsWith.
    destruct (String.prefix p (String a s)) eqn:E; intros H Hc.
    + exact (prefix_chars p (String a s) c E Hc).
    + right. auto.
Qed.

(** no key includes a pattern that has a character outside [0-9a-f] *)
Lemma key_never_includes sql params pattern c :
  In c (Str.chars pattern) -> Spec.isHex c = false ->
  Str.includes (Cache.generateKey sql params) pattern = false.
Proof.
  intros Hc Hhex.
  destruct (Str.includes _ pattern) eqn:E; [|reflexivity].
  pose proof (generateKey_isHex sql params c (includes_chars _ _ _ E Hc)).
  congruence.
Qed.

(** ** Result cache *)

Section CacheFacts.
Context {A : Type}.
Implicit Types (qc : Cache.QueryCache A) (v : A).

(** what a caller of [get] sees *)
Lemma get_result now sql params qc :
  fst (Cache.get now sql params qc) =
    match JsMap.get (Cache.generateKey sql params) (Cache.cache qc) with
    | None => None
    | Some e => if Cache.isExpired now e then None else Some (Cache.data e)
    end.
Proof.
  unfold Cache.get.
  destruct (JsMap.get _ _) as [e|]; [destruct (Cache.isExpired now e)|]; reflexivity.
Qed.

(** the scan of [evictOldest] finds nothing when no entry is older than
    the clock it starts from *)
Lemma oldestScan_none now (m : JsMap.t (Cache.CacheEntry A)) :
  (forall k e, In (k, e) m -> now <= Cache.timestamp e) ->
  Cache.oldestScan now m = (EmptyString, now).
Proof.
  unfold Cache.oldestScan. generalize (EmptyString : string).
  induction m as [|[k e] m IH]; intros k0 Hm; simpl; [reflexivity|].
  destruct (Z.ltb_spec (Cache.timestamp e) now) as [Hlt|_].
  - specialize (Hm k e (or_introl eq_refl)). lia.
  - apply IH. intros k' e' Hin. apply (Hm k' e'). now right.
Qed.

Lemma evictOldest_none now qc :
  (forall k e, In (k, e) (Cache.cache qc) -> now <= Cache.timestamp e) ->
  Cache.evictOldest now qc = qc.
Proof.
  intros Hm. unfold Cache.evictOldest.
  destruct (JsMap.size (Cache.cache qc) =? 0); [reflexivity|].
  now rewrite oldestScan_none.
Qed.

(** the scan returns a lower bound of the timestamps; it is the clock it
    started from, or the timestamp of an entry strictly older than it *)
Lemma oldestScan_spec now (m : JsMap.t (Cache.CacheEntry A)) :
  let r := Cache.oldestScan now m in
  (forall k e, In (k, e) m -> snd r <= Cache.timestamp e)
  /\ (r = (EmptyString, now)
      \/ exists e, In (fst r, e) m /\ Cache.timestamp e = snd r /\ snd r < now).
Proof.
  unfold Cache.oldestScan. generalize (EmptyString : string) as k0.
  generalize now as t0.
  induction m as [|[k e] m IH]; intros t0 k0; simpl.
  - split; [tauto | now left].
  - destruct (Z.ltb_spec (Cache.timestamp e) t0) as [Hlt|Hge].
    + destruct (IH (Cache.timestamp e) k) as (Hlow & Hwhich).
      assert (Hhead : snd (fold_left
                (fun (acc : string * Z) (ke : string * Cache.CacheEntry A) =>
                   if Cache.timestamp (snd ke) <? snd acc
                   then (fst ke, Cache.timestamp (snd ke)) else acc)
                m (k, Cache.timestamp e)) <= Cache.timestamp e).
      { destruct Hwhich as [->|(e' & _ & _ & Hlt')]; simpl; lia. }
      split.
      * intros k' e' [[= <- <-]|Hin]; [exact Hhead | eauto].
      * right. destruct Hwhich as [->|(e' & Hin & Hts & Hlt')]; simpl.
        -- exists e. auto.
        -- exists e'. repeat split; auto. lia.
    + destruct (IH t0 k0) as (Hlow & Hwhich).
      split.
      * intros k' e' [[= <- <-]|Hin]; [|eauto].
        destruct Hwhich as [->|(e' & _ & _ & Hlt')]; simpl; lia.
      * destruct Hwhich as [->|(e' & Hin & Hts & Hlt')]; [now left|].
        right. exists e'. auto.
Qed.

Lemma size_delete_In k e (m : JsMap.t (Cache.CacheEntry A)) :
  In (k, e) m -> JsMap.size (JsMap.delete k m) = JsMap.size m - 1.
Proof.
  unfold JsMap.size. induction m as [|[k0 e0] m IH]; simpl; [tauto|].
  destruct (String.eqb_spec k0 k) as [->|Hne].
  - intros _. lia.
  - intros [[= -> ->]|Hin]; [congruence|]. simpl.
    specialize (IH Hin). destruct m; simpl in *; [tauto | lia].
Qed.

Lemma has_delete k k' (m : JsMap.t (Cache.CacheEntry A)) :
  JsMap.has k m = false -> JsMap.has k (JsMap.delete k' m) = false.
Proof.
  unfold JsMap.has. induction m as [|[k0 e0] m IH]; simpl; [reflexivity|].
  destruct (String.eqb k0 k) eqn:E; [discriminate|]. intros H.
  destruct (String.eqb k0 k'); simpl; [exact H | rewrite E; auto].
Qed.

(** when an entry is strictly older than the clock read by [evictOldest],
    the [set] of a new key into a full cache evicts one entry, none being
    older than it, and the size stays as it was *)
Lemma set_evicts_when_older nowEvict now sql v params ttl qc :
  Cache.maxSize qc <= JsMap.size (Cache.cache qc) ->
  JsMap.has (Cache.generateKey sql params) (Cache.cache qc) = false ->
  (forall k e, In (k, e) (Cache.cache qc) -> Str.truthy k = true) ->
  (exists k e, In (k, e) (Cache.cache qc) /\ Cache.timestamp e < nowEvict) ->
  JsMap.size (Cache.cache (Cache.set nowEvict now sql v params ttl qc))
  = JsMap.size (Cache.cache qc)
  /\ exists k0 e0,
       In (k0, e0) (Cache.cache qc)
       /\ Cache.evictOldest nowEvict qc
          = Cache.withCache qc (JsMap.delete k0 (Cache.cache qc))
       /\ forall k e, In (k, e) (Cache.cache qc) ->
                      Cache.timestamp e0 <= Cache.timestamp e.
Proof.
  intros Hfull Hnew Hkeys (k1 & e1 & Hin1 & Hold).
  destruct (oldestScan_spec nowEvict (Cache.cache qc)) as (Hlow & Hwhich).
  destruct Hwhich as [Hnone|(e0 & Hin0 & Hts & Hlt)].
  { specialize (Hlow k1 e1 Hin1). rewrite Hnone in Hlow. simpl in Hlow. lia. }
  assert (Hevict : Cache.evictOldest nowEvict qc
                   = Cache.withCache qc
                       (JsMap.delete (fst (Cache.oldestScan nowEvict (Cache.cache qc)))
                                     (Cache.cache qc))).
  { unfold Cache.evictOldest.
    destruct (Z.eqb_spec (JsMap.size (Cache.cache qc)) 0) as [Hz|_].
    - unfold JsMap.size in Hz. destruct (Cache.cache qc); [contradiction | discriminate].
    - now rewrite (Hkeys _ _ Hin0). }
  split.
  - unfold Cache.set. rewrite Hnew.
    destruct (Z.leb_spec (Cache.maxSize qc) (JsMap.size (Cache.cache qc))); [|lia].
    simpl andb. cbv iota. rewrite Hevict. simpl.
    rewrite size_set_new by now apply has_delete.
    rewrite (size_delete_In _ e0) by assumption. lia.
  - exists (fst (Cache.oldestScan nowEvict (Cache.cache qc))), e0.
    split; [exact Hin0 | split; [exact Hevict|]].
    intros k e Hin. rewrite Hts. eauto.
Qed.

Lemma set_lookup tE now sql v params ttl qc :
  JsMap.get (Cache.generateKey sql params)
            (Cache.cache (Cache.set tE now sql v params ttl qc))
  = Some (Spec.stored v now ttl qc).
Proof. unfold Cache.set. simpl. apply get_set_eq. Qed.

(** every entry under another key after a [set] was there before it *)
Lemma set_other_key tE now sql v params ttl qc k e :
  k <> Cache.generateKey sql params ->
  JsMap.get k (Cache.cache (Cache.set tE now sql v params ttl qc)) = Some e ->
  In (k, e) (Cache.cache qc).
Proof.
  intros Hne. unfold Cache.set. simpl.
  rewrite get_set_ne by congruence.
  destruct (_ && _); [|apply get_In].
  unfold Cache.evictOldest.
  destruct (JsMap.size _ =? 0); [apply get_In|].
  destruct (Str.truthy _); [|apply get_In].
  simpl. intros H%get_In. eapply delete_In; eauto.
Qed.

(** a [set] leaves alone the entries of the keys other than its own and
    than the one found by the scan of [evictOldest] *)
Lemma set_other_key_kept tE now sql v params ttl qc k :
  k <> Cache.generateKey sql params ->
  k <> fst (Cache.oldestScan tE (Cache.cache qc)) ->
  JsMap.get k (Cache.cache (Cache.set tE now sql v params ttl qc))
  = JsMap.get k (Cache.cache qc).
Proof.
  intros Hne Hvictim. unfold Cache.set. simpl.
  rewrite get_set_ne by congruence.
  destruct (_ && _); [|reflexivity].
  unfold Cache.evictOldest.
  destruct (JsMap.size _ =? 0); [reflexivity|].
  destruct (Str.truthy _); [|reflexivity].
  simpl. apply get_delete_ne. congruence.
Qed.

Lemma In_delete_ne k k0 e (m : JsMap.t (Cache.CacheEntry A)) :
  k <> k0 -> In (k, e) m -> In (k, e) (JsMap.delete k0 m).
Proof.
  intros Hne. induction m as [|[k1 e1] m IH]; simpl; [tauto|].
  destruct (String.eqb_spec k1 k0) as [->|_].
  - intros [[= -> ->]|Hin]; [congruence | exact Hin].
  - intros [Heq|Hin]; [now left | right; auto].
Qed.

(** below capacity, a [set] leaves the entries of the other keys alone *)
Lemma set_other_key_room tE now sql v params ttl qc k :
  k <> Cache.generateKey sql params ->
  JsMap.size (Cache.cache qc) < Cache.maxSize qc ->
  JsMap.get k (Cache.cache (Cache.set tE now sql v params ttl qc))
  = JsMap.get k (Cache.cache qc).
Proof.
  intros Hne Hroom. unfold Cache.set. simpl.
  rewrite get_set_ne by congruence.
  destruct (Z.leb_spec (Cache.maxSize qc) (JsMap.size (Cache.cache qc)));
    [lia | reflexivity].
Qed.

End CacheFacts.

(** C1, on the code.  The keys of the cache are MD5 digests in
    hexadecimal, and [invalidate] tests the pattern against the key: for a
    table whose lower-cased name has a character outside [0-9a-f], such as
    [users], table-scoped invalidation changes the answer of no [get].
    The cached queries over that table stay hits. *)
Theorem invalidateTable_spares_digest_keys {A} (qc : Cache.QueryCache A)
    (table : string) (c : ascii) (now : Z) (sql : string)
    (params : option (list Json.JsParam)) :
  In c (Str.chars (Str.toLowerCase table)) ->
  Spec.isHex c = false ->
  fst (Cache.get now sql params (Cache.invalidateTable table qc))
  = fst (Cache.get now sql params qc).
Proof.
  intros Hc Hhex. rewrite !get_result.
  unfold Cache.invalidateTable, Cache.invalidate.
  destruct (Str.toLowerCase table) as [|a p] eqn:Et; [contradiction|].
  simpl Str.truthy. simpl negb. cbv iota. simpl Cache.cache.
  rewrite (get_filter_key (fun k => negb (Str.includes k (String a p)))).
  - reflexivity.
  - now rewrite (key_never_includes sql params (String a p) c).
Qed.

(** [SELECT * FROM users] is still served from the cache after
    [invalidateTable("users")] *)
Lemma invalidateTable_spares_digest_keys_witness :
  let qc : Cache.QueryCache nat :=
    Cache.set 1000 1000 "SELECT * FROM users" 7%nat None None
              (Cache.new None None) in
  fst (Cache.get 1001 "SELECT * FROM users" None
                 (Cache.invalidateTable "users" qc)) = Some 7%nat.
Proof.
  intros qc.
  rewrite (invalidateTable_spares_digest_keys qc "users" "u"%char);
    [ vm_compute; reflexivity | simpl; tauto | reflexivity ].
Defined.

(** C5, on the code.  [evictOldest] starts its scan from the current
    time and keeps an entry only when it is strictly older: when no entry
    is older than the clock, nothing is evicted, and the [set] of a new key
    grows the cache past its capacity. *)
Theorem set_grows_full_cache {A} (qc : Cache.QueryCache A)
    (nowEvict now : Z) (sql : string) (v : A)
    (params : option (list Json.JsParam)) (ttl : option Z) :
  Cache.maxSize qc <= JsMap.size (Cache.cache qc) ->
  JsMap.has (Cache.generateKey sql params) (Cache.cache qc) = false ->
  (forall k e, In (k, e) (Cache.cache qc) -> nowEvict <= Cache.timestamp e) ->
  JsMap.size (Cache.cache (Cache.set nowEvict now sql v params ttl qc))
  = JsMap.size (Cache.cache qc) + 1.
Proof.
  intros Hfull Hnew Hfresh. unfold Cache.set.
  rewrite evictOldest_none by assumption.
  destruct (_ && _); simpl; now apply size_set_new.
Qed.

(** two queries cached within one millisecond by a cache of capacity 1 *)
Lemma set_grows_full_cache_witness :
  let qc : Cache.QueryCache nat :=
    Cache.set 1000 1000 "SELECT 1" 1%nat None None (Cache.new (Some 1) None) in
  JsMap.size (Cache.cache (Cache.set 1000 1000 "SELECT 2" 2%nat None None qc))
  = JsMap.size (Cache.cache qc) + 1
  /\ JsMap.size (Cache.cache qc) = 1
  /\ Cache.maxSize qc = 1.
Proof.
  intros qc. split; [|split; vm_compute; reflexivity].
  apply set_grows_full_cache.
  - vm_compute. discriminate.
  - vm_compute. reflexivity.
  - intros k e Hin. vm_compute in Hin.
    destruct Hin as [[= <- <-]|[]]. vm_compute. discriminate.
Defined.

(** C6, as the code has it.  An entry inserted with a time to live [T]
    other than zero is returned by [get] at every time strictly before
    [creation + T] and is a miss at every time strictly after it; and
    whatever a [get] returns is the value of an entry whose age is within
    its time to live. *)
Theorem ttl_hit_before_miss_after {A} (qc : Cache.QueryCache A)
    (nowEvict created now T : Z) (sql : string) (v : A)
    (params : option (list Json.JsParam)) :
  T <> 0 ->
  let qc' := Cache.set nowEvict created sql v params (Some T) qc in
  (now < created + T -> fst (Cache.get now sql params qc') = Some v)
  /\ (created + T < now -> fst (Cache.get now sql params qc') = None)
  /\ (forall (c : Cache.QueryCache A) sql' params' v',
         fst (Cache.get now sql' params' c) = Some v' ->
         exists e,
           JsMap.get (Cache.generateKey sql' params') (Cache.cache c) = Some e
           /\ Cache.data e = v'
           /\ now - Cache.timestamp e <= Cache.ttl e).
Proof.
  intros HT qc'. subst qc'. rewrite get_result, set_lookup.
  unfold Spec.stored, Cache.isExpired. simpl.
  destruct (Z.eqb_spec T 0) as [|_]; [contradiction|].
  split; [|split].
  - intros Hnow. destruct (Z.ltb_spec T (now - created)); [lia | reflexivity].
  - intros Hnow. destruct (Z.ltb_spec T (now - created)); [reflexivity | lia].
  - intros c sql' params' v'. rewrite get_result.
    destruct (JsMap.get _ _) as [e|]; [|discriminate].
    unfold Cache.isExpired.
    destruct (Z.ltb_spec (Cache.ttl e) (now - Cache.timestamp e)); [discriminate|].
    intros [= <-]. exists e. auto.
Qed.

(** a time to live of one minute, one millisecond before and one after *)
Lemma ttl_hit_before_miss_after_witness :
  let qc : Cache.QueryCache nat :=
    Cache.set 1000 1000 "SELECT 1" 7%nat None (Some 60000) (Cache.new None None) in
  fst (Cache.get 60999 "SELECT 1" None qc) = Some 7%nat
  /\ fst (Cache.get 61001 "SELECT 1" None qc) = None.
Proof.
  intros qc.
  destruct (ttl_hit_before_miss_after (Cache.new None None) 1000 1000 60999
              60000 "SELECT 1" 7%nat None ltac:(discriminate)) as (Hhit & _ & _).
  destruct (ttl_hit_before_miss_after (Cache.new None None) 1000 1000 61001
              60000 "SELECT 1" 7%nat None ltac:(discriminate)) as (_ & Hmiss & _).
  split; [apply Hhit | apply Hmiss]; reflexivity.
Defined.

(** C6, as it is worded: [ttl || defaultTTL] replaces a time to live of
    zero by the default, so an entry inserted with [ttl = 0] is still
    returned after [creation + 0]. *)
Lemma zero_ttl_counterexample :
  let qc : Cache.QueryCache nat :=
    Cache.set 1000 1000 "SELECT 1" 7%nat None (Some 0) (Cache.new None None) in
  1000 + 0 < 1001
  /\ fst (Cache.get 1001 "SELECT 1" None qc) = Some 7%nat.
Proof. split; vm_compute; reflexivity. Qed.

(** ** The text that is hashed determines the parameters *)

Lemma unquote_quoteChar c t :
  Reader.unquote (Json.quoteChar c +:+ t) = Reader.keep c (Reader.unquote t).
Proof.
  destruct c as [[] [] [] [] [] [] [] []]; reflexivity.
Qed.

Lemma append_assoc (a b c : string) : (a +:+ b) +:+ c = a +:+ (b +:+ c).
Proof.
  induction a as [|x a IH]; [reflexivity|].
  change (String x ((a +:+ b) +:+ c) = String x (a +:+ (b +:+ c))).
  now rewrite IH.
Qed.

Lemma unquote_quoteBody s r :
  Reader.unquote (Json.quoteBody s +:+ String Json.dquote r) = Some (s, r).
Proof.
  induction s as [|c s IH]; [reflexivity|].
  change (Json.quoteBody (String c s)) with (Json.quoteChar c +:+ Json.quoteBody s).
  rewrite append_assoc, unquote_quoteChar, IH. reflexivity.
Qed.

Lemma drop_append a r : Reader.drop (String.length a) (a +:+ r) = r.
Proof. induction a as [|c a IH]; [now destruct r | exact IH]. Qed.

Lemma numberPrefix_append a r :
  Forall (fun c => Reader.isNumberChar c = true) (Str.chars a) ->
  Reader.closes r = true ->
  Reader.numberPrefix (a +:+ r) = a.
Proof.
  intros Ha Hr. induction a as [|c a IH].
  - unfold Reader.closes, Str.startsWith in Hr.
    destruct r as [|x r]; [reflexivity|].
    change ("" +:+ String x r) with (String x r).
    rewrite !prefix_cons in Hr. simpl.
    destruct (ascii_dec "," x) as [<-|]; [reflexivity|].
    destruct (ascii_dec "]" x) as [<-|]; [reflexivity|].
    discriminate.
  - change (String c a +:+ r) with (String c (a +:+ r)).
    simpl in Ha |- *.
    inversion Ha as [|? ? Hc Hrest]; subst. rewrite Hc, IH; auto.
Qed.

Lemma decimal_numberChars n :
  Forall (fun c => Reader.isNumberChar c = true) (Str.chars (Num.decimal n)).
Proof.
  assert (Hu : forall u, Forall (fun c => Reader.isNumberChar c = true)
                                (Str.chars (NilEmpty.string_of_uint u))).
  { induction u; simpl; constructor; auto. }
  assert (Hz : forall u, Forall (fun c => Reader.isNumberChar c = true)
                                (Str.chars (NilZero.string_of_uint u))).
  { intros u. destruct u; try apply Hu. repeat constructor. }
  unfold Num.decimal. destruct (Z.to_int n) as [u|u]; simpl.
  - apply Hz.
  - constructor; [reflexivity | apply Hz].
Qed.

Lemma readNumber_decimal n :
  NilZero.int_of_string (Num.decimal n) = Some (Z.to_int n).
Proof.
  unfold Num.decimal. apply NilZero.isi.
  - destruct n; simpl; try discriminate.
    intros [= H]. now apply (DecimalPos.Unsigned.to_uint_nonnil p).
  - destruct n; simpl; try discriminate.
    intros [= H]. now apply (DecimalPos.Unsigned.to_uint_nonnil p).
Qed.

Lemma toString_safe n :
  Num.isSafe n = true ->
  Num.toString (Num.Int n)
  = if n <? 0 then "-" +:+ Num.decimal (- n) else Num.decimal n.
Proof.
  unfold Num.isSafe, Num.toString, Num.natToString. intros H%Z.ltb_lt.
  destruct (Z.ltb_spec n 0).
  - destruct (Z.ltb_spec (- n) (2 ^ 53)); [reflexivity | lia].
  - destruct (Z.ltb_spec n (2 ^ 53)); [reflexivity | lia].
Qed.

(** below 2^53 a number is printed with all its digits *)
Lemma toString_decimal n :
  Num.isSafe n = true -> Num.toString (Num.Int n) = Num.decimal n.
Proof.
  intros H. rewrite toString_safe by exact H.
  destruct n as [|p|p]; reflexivity.
Qed.

(** a parameter is read back from its text, whatever follows it in an
    array *)
Lemma readParam_stringifyParam p r :
  Reader.safe p = true ->
  Reader.closes r = true ->
  Reader.readParam (Json.stringifyParam p +:+ r) = Some (p, r).
Proof.
  intros Hsafe Hr. destruct p as [s|n|[]|]; cbn [Json.stringifyParam].
  - unfold Json.quote.
    change ((String Json.dquote (Json.quoteBody s) +:+ String Json.dquote "") +:+ r)
      with (String Json.dquote ((Json.quoteBody s +:+ String Json.dquote "") +:+ r)).
    rewrite append_assoc.
    change (String Json.dquote "" +:+ r) with (String Json.dquote r).
    unfold Reader.readParam. rewrite Ascii.eqb_refl, unquote_quoteBody.
    reflexivity.
  - simpl in Hsafe. rewrite toString_decimal by exact Hsafe.
    pose proof (decimal_numberChars n) as Hchars.
    pose proof (readNumber_decimal n) as Hread.
    destruct (Num.decimal n) as [|c s] eqn:E; [discriminate|].
    change (String c s +:+ r) with (String c (s +:+ r)).
    unfold Reader.readParam.
    assert (Hc : Reader.isNumberChar c = true).
    { simpl in Hchars. now inversion Hchars. }
    assert (Hnot : Ascii.eqb c Json.dquote = false
                   /\ forall x k, Reader.isNumberChar x = false ->
                                  Str.startsWith (String c (s +:+ r)) (String x k)
                                  = false).
    { split.
      - destruct (Ascii.eqb_spec c Json.dquote) as [->|]; [discriminate | reflexivity].
      - intros x k Hx. unfold Str.startsWith. rewrite prefix_cons.
        destruct (ascii_dec x c) as [->|]; [congruence | reflexivity]. }
    destruct Hnot as [-> Hlit].
    rewrite !Hlit by reflexivity.
    change (String c (s +:+ r)) with (String c s +:+ r).
    rewrite (numberPrefix_append (String c s) r Hchars Hr), Hread, drop_append.
    now rewrite DecimalZ.of_to.
  - change ("true" +:+ r) with (String "t" (String "r" (String "u" (String "e" r)))).
    unfold Reader.readParam, Str.startsWith.
    rewrite !prefix_cons, !prefix_nil. reflexivity.
  - change ("false" +:+ r)
      with (String "f" (String "a" (String "l" (String "s" (String "e" r))))).
    unfold Reader.readParam, Str.startsWith.
    rewrite !prefix_cons, !prefix_nil. reflexivity.
  - change ("null" +:+ r) with (String "n" (String "u" (String "l" (String "l" r)))).
    unfold Reader.readParam, Str.startsWith.
    rewrite !prefix_cons, !prefix_nil. reflexivity.
Qed.

(** the elements of an array and its closing bracket *)
Lemma stringify_cons p ps :
  Json.join "," (map Json.stringifyParam (p :: ps)) +:+ "]"
  = Json.stringifyParam p
    +:+ match ps with
        | nil => "]"
        | _ => String "," (Json.join "," (map Json.stringifyParam ps) +:+ "]")
        end.
Proof.
  destruct ps as [|q ps]; [reflexivity|].
  change (Json.join "," (map Json.stringifyParam (p :: q :: ps)))
    with (Json.stringifyParam p
          +:+ ("," +:+ Json.join "," (map Json.stringifyParam (q :: ps)))).
  now rewrite append_assoc.
Qed.

Lemma readParam_bracket r : Reader.readParam (String "]" r) = None.
Proof. reflexivity. Qed.

Lemma closes_tail (ps : list Json.JsParam) :
  Reader.closes
    match ps with
    | nil => "]"
    | _ => String "," (Json.join "," (map Json.stringifyParam ps) +:+ "]")
    end = true.
Proof.
  destruct ps; [reflexivity|].
  unfold Reader.closes, Str.startsWith. now rewrite prefix_cons, prefix_nil.
Qed.

(** the text of an array determines its elements *)
Lemma elements_inj ps : forall ps',
  Forall (fun p => Reader.safe p = true) ps ->
  Forall (fun p => Reader.safe p = true) ps' ->
  Json.join "," (map Json.stringifyParam ps) +:+ "]"
  = Json.join "," (map Json.stringifyParam ps') +:+ "]" ->
  ps = ps'.
Proof.
  induction ps as [|p ps IH]; intros ps' Hs Hs' Heq.
  - destruct ps' as [|p' ps']; [reflexivity|]. exfalso.
    inversion Hs' as [|? ? Hp' Hrest']; subst.
    rewrite stringify_cons in Heq.
    assert (Hread : Reader.readParam (Json.join "," (map Json.stringifyParam []) +:+ "]")
                    = None) by reflexivity.
    rewrite Heq, readParam_stringifyParam in Hread;
      [discriminate | exact Hp' | apply closes_tail].
  - inversion Hs as [|? ? Hp Hrest]; subst.
    destruct ps' as [|p' ps'].
    + exfalso. rewrite stringify_cons in Heq.
      assert (Hread : Reader.readParam (Json.join "," (map Json.stringifyParam []) +:+ "]")
                      = None) by reflexivity.
      rewrite <- Heq, readParam_stringifyParam in Hread;
        [discriminate | exact Hp | apply closes_tail].
    + inversion Hs' as [|? ? Hp' Hrest']; subst.
      rewrite !stringify_cons in Heq.
      assert (Hread := f_equal Reader.readParam Heq).
      rewrite !readParam_stringifyParam in Hread;
        [|exact Hp' | apply closes_tail | exact Hp | apply closes_tail].
      injection Hread as <- Htail.
      destruct ps as [|q ps], ps' as [|q' ps']; try discriminate; [reflexivity|].
      injection Htail as Htail. f_equal. now apply IH.
Qed.

Lemma stringify_inj ps ps' :
  Forall (fun p => Reader.safe p = true) ps ->
  Forall (fun p => Reader.safe p = true) ps' ->
  Json.stringify ps = Json.stringify ps' -> ps = ps'.
Proof.
  intros Hs Hs' Heq. apply elements_inj; try assumption.
  unfold Json.stringify in Heq.
  change ("[" +:+ ?x) with (String "[" x) in Heq. now injection Heq.
Qed.



Lemma append_length (a b : string) :
  String.length (a +:+ b) = (String.length a + String.length b)%nat.
Proof.
  induction a as [|x a IH]; [reflexivity|].
  change (String x a +:+ b) with (String x (a +:+ b)). simpl. now rewrite IH.
Qed.

(** a text is determined by what it is followed by *)
Lemma append_cancel_r (t : string) : forall a b, a +:+ t = b +:+ t -> a = b.
Proof.
  induction a as [|x a IH]; intros b Heq.
  - destruct b as [|y b]; [reflexivity|]. exfalso.
    apply (f_equal String.length) in Heq.
    rewrite !append_length in Heq. simpl in Heq. lia.
  - destruct b as [|y b].
    + exfalso. apply (f_equal String.length) in Heq.
      rewrite !append_length in Heq. simpl in Heq. lia.
    + change (String x (a +:+ t) = String y (b +:+ t)) in Heq.
      injection Heq as -> Heq. f_equal. now apply IH.
Qed.

(** with the same parameters, the text hashed determines the query *)
Lemma keyInput_text sql sql' params :
  Cache.keyInput sql' params = Cache.keyInput sql params -> sql' = sql.
Proof. unfold Cache.keyInput. apply append_cancel_r. Qed.

(** with the same query, the text hashed determines the parameters *)
Lemma keyInput_params sql params params' :
  Reader.safeParams params -> Reader.safeParams params' ->
  Cache.keyInput sql params' = Cache.keyInput sql params -> params' = params.
Proof.
  unfold Cache.keyInput. intros Hs Hs' Heq.
  apply (String.app_inj sql) in Heq.
  destruct params as [ps|], params' as [ps'|]; simpl in Hs, Hs';
    try discriminate; [|reflexivity].
  f_equal. now apply stringify_inj.
Qed.

(** C7, as the code has it.  A [set] followed by a [get] of the same
    query and parameters, within the default time to live, returns the
    value stored.  The key is the digest of the query text followed by the
    parameters in JSON.  Two inputs that differ in the query text only, or
    in the parameters only (their values or their order), are hashed from
    different texts; and an input hashed from a different text, the two
    texts not being a collision of MD5, is not given the value stored: what
    its [get] returns is the value of an entry that was stored under its
    own key before the [set].  Two inputs with the same concatenation read
    the same entry. *)
Theorem set_get_round_trip {A} (qc : Cache.QueryCache A)
    (nowEvict created now : Z) (sql sql' : string) (v : A)
    (params params' : option (list Json.JsParam)) :
  now - created <= Cache.defaultTTL qc ->
  let qc' := Cache.set nowEvict created sql v params None qc in
  fst (Cache.get now sql params qc') = Some v
  /\ (Cache.keyInput sql' params' = Cache.keyInput sql params ->
      fst (Cache.get now sql' params' qc') = Some v)
  /\ (sql' <> sql -> Cache.keyInput sql' params <> Cache.keyInput sql params)
  /\ (params' <> params ->
      Reader.safeParams params -> Reader.safeParams params' ->
      Cache.keyInput sql params' <> Cache.keyInput sql params)
  /\ (Cache.keyInput sql' params' <> Cache.keyInput sql params ->
      ~ Spec.collision (Cache.keyInput sql' params') (Cache.keyInput sql params) ->
      forall v', fst (Cache.get now sql' params' qc') = Some v' ->
      exists e, In (Cache.generateKey sql' params', e) (Cache.cache qc)
                /\ Cache.data e = v').
Proof.
  intros Hnow qc'. subst qc'.
  assert (Hsame : fst (Cache.get now sql params
                         (Cache.set nowEvict created sql v params None qc)) = Some v).
  { rewrite get_result, set_lookup. unfold Spec.stored, Cache.isExpired. simpl.
    destruct (Z.ltb_spec (Cache.defaultTTL qc) (now - created)); [lia | reflexivity]. }
  split; [exact Hsame | split; [|split; [|split]]].
  - intros Hkey. rewrite get_result in *. unfold Cache.generateKey in *.
    now rewrite Hkey.
  - intros Hne Heq. apply Hne. exact (keyInput_text _ _ _ Heq).
  - intros Hne Hs Hs' Heq. apply Hne. exact (keyInput_params _ _ _ Hs Hs' Heq).
  - intros Hne Hfree v'.
    assert (Hkey : Cache.generateKey sql' params' <> Cache.generateKey sql params).
    { unfold Cache.generateKey. intros Heq. apply Hfree. now split. }
    rewrite get_result.
    destruct (JsMap.get _ _) as [e|] eqn:He; [|discriminate].
    destruct (Cache.isExpired now e); [discriminate|].
    intros [= <-]. exists e. split; [|reflexivity].
    eapply set_other_key; eauto.
Qed.

(** a query with one parameter, read back at once; the same query with
    another parameter misses, and so does the query in lower case *)
Lemma set_get_round_trip_witness :
  let qc : Cache.QueryCache nat :=
    Cache.set 1000 1000 "SELECT * FROM t WHERE id = ?" 7%nat
              (Some [Json.PNum 5]) None (Cache.new None None) in
  fst (Cache.get 1000 "SELECT * FROM t WHERE id = ?" (Some [Json.PNum 5]) qc)
  = Some 7%nat
  /\ fst (Cache.get 1000 "SELECT * FROM t WHERE id = ?" (Some [Json.PNum 6]) qc)
     = None
  /\ fst (Cache.get 1000 "select * from t where id = ?" (Some [Json.PNum 5]) qc)
     = None.
Proof.
  intros qc.
  assert (Hmiss : forall sql' params',
             Cache.keyInput sql' params'
             <> Cache.keyInput "SELECT * FROM t WHERE id = ?" (Some [Json.PNum 5]) ->
             MD5.md5hex (Cache.keyInput sql' params')
             <> MD5.md5hex (Cache.keyInput "SELECT * FROM t WHERE id = ?"
                                           (Some [Json.PNum 5])) ->
             fst (Cache.get 1000 sql' params' qc) = None).
  { intros sql' params' Hne Hmd5.
    destruct (set_get_round_trip (Cache.new None None) 1000 1000 1000
                "SELECT * FROM t WHERE id = ?" sql' 7%nat
                (Some [Json.PNum 5]) params')
      as (_ & _ & _ & _ & Hother); [vm_compute; discriminate|].
    destruct (fst (Cache.get 1000 sql' params' qc)) as [v'|] eqn:E; [|reflexivity].
    destruct (Hother Hne ltac:(intros [_ H]; exact (Hmd5 H)) v' E) as (e & [] & _). }
  destruct (set_get_round_trip (Cache.new None None) 1000 1000 1000
              "SELECT * FROM t WHERE id = ?" "select * from t where id = ?"
              7%nat (Some [Json.PNum 5]) (Some [Json.PNum 6]))
    as (Hsame & _ & Htext & Hparams & _); [vm_compute; discriminate|].
  split; [exact Hsame | split].
  - apply Hmiss; [|vm_compute; discriminate].
    apply Hparams; [discriminate | repeat constructor..].
  - apply Hmiss; [|vm_compute; discriminate].
    apply Htext. discriminate.
Defined.

(** C7, as it is worded: two inputs that differ in the query text and in
    the parameters, and have the same concatenation, share an entry.  The
    query [SELECT 1] with an empty parameter list and the query
    [SELECT 1[]] without parameters are both hashed as [SELECT 1[]]. *)
Lemma concatenation_collision_counterexample :
  let qc : Cache.QueryCache nat :=
    Cache.set 1000 1000 "SELECT 1" 7%nat (Some []) None (Cache.new None None) in
  "SELECT 1" <> "SELECT 1[]"
  /\ Some (@nil Json.JsParam) <> None
  /\ fst (Cache.get 1000 "SELECT 1[]" None qc) = Some 7%nat.
Proof.
  split; [discriminate | split; [discriminate | vm_compute; reflexivity]].
Qed.

(** ** Session store *)

(** C8, as the code has it.  A successful [authenticate] returns the
    session id drawn from the random generator and records it for the
    user; the users and the sessions under every other id are left as they
    were.  The draw is not compared with the ids of the live sessions. *)
Theorem authenticate_records_drawn_id (am am' : Auth.AuthManager)
    (username password rnd token : string) :
  Auth.authenticate username password rnd am = (Some token, am') ->
  token = rnd
  /\ Auth.sessions am' !! token = Some username
  /\ (forall t, t <> token -> Auth.sessions am' !! t = Auth.sessions am !! t)
  /\ Auth.users am' = Auth.users am
  /\ (exists user, Auth.users am !! username = Some user
                   /\ Auth.password user = password).
Proof.
  unfold Auth.authenticate.
  destruct (Auth.users am !! username) as [[n pw r]|] eqn:Hu; [|discriminate].
  destruct (String.eqb pw password) eqn:Hpw; [|discriminate].
  simpl. intros [= <- <-]. simpl.
  repeat split.
  - apply lookup_insert_eq.
  - intros t Ht. now apply lookup_insert_ne.
  - apply String.eqb_eq in Hpw. eauto.
Qed.

(** the administrator of the default registry signs in *)
Lemma authenticate_records_drawn_id_witness :
  let am := Auth.new ∅ in
  Auth.sessions (snd (Auth.authenticate "admin" "admin123" "k3x9f" am)) !! "k3x9f"
  = Some "admin".
Proof.
  intros am.
  destruct (Auth.authenticate "admin" "admin123" "k3x9f" am) as [tok am'] eqn:E.
  assert (Htok : tok = Some "k3x9f") by (vm_compute in E; congruence).
  subst tok.
  destruct (authenticate_records_drawn_id am am' "admin" "admin123" "k3x9f"
              "k3x9f" E) as (_ & H & _).
  exact H.
Defined.

(** C8, as it is worded: a draw that repeats the id of a live session is
    returned all the same, and the session of the administrator now
    resolves to the read-only user. *)
Lemma repeated_draw_counterexample :
  let am0 := Auth.new ∅ in
  let am1 := snd (Auth.authenticate "admin" "admin123" "k3x9f" am0) in
  let r := Auth.authenticate "readonly" "ro123" "k3x9f" am1 in
  Auth.sessions am1 !! "k3x9f" = Some "admin"
  /\ fst r = Some "k3x9f"
  /\ Auth.sessions (snd r) !! "k3x9f" = Some "readonly".
Proof. repeat split; vm_compute; reflexivity. Qed.

(** C9.  An unknown user and a wrong password fail alike: [authenticate]
    returns [null] and leaves the store unchanged in both cases, and the
    [mysql_auth] tool answers both calls with the same error and the same
    state. *)
Theorem authenticate_is_non_enumerating (st : Server.State)
    (u1 p1 u2 p2 : string) (user : Auth.User) (io1 io2 : Server.Inputs) :
  Auth.users (Server.authManager st) !! u1 = None ->
  Auth.users (Server.authManager st) !! u2 = Some user ->
  Auth.password user <> p2 ->
  Auth.authenticate u1 p1 (Server.rnd io1) (Server.authManager st)
    = (None, Server.authManager st)
  /\ Auth.authenticate u2 p2 (Server.rnd io2) (Server.authManager st)
    = (None, Server.authManager st)
  /\ Server.callTool (Server.mysql_auth u1 p1) io1 st
     = Server.callTool (Server.mysql_auth u2 p2) io2 st.
Proof.
  intros H1 H2 Hpw.
  assert (E1 : Auth.authenticate u1 p1 (Server.rnd io1) (Server.authManager st)
               = (None, Server.authManager st)).
  { unfold Auth.authenticate. now rewrite H1. }
  assert (E2 : Auth.authenticate u2 p2 (Server.rnd io2) (Server.authManager st)
               = (None, Server.authManager st)).
  { unfold Auth.authenticate. rewrite H2. destruct user as [n pw r]. simpl in Hpw.
    apply String.eqb_neq in Hpw. now rewrite Hpw. }
  split; [exact E1 | split; [exact E2|]].
  unfold Server.callTool, Server.bind, Server.gets, Server.tryCatch, Server.handle.
  destruct (Server.mysqlClient st); [|reflexivity].
  now rewrite E1, E2.
Qed.

(** an unknown user and a wrong password for the administrator *)
Lemma authenticate_is_non_enumerating_witness :
  Server.callTool (Server.mysql_auth "nobody" "admin123")
                  (Sample.inputs Sample.noRows) Sample.started
  = Server.callTool (Server.mysql_auth "admin" "admin124")
                    (Sample.inputs Sample.noRows) Sample.started.
Proof.
  apply (authenticate_is_non_enumerating Sample.started
           "nobody" "admin123" "admin" "admin124"
           (Auth.mkUser "admin" "admin123" Auth.ADMIN)).
  - vm_compute. reflexivity.
  - vm_compute. reflexivity.
  - discriminate.
Defined.

(** ** Connection lifecycle *)

(** the state after a configuration change, when the old connection
    closes: by the configuration and by the answer of the driver *)
Lemma configChanged_connected (st : Server.State) (c : Client.MySQLClient)
    (h : nat) (newConfig : Server.Config) (io : Server.Link) :
  Server.mysqlClient st = Some c ->
  Client.connection c = Some h ->
  Server.endOk io = true ->
  let d := Server.driver st in
  let cc := Server.connectionConfigOf newConfig in
  let closed := (Client.trace d ++ [Client.Closed h])%list in
  Server.configChanged newConfig io st =
    if negb (Spec.acceptable newConfig)
    then Server.mkState (Some (Client.mkClient None (Client.config c)))
           (Server.authManager st) (Server.queryCache st) newConfig
           (Client.mkDriver (Client.live d ∖ {[ h ]}) (Client.fresh d) closed)
    else if Server.connectOk io
    then Server.mkState (Some (Client.mkClient (Some (Client.fresh d)) cc))
           (Server.authManager st)
           (Cache.withCache (Server.queryCache st) nil) newConfig
           (Client.mkDriver ({[ Client.fresh d ]} ∪ Client.live d ∖ {[ h ]})
              (S (Client.fresh d))
              (closed ++ [Client.Opened (Client.fresh d) cc])%list)
    else Server.mkState (Some (Client.mkClient None cc))
           (Server.authManager st) (Server.queryCache st) newConfig
           (Client.mkDriver (Client.live d ∖ {[ h ]}) (Client.fresh d)
              (closed ++ [Client.Refused cc])%list).
Proof.
  intros Hc Hh Hend d cc closed. subst d cc closed.
  unfold Server.configChanged, Server.onChange, Server.tryCatch, Server.bind,
    Server.gets, Server.initializeMySQLClient, Server.bind, Server.gets,
    Server.modify, Server.throw, Server.ret, Spec.acceptable,
    Server.clientDisconnect, Server.clientConnect.
  simpl. rewrite Hc. unfold Client.disconnect. rewrite Hh, Hend. simpl.
  unfold Client.new, Client.connect. simpl.
  destruct (Str.truthy (Server.MYSQL_USER newConfig));
    destruct (Str.truthy (Server.MYSQL_PASSWORD newConfig)); simpl;
    try reflexivity.
  destruct (Server.MYSQL_PORT newConfig); simpl; try reflexivity;
    destruct (Server.connectOk io); reflexivity.
Qed.

Lemma not_elem_of_closed (h : nat) (X : gset nat) : h ∉ X ∖ {[ h ]}.
Proof.
  rewrite elem_of_difference, elem_of_singleton. tauto.
Qed.

(** C2, as the code has it.  On a configuration change the listener first
    closes the previous connection and only then attempts to connect
    under the new configuration.  When the attempt is refused, no
    connection is live and the cache is untouched; when it succeeds under
    an acceptable configuration, the new connection is the client's and
    the cache is empty. *)
Theorem config_change_closes_then_connects (st : Server.State)
    (c : Client.MySQLClient) (h : nat) (newConfig : Server.Config)
    (io : Server.Link) :
  Server.mysqlClient st = Some c ->
  Client.connection c = Some h ->
  Server.endOk io = true ->
  (h < Client.fresh (Server.driver st))%nat ->
  let st' := Server.configChanged newConfig io st in
  let d := Server.driver st in
  let cc := Server.connectionConfigOf newConfig in
  (exists rest, Client.trace (Server.driver st')
                = (Client.trace d ++ Client.Closed h :: rest)%list)
  /\ (h ∉ Client.live (Server.driver st'))
  /\ (Server.connectOk io = false ->
      (exists c', Server.mysqlClient st' = Some c'
                  /\ Client.connection c' = None)
      /\ Client.live (Server.driver st') = Client.live d ∖ {[ h ]}
      /\ Server.queryCache st' = Server.queryCache st)
  /\ (Server.connectOk io = true -> Spec.acceptable newConfig = true ->
      Server.mysqlClient st' = Some (Client.mkClient (Some (Client.fresh d)) cc)
      /\ Client.trace (Server.driver st')
         = (Client.trace d
            ++ [Client.Closed h; Client.Opened (Client.fresh d) cc])%list
      /\ Cache.cache (Server.queryCache st') = nil).
Proof.
  intros Hc Hh Hend Hfresh st' d cc. subst st' d cc.
  rewrite (configChanged_connected st c h newConfig io Hc Hh Hend). cbv zeta.
  assert (Hne : Client.fresh (Server.driver st) <> h) by lia.
  destruct (Spec.acceptable newConfig); simpl;
    [destruct (Server.connectOk io); simpl|].
  - split; [|split; [|split]].
    + eexists. rewrite <- app_assoc. reflexivity.
    + rewrite elem_of_union, elem_of_singleton.
      intros [Heq|Hin]; [congruence | now apply not_elem_of_closed in Hin].
    + discriminate.
    + intros _ _. rewrite <- app_assoc. auto.
  - split; [|split; [|split]].
    + eexists. rewrite <- app_assoc. reflexivity.
    + apply not_elem_of_closed.
    + intros _. eauto.
    + discriminate.
  - split; [|split; [|split]].
    + exists nil. reflexivity.
    + apply not_elem_of_closed.
    + intros _. eauto.
    + discriminate.
Qed.

(** the driver refuses the connection under the new configuration *)
Lemma config_change_closes_then_connects_witness :
  let st' := Server.configChanged Sample.configB (Server.mkLink true false)
               Sample.started in
  (0%nat ∉ Client.live (Server.driver st'))
  /\ Server.queryCache st' = Server.queryCache Sample.started.
Proof.
  intros st'.
  destruct (config_change_closes_then_connects Sample.started
              (Client.mkClient (Some 0%nat)
                 (Server.connectionConfigOf Sample.configA))
              0%nat Sample.configB (Server.mkLink true false))
    as (_ & Hclosed & Hrefused & _).
  - vm_compute. reflexivity.
  - reflexivity.
  - reflexivity.
  - vm_compute. lia.
  - split; [exact Hclosed | now apply Hrefused].
Defined.

(** C2, as it is worded: when the connection under the new configuration
    is refused, the previous connection does not remain live.  It was
    closed before the attempt, and the client is left without one. *)
Lemma refused_reconnect_counterexample :
  let st' := Server.configChanged Sample.configB (Server.mkLink true false)
               Sample.started in
  Client.live (Server.driver Sample.started) = {[ 0%nat ]}
  /\ Client.live (Server.driver st') = ∅
  /\ Server.mysqlClient st'
     = Some (Client.mkClient None (Server.connectionConfigOf Sample.configB))
  /\ Client.trace (Server.driver st')
     = [ Client.Opened 0 (Server.connectionConfigOf Sample.configA);
         Client.Closed 0;
         Client.Refused (Server.connectionConfigOf Sample.configB) ].
Proof. repeat split; vm_compute; reflexivity. Qed.

(** ** Request gate *)

(** two words that start the same text start one another *)
Lemma prefix_comparable k1 : forall k2 t,
  String.prefix k1 t = true -> String.prefix k2 t = true ->
  String.prefix k1 k2 = true \/ String.prefix k2 k1 = true.
Proof.
  induction k1 as [|a k1 IH]; intros k2 t H1 H2.
  - left. apply prefix_nil.
  - destruct k2 as [|b k2]; [right; reflexivity|].
    destruct t as [|c t]; [discriminate|]. simpl in *.
    destruct (ascii_dec a c) as [->|]; [|discriminate].
    destruct (ascii_dec b c) as [->|]; [|discriminate].
    destruct (ascii_dec c c); [|congruence]. eauto.
Qed.

(** a statement classified as a write is not cached *)
Lemma mutating_not_cached sql :
  In (Auth.parseQueryPermission sql) [Auth.INSERT; Auth.UPDATE; Auth.DELETE] ->
  Cache.shouldCache sql = false.
Proof.
  rewrite parseQueryPermission_leading, shouldCache_leading. cbv zeta.
  unfold Str.startsWith.
  set (t := Str.toLowerCase (Str.trimStart sql)).
  destruct (String.prefix "select" t) eqn:Hsel;
    [simpl; intros [|[|[|[]]]]; discriminate|].
  assert (Hclash : forall k,
             String.prefix k t = true ->
             (forall k', In k' ["show"; "describe"; "desc"] ->
                         String.prefix k k' = false /\ String.prefix k' k = false) ->
             String.prefix "show" t || String.prefix "describe" t
             || String.prefix "desc" t = false).
  { intros k Hk Hno.
    destruct (String.prefix "show" t) eqn:Hshow.
    { destruct (Hno "show") as [? ?]; [simpl; tauto|].
      destruct (prefix_comparable _ _ _ Hk Hshow); congruence. }
    destruct (String.prefix "describe" t) eqn:Hdescribe.
    { destruct (Hno "describe") as [? ?]; [simpl; tauto|].
      destruct (prefix_comparable _ _ _ Hk Hdescribe); congruence. }
    destruct (String.prefix "desc" t) eqn:Hdesc; [|reflexivity].
    destruct (Hno "desc") as [? ?]; [simpl; tauto|].
    destruct (prefix_comparable _ _ _ Hk Hdesc); congruence. }
  assert (Hwords : forall k, In k ["insert"; "update"; "delete"] ->
             forall k', In k' ["show"; "describe"; "desc"] ->
                        String.prefix k k' = false /\ String.prefix k' k = false).
  { intros k Hk k' Hk'. simpl in Hk, Hk'.
    repeat (destruct Hk as [<-|Hk]; [|]); try contradiction;
      repeat (destruct Hk' as [<-|Hk']; [|]); try contradiction;
      split; reflexivity. }
  simpl orb.
  destruct (String.prefix "insert" t) eqn:Hins;
    [intros _; apply (Hclash "insert" Hins), Hwords; simpl; tauto|].
  destruct (String.prefix "update" t) eqn:Hupd;
    [intros _; apply (Hclash "update" Hupd), Hwords; simpl; tauto|].
  destruct (String.prefix "delete" t) eqn:Hdel;
    [intros _; apply (Hclash "delete" Hdel), Hwords; simpl; tauto|].
  destruct (String.prefix "show" t); [simpl; intros [|[|[|[]]]]; discriminate|].
  destruct (String.prefix "describe" t || String.prefix "desc" t);
    simpl; intros [|[|[|[]]]]; discriminate.
Qed.

(** authorization reads the state and leaves it as it is *)
Lemma authorize_state sessionId operation sql st :
  snd (Server.authenticateAndAuthorize sessionId operation sql st) = st.
Proof.
  unfold Server.authenticateAndAuthorize, Server.bind, Server.gets.
  destruct (Auth.getUserFromSession _ _); [|reflexivity].
  destruct (negb _); reflexivity.
Qed.

Section GetFrame.
Context {A : Type}.

Lemma size_delete k (m : JsMap.t A) : JsMap.size (JsMap.delete k m) <= JsMap.size m.
Proof.
  unfold JsMap.size. apply inj_le.
  induction m as [|[k0 v0] m IH]; simpl; [lia|].
  destruct (String.eqb k0 k); simpl; lia.
Qed.

End GetFrame.

(** a [get] keeps the capacity, does not grow the cache and leaves the
    entries of the other keys alone *)
Lemma get_frame {A} now sql params (qc : Cache.QueryCache A) :
  let qc1 := snd (Cache.get now sql params qc) in
  Cache.maxSize qc1 = Cache.maxSize qc
  /\ JsMap.size (Cache.cache qc1) <= JsMap.size (Cache.cache qc)
  /\ forall k, k <> Cache.generateKey sql params ->
               JsMap.get k (Cache.cache qc1) = JsMap.get k (Cache.cache qc).
Proof.
  unfold Cache.get.
  destruct (JsMap.get _ _) as [e|]; [destruct (Cache.isExpired now e)|];
    simpl; repeat split; try lia; try reflexivity.
  - apply size_delete.
  - intros k Hk. apply get_delete_ne. congruence.
Qed.

(** the cache after a [get]: the cache before it, but for the entry of
    the key when it has expired *)
Lemma get_entries {A} now sql params (qc : Cache.QueryCache A) :
  let qc1 := snd (Cache.get now sql params qc) in
  (forall k e, In (k, e) (Cache.cache qc1) -> In (k, e) (Cache.cache qc))
  /\ (forall k e, k <> Cache.generateKey sql params ->
                  In (k, e) (Cache.cache qc) -> In (k, e) (Cache.cache qc1)).
Proof.
  unfold Cache.get.
  destruct (JsMap.get _ _) as [e0|]; [destruct (Cache.isExpired now e0)|];
    simpl; split; auto.
  - intros k e. apply delete_In.
  - intros k e Hne. now apply In_delete_ne.
Qed.

(** C10.  A raw [mysql_query] never invalidates.  When its statement is
    not cacheable, and so when it is classified as an insert, an update or
    a delete, the cache after the call is the cache before it, whatever
    the outcome.  For any statement and any state of the cache, full or
    not, the entries under the keys of the other queries are left alone,
    but for one: the entry that the scan of [evictOldest] finds, an entry
    older than the clock than which no entry of another query is older.
    That one is left alone too below capacity, and whenever the call is
    not answered with rows fetched from the database.  Of the other
    tools, only
    [mysql_insert], [mysql_update] and [mysql_delete] touch the cache, by
    the table-scoped invalidation that follows their success. *)
Theorem raw_query_never_invalidates (st : Server.State) (io : Server.Inputs) :
  (forall session_id query params,
      let st' := snd (Server.callTool
                        (Server.mysql_query session_id query params) io st) in
      let qc := Server.queryCache st in
      let own := Cache.generateKey query params in
      let oldest :=
        fst (Cache.oldestScan (Server.tEvict io)
               (Cache.cache (snd (Cache.get (Server.tGet io) query params qc)))) in
      (Cache.shouldCache query = false -> Server.queryCache st' = qc)
      /\ (In (Auth.parseQueryPermission query)
             [Auth.INSERT; Auth.UPDATE; Auth.DELETE] ->
          Server.queryCache st' = qc)
      /\ (forall k,
             k <> own -> k <> oldest ->
             JsMap.get k (Cache.cache (Server.queryCache st'))
             = JsMap.get k (Cache.cache qc))
      /\ (forall k,
             k <> own ->
             JsMap.size (Cache.cache qc) < Cache.maxSize qc ->
             JsMap.get k (Cache.cache (Server.queryCache st'))
             = JsMap.get k (Cache.cache qc))
      /\ (forall k,
             k <> own ->
             (forall rows,
                 fst (Server.callTool
                        (Server.mysql_query session_id query params) io st)
                 <> Server.Returned (Server.QueryResult rows)) ->
             JsMap.get k (Cache.cache (Server.queryCache st'))
             = JsMap.get k (Cache.cache qc))
      /\ (Str.truthy oldest = true ->
          exists e0,
            In (oldest, e0) (Cache.cache qc)
            /\ Cache.timestamp e0 < Server.tEvict io
            /\ forall k e, In (k, e) (Cache.cache qc) -> k <> own ->
                           Cache.timestamp e0 <= Cache.timestamp e))
  /\ (forall req,
         (forall session_id query params,
             req <> Server.mysql_query session_id query params) ->
         let r := Server.callTool req io st in
         Server.queryCache (snd r) =
           match fst r, Spec.invalidatedTable req with
           | Server.Returned _, Some table =>
               Cache.invalidateTable table (Server.queryCache st)
           | _, _ => Server.queryCache st
           end).
Proof.
  split.
  - intros session_id query params st' qc own oldest.
    assert (Hplain : Cache.shouldCache query = false ->
                     Server.queryCache st' = qc).
    { intros Hno. subst st' qc.
      unfold Server.callTool, Server.bind, Server.gets, Server.tryCatch,
        Server.throw, Server.handle, Server.bind.
      destruct (Server.mysqlClient st) as [c|]; [|reflexivity].
      pose proof (authorize_state session_id "mysql_query" (Some query) st) as Ha.
      destruct (Server.authenticateAndAuthorize _ _ _ st) as [[[]|e] st1];
        simpl in Ha; subst st1; [|reflexivity].
      rewrite Hno. unfold Server.ret, Server.clientQuery, Server.liftResult.
      destruct (Client.query c (Server.db io)); reflexivity. }
    (* the cache after the call: as it was, as the [get] left it, or as
       the [set] that followed the [get] left it *)
    assert (Hcases :
      Server.queryCache st' = qc
      \/ Server.queryCache st' = snd (Cache.get (Server.tGet io) query params qc)
      \/ exists rows,
           fst (Server.callTool
                  (Server.mysql_query session_id query params) io st)
           = Server.Returned (Server.QueryResult rows)
           /\ Server.queryCache st'
              = Cache.set (Server.tEvict io) (Server.tSet io) query rows params
                  None (snd (Cache.get (Server.tGet io) query params qc))).
    { subst st' qc.
      unfold Server.callTool, Server.bind, Server.gets, Server.tryCatch,
        Server.throw, Server.handle, Server.bind.
      destruct (Server.mysqlClient st) as [c|]; [|now left].
      pose proof (authorize_state session_id "mysql_query" (Some query) st) as Ha.
      destruct (Server.authenticateAndAuthorize _ _ _ st) as [[[]|e] st1];
        simpl in Ha; subst st1; [|now left].
      destruct (Cache.shouldCache query).
      - unfold Server.cacheGet, Server.cacheSet, Server.modify, Server.ret,
          Server.clientQuery, Server.liftResult.
        destruct (Cache.get (Server.tGet io) query params (Server.queryCache st))
          as [[rows|] qc1]; simpl; [now right; left|].
        destruct (Client.query c (Server.db io)) as [rows|e]; simpl;
          [right; right; exists rows; now split | now right; left].
      - unfold Server.ret, Server.clientQuery, Server.liftResult.
        destruct (Client.query c (Server.db io)); now left. }
    destruct (get_frame (Server.tGet io) query params qc)
      as (Hmax & Hsize & Hother).
    destruct (get_entries (Server.tGet io) query params qc) as (Hsub & Hsup).
    split; [exact Hplain | split; [|split; [|split; [|split]]]].
    + intros Hmut. apply Hplain. now apply mutating_not_cached.
    + intros k Hk Hold.
      destruct Hcases as [->|[->|(rows & _ & ->)]];
        [reflexivity | now apply Hother|].
      rewrite set_other_key_kept by assumption. now apply Hother.
    + intros k Hk Hroom.
      destruct Hcases as [->|[->|(rows & _ & ->)]];
        [reflexivity | now apply Hother|].
      rewrite set_other_key_room by (try assumption; lia). now apply Hother.
    + intros k Hk Hnot.
      destruct Hcases as [->|[->|(rows & Hrows & _)]];
        [reflexivity | now apply Hother|].
      now contradiction (Hnot rows).
    + intros Htruthy. subst oldest.
      destruct (oldestScan_spec (Server.tEvict io)
                  (Cache.cache (snd (Cache.get (Server.tGet io) query params qc))))
        as (Hlow & [Hnone|(e0 & Hin0 & Hts & Hlt)]).
      { rewrite Hnone in Htruthy. discriminate. }
      exists e0. split; [now apply Hsub | split; [lia|]].
      intros k e Hin Hk. rewrite Hts. apply (Hlow k e). now apply Hsup.
  - intros req Hreq r. subst r.
    unfold Server.callTool, Server.bind, Server.gets, Server.tryCatch,
      Server.throw.
    destruct (Server.mysqlClient st) as [c|];
      [|destruct (Spec.invalidatedTable req); reflexivity].
    destruct req; simpl;
      try (exfalso; eapply Hreq; reflexivity);
      unfold Server.bind;
      try match goal with
          | |- context [Server.authenticateAndAuthorize ?s ?o ?q st] =>
              pose proof (authorize_state s o q st) as Ha;
              destruct (Server.authenticateAndAuthorize s o q st)
                as [[[]|e] st1];
              simpl in Ha; subst st1; [|reflexivity]
          end;
      unfold Server.clientQuery, Server.clientExecute, Server.liftResult,
        Server.cacheInvalidateTable, Server.modify, Server.ret, Server.throw;
      try (destruct (Client.query c (Server.db io)); reflexivity);
      try (destruct (Client.execute c (Server.db io)); reflexivity);
      try reflexivity.
    destruct (Auth.authenticate _ _ _ _) as [[sid|] am]; [|reflexivity].
    destruct (negb (Str.truthy sid)); reflexivity.
Qed.

(** an administrator deletes from [t] by a raw query while a read of [t]
    is cached: the cached rows are still served *)
Lemma raw_query_never_invalidates_witness :
  let signedIn :=
    snd (Server.callTool (Server.mysql_auth "admin" "admin123")
                         (Sample.inputs Sample.noRows) Sample.started) in
  let cached :=
    snd (Server.callTool (Server.mysql_query "k3x9f" "SELECT * FROM t" None)
                         (Sample.inputs Sample.noRows) signedIn) in
  let r := Server.callTool (Server.mysql_query "k3x9f" "DELETE FROM t" None)
                           (Sample.inputs (Client.DbHeader 3)) cached in
  fst r = Server.Returned (Server.QueryResult nil)
  /\ Server.queryCache (snd r) = Server.queryCache cached
  /\ fst (Cache.get 1001 "SELECT * FROM t" None (Server.queryCache (snd r)))
     = Some nil.
Proof.
  intros signedIn cached r.
  assert (Hsame : Server.queryCache (snd r) = Server.queryCache cached).
  { destruct (raw_query_never_invalidates cached
                (Sample.inputs (Client.DbHeader 3))) as [Hquery _].
    destruct (Hquery "k3x9f" "DELETE FROM t" None) as (_ & Hmut & _).
    apply Hmut. vm_compute. tauto. }
  split; [vm_compute; reflexivity | split; [exact Hsame|]].
  rewrite Hsame. vm_compute. reflexivity.
Defined.

(** a cache of capacity two that is full: a third read, one millisecond
    later, evicts the older of the two entries and leaves the other *)
Lemma full_cache_read_evicts_oldest :
  let qc : Cache.QueryCache Client.Rows :=
    Cache.set 1001 1001 "SELECT b" Sample.oneRow None None
      (Cache.set 1000 1000 "SELECT a" nil None None (Cache.new (Some 2) None)) in
  let st := Server.setCache qc Sample.signedIn in
  let st' := snd (Server.callTool (Server.mysql_query "ro7x2" "SELECT c" None)
                    (Server.mkInputs "" 1002 1002 1002 Sample.noRows) st) in
  JsMap.keys (Cache.cache (Server.queryCache st'))
  = [Cache.generateKey "SELECT b" None; Cache.generateKey "SELECT c" None]
  /\ fst (Cache.get 1002 "SELECT b" None (Server.queryCache st'))
     = Some Sample.oneRow.
Proof. split; vm_compute; reflexivity. Qed.

(** * Further properties of the code *)

(** ** The cache: invalidation, sweep, eviction *)

Section MoreMapFacts.
Context {V : Type}.
Implicit Types (m : JsMap.t V) (k : string) (v : V).

Lemma get_filter_dropped (f : string -> bool) k m :
  f k = false ->
  JsMap.get k (List.filter (fun ke => f (fst ke)) m) = None.
Proof.
  intros Hk. induction m as [|[k0 v0] m IH]; simpl; [reflexivity|].
  destruct (f k0) eqn:Hf; simpl; [|exact IH].
  destruct (String.eqb_spec k0 k) as [->|_]; [congruence | exact IH].
Qed.

Lemma get_None_keys k m : JsMap.get k m = None <-> ~ In k (JsMap.keys m).
Proof.
  induction m as [|[k0 v0] m IH]; simpl; [tauto|].
  destruct (String.eqb_spec k0 k) as [->|Hne]; [|tauto].
  split; [discriminate | tauto].
Qed.

Lemma In_keys k v m : In (k, v) m -> In k (JsMap.keys m).
Proof. intros H. apply (in_map fst) in H. exact H. Qed.

Lemma keys_set_new k v m :
  JsMap.has k m = false -> JsMap.keys (JsMap.set k v m) = (JsMap.keys m ++ [k])%list.
Proof.
  unfold JsMap.has. induction m as [|[k0 v0] m IH]; simpl; [reflexivity|].
  destruct (String.eqb k0 k); [discriminate|]. simpl. intros H. now rewrite IH.
Qed.

Lemma keys_set_existing k v m :
  JsMap.has k m = true -> JsMap.keys (JsMap.set k v m) = JsMap.keys m.
Proof.
  unfold JsMap.has. induction m as [|[k0 v0] m IH]; simpl; [discriminate|].
  destruct (String.eqb_spec k0 k) as [->|_]; simpl; [reflexivity|].
  intros H. now rewrite IH.
Qed.

Lemma has_keys k m : JsMap.has k m = false <-> ~ In k (JsMap.keys m).
Proof.
  unfold JsMap.has. rewrite <- get_None_keys.
  destruct (JsMap.get k m); split; congruence.
Qed.

Lemma keys_delete_incl k m x :
  In x (JsMap.keys (JsMap.delete k m)) -> In x (JsMap.keys m).
Proof.
  induction m as [|[k0 v0] m IH]; simpl; [tauto|].
  destruct (String.eqb k0 k); simpl; tauto.
Qed.

Lemma NoDup_delete k m :
  NoDup (JsMap.keys m) -> NoDup (JsMap.keys (JsMap.delete k m)).
Proof.
  induction m as [|[k0 v0] m IH]; simpl; [auto|].
  intros Hnd. apply NoDup_cons in Hnd as [Hk0 Hnd].
  destruct (String.eqb k0 k); simpl; [exact Hnd|].
  apply NoDup_cons. split; [|auto].
  intros Hin%list_elem_of_In%keys_delete_incl. apply Hk0.
  now apply list_elem_of_In.
Qed.

Lemma NoDup_set k v m :
  NoDup (JsMap.keys m) -> NoDup (JsMap.keys (JsMap.set k v m)).
Proof.
  intros Hnd. destruct (JsMap.has k m) eqn:Hhas.
  - now rewrite keys_set_existing.
  - rewrite keys_set_new by assumption.
    apply NoDup_app. repeat split; [exact Hnd | | apply NoDup_singleton].
    intros x Hx Hx'%list_elem_of_singleton. subst x.
    apply has_keys in Hhas. apply Hhas. now apply list_elem_of_In.
Qed.

Lemma keys_filter_incl (f : string * V -> bool) m x :
  In x (JsMap.keys (List.filter f m)) -> In x (JsMap.keys m).
Proof.
  induction m as [|[k0 v0] m IH]; simpl; [tauto|].
  destruct (f (k0, v0)); simpl; tauto.
Qed.

Lemma NoDup_filter (f : string * V -> bool) m :
  NoDup (JsMap.keys m) -> NoDup (JsMap.keys (List.filter f m)).
Proof.
  induction m as [|[k0 v0] m IH]; simpl; [auto|].
  intros Hnd. apply NoDup_cons in Hnd as [Hk0 Hnd].
  destruct (f (k0, v0)); simpl; [|auto].
  apply NoDup_cons. split; [|auto].
  intros Hin%list_elem_of_In%keys_filter_incl. apply Hk0.
  now apply list_elem_of_In.
Qed.

(** with distinct keys, a deleted key is gone and the entry of a key is
    the one that is listed *)
Lemma get_delete_eq k m :
  NoDup (JsMap.keys m) -> JsMap.get k (JsMap.delete k m) = None.
Proof.
  induction m as [|[k0 v0] m IH]; simpl; [reflexivity|].
  intros Hnd. apply NoDup_cons in Hnd as [Hk0 Hnd].
  destruct (String.eqb_spec k0 k) as [->|Hne]; simpl.
  - apply get_None_keys. intros Hin. apply Hk0. now apply list_elem_of_In.
  - destruct (String.eqb_spec k0 k); [congruence | auto].
Qed.

Lemma In_get k v m :
  NoDup (JsMap.keys m) -> In (k, v) m -> JsMap.get k m = Some v.
Proof.
  induction m as [|[k0 v0] m IH]; simpl; [tauto|].
  intros Hnd. apply NoDup_cons in Hnd as [Hk0 Hnd].
  intros [[= -> ->]|Hin].
  - now rewrite String.eqb_refl.
  - destruct (String.eqb_spec k0 k) as [->|_]; [|auto].
    exfalso. apply Hk0. apply list_elem_of_In. eapply In_keys; eauto.
Qed.

Lemma size_set_existing k v m :
  JsMap.has k m = true -> JsMap.size (JsMap.set k v m) = JsMap.size m.
Proof.
  intros H. unfold JsMap.size.
  rewrite <- (length_map fst (JsMap.set k v m)), <- (length_map fst m).
  unfold JsMap.keys in *. fold (JsMap.keys (JsMap.set k v m)).
  now rewrite (keys_set_existing k v m H).
Qed.

End MoreMapFacts.

(** X1.  [invalidate] with a pattern removes exactly the entries whose
    key, the digest, includes the pattern; the entries of the other keys
    and the settings of the cache are left as they were. *)
Theorem invalidate_by_digest {A} (qc : Cache.QueryCache A)
    (pattern k : string) :
  Str.truthy pattern = true ->
  JsMap.get k (Cache.cache (Cache.invalidate (Some pattern) qc))
  = (if Str.includes k pattern then None else JsMap.get k (Cache.cache qc))
  /\ Cache.maxSize (Cache.invalidate (Some pattern) qc) = Cache.maxSize qc
  /\ Cache.defaultTTL (Cache.invalidate (Some pattern) qc) = Cache.defaultTTL qc.
Proof.
  intros Hp. unfold Cache.invalidate. rewrite Hp. simpl.
  split; [|split; reflexivity].
  destruct (Str.includes k pattern) eqn:E.
  - apply (get_filter_dropped (fun k => negb (Str.includes k pattern))).
    now rewrite E.
  - apply (get_filter_key (fun k => negb (Str.includes k pattern))).
    now rewrite E.
Qed.

(** the digest of [SELECT * FROM users] starts with [a4]: invalidating a
    table of that name drops it, and keeps the read of [products] *)
Lemma invalidate_by_digest_witness :
  let qc : Cache.QueryCache nat :=
    Cache.set 1000 1000 "SELECT * FROM products" 2%nat None None
      (Cache.set 1000 1000 "SELECT * FROM users" 1%nat None None
         (Cache.new None None)) in
  fst (Cache.get 1000 "SELECT * FROM users" None
                 (Cache.invalidateTable "A4" qc)) = None
  /\ fst (Cache.get 1000 "SELECT * FROM products" None
                    (Cache.invalidateTable "A4" qc)) = Some 2%nat.
Proof.
  intros qc. rewrite !get_result.
  change (Cache.invalidateTable "A4" qc) with (Cache.invalidate (Some "a4") qc).
  split.
  - destruct (invalidate_by_digest qc "a4"
                (Cache.generateKey "SELECT * FROM users" None) eq_refl) as [-> _].
    vm_compute. reflexivity.
  - destruct (invalidate_by_digest qc "a4"
                (Cache.generateKey "SELECT * FROM products" None) eq_refl)
      as [-> _].
    vm_compute. reflexivity.
Defined.

(** [invalidate] without a pattern, and with the empty pattern, empties
    the cache: table-scoped invalidation with an empty table name drops
    every entry, and every [get] after it is a miss. *)
Lemma invalidate_without_pattern_clears {A} (qc : Cache.QueryCache A)
    (now : Z) (sql : string) (params : option (list Json.JsParam)) :
  Cache.cache (Cache.invalidate None qc) = nil
  /\ Cache.invalidateTable "" qc = Cache.invalidate None qc
  /\ Cache.invalidate (Some "") qc = Cache.invalidate None qc
  /\ fst (Cache.get now sql params (Cache.invalidateTable "" qc)) = None
  /\ Cache.getStats (Cache.invalidateTable "" qc) = (0, Cache.maxSize qc).
Proof. repeat split. Qed.

(** X3.  The sweep [cleanExpired] keeps exactly the entries that are not
    expired at the time of the sweep, and no [get] at that time can tell
    that the sweep has run. *)
Theorem cleanExpired_sweeps {A} (qc : Cache.QueryCache A) (now : Z) :
  NoDup (JsMap.keys (Cache.cache qc)) ->
  (forall k e, In (k, e) (Cache.cache (Cache.cleanExpired now qc)) <->
               In (k, e) (Cache.cache qc) /\ Cache.isExpired now e = false)
  /\ (forall sql params,
         fst (Cache.get now sql params (Cache.cleanExpired now qc))
         = fst (Cache.get now sql params qc))
  /\ JsMap.size (Cache.cache (Cache.cleanExpired now qc))
     <= JsMap.size (Cache.cache qc).
Proof.
  intros Hnd. unfold Cache.cleanExpired. simpl.
  assert (Hin : forall k e,
             In (k, e) (List.filter (fun ke => negb (Cache.isExpired now (snd ke)))
                                    (Cache.cache qc)) <->
             In (k, e) (Cache.cache qc) /\ Cache.isExpired now e = false).
  { intros k e. rewrite filter_In. simpl. now rewrite negb_true_iff. }
  split; [exact Hin | split].
  - intros sql params. rewrite !get_result. simpl.
    set (key := Cache.generateKey sql params).
    destruct (JsMap.get key (Cache.cache qc)) as [e|] eqn:He.
    + destruct (Cache.isExpired now e) eqn:Hexp.
      * destruct (JsMap.get key (List.filter _ _)) as [e'|] eqn:He';
          [|reflexivity].
        apply get_In, Hin in He' as [Hin' Hlive].
        apply (In_get _ _ _ Hnd) in Hin'. congruence.
      * rewrite (In_get key e); [now rewrite Hexp | now apply NoDup_filter |].
        apply Hin. split; [now apply get_In | exact Hexp].
    + destruct (JsMap.get key (List.filter _ _)) as [e'|] eqn:He';
        [|reflexivity].
      apply get_In, Hin in He' as [Hin' _].
      apply (In_get _ _ _ Hnd) in Hin'. congruence.
  - unfold JsMap.size. apply inj_le, filter_length_le.
Qed.

(** a sweep at a time when one of two entries has expired *)
Lemma cleanExpired_sweeps_witness :
  let qc : Cache.QueryCache nat :=
    Cache.set 5000 5000 "SELECT 2" 2%nat None None
      (Cache.set 1000 1000 "SELECT 1" 1%nat None (Some 100)
         (Cache.new None None)) in
  JsMap.size (Cache.cache qc) = 2
  /\ fst (Cache.get 6000 "SELECT 2" None (Cache.cleanExpired 6000 qc))
     = Some 2%nat
  /\ fst (Cache.get 6000 "SELECT 1" None (Cache.cleanExpired 6000 qc)) = None.
Proof.
  intros qc.
  destruct (cleanExpired_sweeps qc 6000) as (_ & Hget & _).
  - apply (bool_decide_unpack _). vm_compute. exact I.
  - split; [vm_compute; reflexivity|].
    rewrite !Hget. split; vm_compute; reflexivity.
Defined.

Lemma has_In {A} k (e : A) (m : JsMap.t A) : In (k, e) m -> JsMap.has k m = true.
Proof.
  intros Hin. destruct (JsMap.has k m) eqn:E; [reflexivity|].
  apply has_keys in E. exfalso. apply E. eapply In_keys; eauto.
Qed.

(** X4.  Eviction is by creation time.  When the cache is full and some
    entry is older than the clock, the [set] of a new key removes one
    entry, than which none is older; the new entry is stored, every other
    key reads as before, and the size is kept. *)
Theorem set_evicts_oldest {A} (qc : Cache.QueryCache A) (nowEvict now : Z)
    (sql : string) (v : A) (params : option (list Json.JsParam))
    (ttl : option Z) :
  Cache.maxSize qc <= JsMap.size (Cache.cache qc) ->
  JsMap.has (Cache.generateKey sql params) (Cache.cache qc) = false ->
  NoDup (JsMap.keys (Cache.cache qc)) ->
  (forall k e, In (k, e) (Cache.cache qc) -> Str.truthy k = true) ->
  (exists k e, In (k, e) (Cache.cache qc) /\ Cache.timestamp e < nowEvict) ->
  let qc' := Cache.set nowEvict now sql v params ttl qc in
  exists k0 e0,
    In (k0, e0) (Cache.cache qc)
    /\ (forall k e, In (k, e) (Cache.cache qc) ->
                    Cache.timestamp e0 <= Cache.timestamp e)
    /\ JsMap.get k0 (Cache.cache qc') = None
    /\ (forall k, k <> k0 -> k <> Cache.generateKey sql params ->
                  JsMap.get k (Cache.cache qc') = JsMap.get k (Cache.cache qc))
    /\ JsMap.get (Cache.generateKey sql params) (Cache.cache qc')
       = Some (Spec.stored v now ttl qc)
    /\ JsMap.size (Cache.cache qc') = JsMap.size (Cache.cache qc).
Proof.
  intros Hfull Hnew Hnd Hkeys Hold qc'.
  destruct (set_evicts_when_older nowEvict now sql v params ttl qc
              Hfull Hnew Hkeys Hold) as (Hsize & k0 & e0 & Hin0 & Hevict & Hmin).
  exists k0, e0.
  assert (Hk0 : k0 <> Cache.generateKey sql params).
  { intros ->. apply has_In in Hin0. congruence. }
  assert (Hcache : Cache.cache qc'
                   = JsMap.set (Cache.generateKey sql params)
                               (Spec.stored v now ttl qc)
                               (JsMap.delete k0 (Cache.cache qc))).
  { subst qc'. unfold Cache.set. rewrite Hnew.
    destruct (Z.leb_spec (Cache.maxSize qc) (JsMap.size (Cache.cache qc))); [|lia].
    simpl andb. cbv iota. rewrite Hevict. reflexivity. }
  repeat split; try assumption.
  - rewrite Hcache, get_set_ne by congruence. now apply get_delete_eq.
  - intros k Hk Hkey. rewrite Hcache, get_set_ne by congruence.
    apply get_delete_ne. congruence.
  - apply set_lookup.
Qed.

(** a cache of capacity 2 filled at times 1000 and 2000, then a third
    query at time 3000: the first query is the one evicted *)
Lemma set_evicts_oldest_witness :
  let qc : Cache.QueryCache nat :=
    Cache.set 2000 2000 "SELECT 2" 2%nat None None
      (Cache.set 1000 1000 "SELECT 1" 1%nat None None
         (Cache.new (Some 2) None)) in
  let qc' := Cache.set 3000 3000 "SELECT 3" 3%nat None None qc in
  JsMap.size (Cache.cache qc') = 2
  /\ fst (Cache.get 3000 "SELECT 1" None qc') = None
  /\ fst (Cache.get 3000 "SELECT 2" None qc') = Some 2%nat.
Proof.
  intros qc qc'.
  destruct (set_evicts_oldest qc 3000 3000 "SELECT 3" 3%nat None None)
    as (k0 & e0 & Hin0 & Hmin & Hgone & Hrest & _ & Hsize).
  - vm_compute. discriminate.
  - vm_compute. reflexivity.
  - apply (bool_decide_unpack _). vm_compute. exact I.
  - intros k e Hin. vm_compute in Hin.
    destruct Hin as [[= <- <-]|[[= <- <-]|[]]]; reflexivity.
  - exists (Cache.generateKey "SELECT 1" None), (Cache.mkEntry 1%nat 1000 300000).
    split; [vm_compute; tauto | reflexivity].
  - fold qc' in Hgone, Hrest, Hsize.
    split; [rewrite Hsize; vm_compute; reflexivity|].
    vm_compute. split; reflexivity.
Defined.

(** X5.  The capacity holds while the clock advances: when every entry
    is older than the clock read by [evictOldest], a [set] into a cache
    within a capacity of at least one leaves it within its capacity. *)
Theorem set_within_capacity {A} (qc : Cache.QueryCache A) (nowEvict now : Z)
    (sql : string) (v : A) (params : option (list Json.JsParam))
    (ttl : option Z) :
  1 <= Cache.maxSize qc ->
  JsMap.size (Cache.cache qc) <= Cache.maxSize qc ->
  (forall k e, In (k, e) (Cache.cache qc) ->
               Str.truthy k = true /\ Cache.timestamp e < nowEvict) ->
  JsMap.size (Cache.cache (Cache.set nowEvict now sql v params ttl qc))
  <= Cache.maxSize qc.
Proof.
  intros Hcap Hsize Hentries.
  destruct (JsMap.has (Cache.generateKey sql params) (Cache.cache qc)) eqn:Hhas.
  - unfold Cache.set. rewrite Hhas, andb_false_r. simpl.
    now rewrite size_set_existing.
  - destruct (Z.leb_spec (Cache.maxSize qc) (JsMap.size (Cache.cache qc)))
      as [Hfull|Hroom].
    + destruct (Cache.cache qc) as [|[k1 e1] m] eqn:Hm.
      { unfold JsMap.size in Hfull. simpl in Hfull. lia. }
      rewrite <- Hm in *.
      destruct (set_evicts_when_older nowEvict now sql v params ttl qc)
        as [-> _]; auto.
      * intros k e Hin. now destruct (Hentries k e Hin).
      * exists k1, e1. split; [rewrite Hm; now left|].
        destruct (Hentries k1 e1) as [_ Hlt]; [rewrite Hm; now left | exact Hlt].
    + unfold Cache.set. rewrite Hhas.
      destruct (Z.leb_spec (Cache.maxSize qc) (JsMap.size (Cache.cache qc)));
        [lia|]. simpl. rewrite size_set_new by assumption. lia.
Qed.

(** a third query, one second later, into a cache of capacity 2 *)
Lemma set_within_capacity_witness :
  let qc : Cache.QueryCache nat :=
    Cache.set 2000 2000 "SELECT 2" 2%nat None None
      (Cache.set 1000 1000 "SELECT 1" 1%nat None None
         (Cache.new (Some 2) None)) in
  JsMap.size (Cache.cache (Cache.set 3000 3000 "SELECT 3" 3%nat None None qc))
  <= 2.
Proof.
  intros qc.
  apply (set_within_capacity qc 3000 3000 "SELECT 3" 3%nat None None).
  - vm_compute. discriminate.
  - vm_compute. discriminate.
  - intros k e Hin. vm_compute in Hin.
    destruct Hin as [[= <- <-]|[[= <- <-]|[]]]; split; reflexivity.
Defined.

(** X6.  The [set] of a key that is cached overwrites its entry in
    place: nothing is evicted, even at capacity, the order of the keys and
    the size are kept, and the other keys read as before. *)
Theorem set_overwrites_in_place {A} (qc : Cache.QueryCache A)
    (nowEvict now : Z) (sql : string) (v : A)
    (params : option (list Json.JsParam)) (ttl : option Z) :
  JsMap.has (Cache.generateKey sql params) (Cache.cache qc) = true ->
  let qc' := Cache.set nowEvict now sql v params ttl qc in
  JsMap.keys (Cache.cache qc') = JsMap.keys (Cache.cache qc)
  /\ JsMap.size (Cache.cache qc') = JsMap.size (Cache.cache qc)
  /\ JsMap.get (Cache.generateKey sql params) (Cache.cache qc')
     = Some (Spec.stored v now ttl qc)
  /\ (forall k, k <> Cache.generateKey sql params ->
                JsMap.get k (Cache.cache qc') = JsMap.get k (Cache.cache qc)).
Proof.
  intros Hhas qc'. subst qc'. unfold Cache.set.
  rewrite Hhas, andb_false_r. simpl.
  repeat split.
  - now apply keys_set_existing.
  - now apply size_set_existing.
  - apply get_set_eq.
  - intros k Hk. apply get_set_ne. congruence.
Qed.

(** a full cache of capacity 1 whose only query is cached again *)
Lemma set_overwrites_in_place_witness :
  let qc : Cache.QueryCache nat :=
    Cache.set 1000 1000 "SELECT 1" 1%nat None None (Cache.new (Some 1) None) in
  let qc' := Cache.set 1000 1000 "SELECT 1" 2%nat None None qc in
  JsMap.size (Cache.cache qc') = JsMap.size (Cache.cache qc)
  /\ fst (Cache.get 1000 "SELECT 1" None qc') = Some 2%nat.
Proof.
  intros qc qc'.
  destruct (set_overwrites_in_place qc 1000 1000 "SELECT 1" 2%nat None None)
    as (_ & Hsize & _ & _); [vm_compute; reflexivity|].
  split; [exact Hsize | vm_compute; reflexivity].
Defined.

(** X7.  Reading does not extend the life of an entry: a hit leaves the
    cache as it is, timestamp included, and the entry is a miss after
    [creation + ttl] however recently it was read. *)
Theorem read_does_not_extend_life {A} (qc : Cache.QueryCache A)
    (nowEvict created t1 t2 : Z) (sql : string) (v : A)
    (params : option (list Json.JsParam)) (ttl : option Z) :
  let qc' := Cache.set nowEvict created sql v params ttl qc in
  let T := Cache.ttl (Spec.stored v created ttl qc) in
  t1 - created <= T ->
  created + T < t2 ->
  Cache.get t1 sql params qc' = (Some v, qc')
  /\ fst (Cache.get t2 sql params (snd (Cache.get t1 sql params qc'))) = None.
Proof.
  intros qc' T Ht1 Ht2.
  assert (Hhit : Cache.get t1 sql params qc' = (Some v, qc')).
  { unfold Cache.get. subst qc'. rewrite set_lookup.
    unfold Cache.isExpired. fold T.
    change (Cache.timestamp (Spec.stored v created ttl qc)) with created.
    destruct (Z.ltb_spec T (t1 - created)); [lia | reflexivity]. }
  split; [exact Hhit|].
  rewrite Hhit. cbn [snd]. rewrite get_result. subst qc'. rewrite set_lookup.
  unfold Cache.isExpired. fold T.
  change (Cache.timestamp (Spec.stored v created ttl qc)) with created.
  destruct (Z.ltb_spec T (t2 - created)); [reflexivity | lia].
Qed.

(** an entry of one minute, read after 59 seconds and again after 61 *)
Lemma read_does_not_extend_life_witness :
  let qc' : Cache.QueryCache nat :=
    Cache.set 1000 1000 "SELECT 1" 7%nat None (Some 60000) (Cache.new None None) in
  fst (Cache.get 62000 "SELECT 1" None
                 (snd (Cache.get 60000 "SELECT 1" None qc'))) = None.
Proof.
  intros qc'.
  apply (read_does_not_extend_life (Cache.new None None) 1000 1000 60000 62000
           "SELECT 1" 7%nat None (Some 60000)); vm_compute;
    [discriminate | reflexivity].
Defined.

(** a cacheable statement is one that every user may run *)
Lemma cacheable_readable_by (user : Auth.User) (sql : string) :
  Cache.shouldCache sql = true ->
  Auth.hasPermission user (Auth.parseQueryPermission sql) = true.
Proof.
  intros Hcache. pose proof (mutating_not_cached sql) as Hmut.
  unfold Auth.hasPermission.
  destruct (Auth.role user); [reflexivity| |];
    destruct (Auth.parseQueryPermission sql); try reflexivity;
    exfalso; rewrite Hmut in Hcache; simpl; auto; discriminate.
Qed.

(** X8.  Every statement the cache accepts is classified as a read, which
    every role may run: a cached result is never one that its reader
    could not have asked the database for. *)
Theorem cacheable_is_readable (sql : string) (user : Auth.User) :
  Cache.shouldCache sql = true ->
  In (Auth.parseQueryPermission sql) [Auth.SELECT; Auth.SHOW; Auth.DESCRIBE]
  /\ Auth.hasPermission user (Auth.parseQueryPermission sql) = true.
Proof.
  intros Hcache.
  assert (Hread : In (Auth.parseQueryPermission sql)
                     [Auth.SELECT; Auth.SHOW; Auth.DESCRIBE]).
  { pose proof (mutating_not_cached sql) as Hmut.
    destruct (Auth.parseQueryPermission sql); simpl; auto;
      exfalso; rewrite Hmut in Hcache; simpl; auto; discriminate. }
  split; [exact Hread|].
  unfold Auth.hasPermission.
  destruct (Auth.role user); [reflexivity| |];
    simpl in Hread; destruct Hread as [<-|[<-|[<-|[]]]]; reflexivity.
Qed.

(** a read in mixed case *)
Lemma cacheable_is_readable_witness :
  Auth.hasPermission (Auth.mkUser "readonly" "ro123" Auth.READ_ONLY)
    (Auth.parseQueryPermission "  Show Tables") = true.
Proof.
  apply (cacheable_is_readable "  Show Tables"). reflexivity.
Defined.

(** the digest is 16 bytes, written as 32 hexadecimal digits *)
Lemma length_hex bs : String.length (MD5.hex bs) = (2 * List.length bs)%nat.
Proof. induction bs as [|b bs IH]; simpl; [reflexivity | rewrite IH; lia]. Qed.

Lemma generateKey_isDigest sql params :
  Gate.isDigest (Cache.generateKey sql params) = true.
Proof.
  unfold Gate.isDigest. apply andb_true_intro. split.
  - unfold Cache.generateKey, MD5.md5hex, MD5.digest_bytes.
    rewrite length_hex.
    destruct (MD5.blocks _ _ _). reflexivity.
  - apply forallb_forall. intros c Hc. eapply generateKey_isHex; eauto.
Qed.

Lemma digestKeys_shrink {A} (m m' : JsMap.t (Cache.CacheEntry A)) :
  NoDup (JsMap.keys m') ->
  (forall x, In x (JsMap.keys m') -> In x (JsMap.keys m)) ->
  Forall (fun k => Gate.isDigest k = true) (JsMap.keys m) ->
  NoDup (JsMap.keys m')
  /\ Forall (fun k => Gate.isDigest k = true) (JsMap.keys m').
Proof.
  intros Hnd Hsub Hall. split; [exact Hnd|].
  rewrite List.Forall_forall in *. auto.
Qed.

Lemma digestKeys_apply {A} (qc : Cache.QueryCache A) (op : Gate.CacheOp A) :
  Gate.digestKeys qc -> Gate.digestKeys (Gate.apply qc op).
Proof.
  intros [Hnd Hall]. unfold Gate.digestKeys.
  assert (Hdel : forall k,
             NoDup (JsMap.keys (JsMap.delete k (Cache.cache qc)))
             /\ Forall (fun k => Gate.isDigest k = true)
                       (JsMap.keys (JsMap.delete k (Cache.cache qc)))).
  { intros k. apply (digestKeys_shrink (Cache.cache qc)); auto.
    - now apply NoDup_delete.
    - intros x. apply keys_delete_incl. }
  assert (Hfil : forall f,
             NoDup (JsMap.keys (List.filter f (Cache.cache qc)))
             /\ Forall (fun k => Gate.isDigest k = true)
                       (JsMap.keys (List.filter f (Cache.cache qc)))).
  { intros f. apply (digestKeys_shrink (Cache.cache qc)); auto.
    - now apply NoDup_filter.
    - intros x. apply keys_filter_incl. }
  assert (Hnil : NoDup (JsMap.keys (@nil (string * Cache.CacheEntry A)))
                 /\ Forall (fun k => Gate.isDigest k = true)
                           (JsMap.keys (@nil (string * Cache.CacheEntry A)))).
  { split; [apply NoDup_nil; auto | constructor]. }
  destruct op as [now sql params|nowEvict now sql v params ttl|pattern|t|now];
    simpl.
  - unfold Cache.get.
    destruct (JsMap.get _ _) as [e|]; [destruct (Cache.isExpired now e)|];
      simpl; auto.
  - unfold Cache.set.
    match goal with
    | |- context [if ?b then Cache.evictOldest nowEvict qc else qc] =>
        set (qc1 := if b then Cache.evictOldest nowEvict qc else qc)
    end.
    assert (H1 : NoDup (JsMap.keys (Cache.cache qc1))
                 /\ Forall (fun k => Gate.isDigest k = true)
                           (JsMap.keys (Cache.cache qc1))).
    { subst qc1. destruct (_ && _); [|auto].
      unfold Cache.evictOldest.
      destruct (_ =? 0); [auto|]. destruct (Str.truthy _); simpl; auto. }
    destruct H1 as [Hnd1 Hall1]. simpl. split; [now apply NoDup_set|].
    destruct (JsMap.has (Cache.generateKey sql params) (Cache.cache qc1)) eqn:E.
    + now rewrite keys_set_existing.
    + rewrite keys_set_new by assumption. apply Forall_app. split; [exact Hall1|].
      constructor; [apply generateKey_isDigest | constructor].
  - unfold Cache.invalidate. destruct pattern as [p|]; simpl; [|auto].
    destruct (negb (Str.truthy p)); simpl; auto.
  - unfold Cache.invalidateTable, Cache.invalidate.
    destruct (negb (Str.truthy _)); simpl; auto.
  - unfold Cache.cleanExpired. simpl. auto.
Qed.

(** X9.  Whatever is done with a cache after its construction, its keys
    are distinct digests of 32 hexadecimal digits; none is empty, and
    none includes a character other than a digit or a letter from a to
    f. *)
Theorem cache_keys_are_digests {A} (maxSize defaultTTL : option Z)
    (ops : list (Gate.CacheOp A)) :
  Gate.digestKeys (fold_left Gate.apply ops (Cache.new maxSize defaultTTL)).
Proof.
  assert (H0 : @Gate.digestKeys A (Cache.new maxSize defaultTTL)).
  { split; [apply NoDup_nil; auto | constructor]. }
  revert H0. generalize (@Cache.new A maxSize defaultTTL) as qc.
  induction ops as [|op ops IH]; intros qc Hqc; simpl; [exact Hqc|].
  apply IH. now apply digestKeys_apply.
Qed.

(** ** The registry and the sessions *)

Lemma envOr_truthy env name fallback :
  Str.truthy fallback = true -> Str.truthy (Auth.envOr env name fallback) = true.
Proof.
  intros Hf. unfold Auth.envOr.
  destruct (env !! name) as [v|]; [|exact Hf].
  destruct (Str.truthy v) eqn:E; [exact E | exact Hf].
Qed.

(** X10.  Whatever the environment, the read-only account is registered,
    every account is registered under its own, non-empty name, and the
    role Admin is only held by the account with the name and password of
    the administrator: when names clash, the account that stays is the
    one of the lower role. *)
Theorem default_registry_roles (env : gmap string string) :
  let users := Auth.initializeDefaultUsers env in
  let admin := Auth.envOr env "MYSQL_ADMIN_USER" "admin" in
  let rw := Auth.envOr env "MYSQL_RW_USER" "readwrite" in
  let ro := Auth.envOr env "MYSQL_RO_USER" "readonly" in
  users !! ro
  = Some (Auth.mkUser ro (Auth.envOr env "MYSQL_RO_PASSWORD" "ro123")
                      Auth.READ_ONLY)
  /\ forall u user,
       users !! u = Some user ->
       Auth.username user = u
       /\ Str.truthy u = true
       /\ (Auth.role user = Auth.ADMIN ->
           u = admin
           /\ Auth.password user = Auth.envOr env "MYSQL_ADMIN_PASSWORD" "admin123"
           /\ u <> rw /\ u <> ro)
       /\ (Auth.role user = Auth.READ_WRITE -> u = rw /\ u <> ro).
Proof.
  intros users admin rw ro. subst users. unfold Auth.initializeDefaultUsers.
  cbn [Auth.username]. fold admin rw ro.
  split; [apply lookup_insert_eq|].
  intros u user.
  rewrite lookup_insert. case_decide as Hro.
  { intros [= <-]. subst u. cbn. repeat split; try discriminate.
    now apply envOr_truthy. }
  rewrite lookup_insert. case_decide as Hrw.
  { intros [= <-]. subst u. cbn. repeat split; try discriminate; auto.
    now apply envOr_truthy. }
  rewrite lookup_insert. case_decide as Ha.
  { intros [= <-]. subst u. cbn. repeat split; try discriminate; auto.
    now apply envOr_truthy. }
  rewrite lookup_empty. discriminate.
Qed.

(** the read-only account configured under the name of the administrator *)
Lemma default_registry_roles_witness :
  Auth.initializeDefaultUsers {[ "MYSQL_RO_USER" := "admin" ]} !! "admin"
  = Some (Auth.mkUser "admin" "ro123" Auth.READ_ONLY).
Proof.
  destruct (default_registry_roles {[ "MYSQL_RO_USER" := "admin" ]}) as [H _].
  exact H.
Defined.

(** X11.  The id returned by a successful [authenticate] resolves to the
    account of the user, whose password is the one given; only a user
    with an empty name has a session that never resolves. *)
Theorem session_resolves_after_authenticate (am am' : Auth.AuthManager)
    (username password rnd token : string) :
  Auth.authenticate username password rnd am = (Some token, am') ->
  Auth.getUserFromSession token am'
  = (if Str.truthy username then Auth.users am !! username else None)
  /\ (Str.truthy username = true ->
      exists user, Auth.getUserFromSession token am' = Some user
                   /\ Auth.password user = password).
Proof.
  unfold Auth.authenticate.
  destruct (Auth.users am !! username) as [[n pw r]|] eqn:Hu; [|discriminate].
  destruct (String.eqb_spec pw password) as [->|]; [|discriminate].
  simpl. intros [= <- <-]. unfold Auth.getUserFromSession. simpl.
  rewrite lookup_insert_eq.
  destruct (Str.truthy username); simpl.
  - rewrite Hu. split; [reflexivity|]. intros _. eauto.
  - split; [reflexivity | discriminate].
Qed.

Lemma session_resolves_after_authenticate_witness :
  let am := Auth.new ∅ in
  Auth.getUserFromSession "k3x9f"
    (snd (Auth.authenticate "readwrite" "rw123" "k3x9f" am))
  = Some (Auth.mkUser "readwrite" "rw123" Auth.READ_WRITE).
Proof.
  intros am.
  destruct (Auth.authenticate "readwrite" "rw123" "k3x9f" am) as [tok am'] eqn:E.
  assert (Htok : tok = Some "k3x9f") by (vm_compute in E; congruence).
  subst tok. cbn [snd].
  destruct (session_resolves_after_authenticate am am' "readwrite" "rw123"
              "k3x9f" "k3x9f" E) as [Hget _].
  rewrite Hget. vm_compute. reflexivity.
Defined.

(** X12.  [logout] revokes one session: its id no longer resolves, every
    other id resolves as before, the registry is left alone, and the
    [logout] of an id that is not a session changes nothing. *)
Theorem logout_revokes (am : Auth.AuthManager) (sessionId : string) :
  Auth.getUserFromSession sessionId (Auth.logout sessionId am) = None
  /\ (forall t, t <> sessionId ->
                Auth.getUserFromSession t (Auth.logout sessionId am)
                = Auth.getUserFromSession t am)
  /\ Auth.users (Auth.logout sessionId am) = Auth.users am
  /\ (Auth.sessions am !! sessionId = None -> Auth.logout sessionId am = am).
Proof.
  unfold Auth.logout, Auth.getUserFromSession. simpl.
  repeat split.
  - now rewrite lookup_delete_eq.
  - intros t Ht. now rewrite lookup_delete_ne.
  - intros Hno. rewrite delete_id by assumption. now destruct am.
Qed.

Lemma logout_revokes_witness :
  let am := snd (Auth.authenticate "admin" "admin123" "k3x9f"
                   (snd (Auth.authenticate "readonly" "ro123" "p0q1r"
                           (Auth.new ∅)))) in
  Auth.getUserFromSession "k3x9f" (Auth.logout "p0q1r" am)
  = Some (Auth.mkUser "admin" "admin123" Auth.ADMIN)
  /\ Auth.getUserFromSession "p0q1r" (Auth.logout "p0q1r" am) = None.
Proof.
  intros am.
  destruct (logout_revokes am "p0q1r") as (Hgone & Hother & _).
  split; [|exact Hgone].
  rewrite Hother by discriminate. vm_compute. reflexivity.
Defined.

(** X13.  The permission of an operation is found by its name in any
    case; an administrator may run every operation, a read-write user all
    but [mysql_delete], a read-only user all but [mysql_insert],
    [mysql_update] and [mysql_delete].  A name that is no operation asks
    for Select, which every role has. *)
Theorem operations_by_role (operation : string) (user : Auth.User) :
  let op := Str.toLowerCase operation in
  Auth.hasPermission user (Auth.getPermissionForOperation operation) =
    match Auth.role user with
    | Auth.ADMIN => true
    | Auth.READ_WRITE => negb (String.eqb op "mysql_delete")
    | Auth.READ_ONLY =>
        negb (String.eqb op "mysql_insert" || String.eqb op "mysql_update"
              || String.eqb op "mysql_delete")
    end.
Proof.
  intros op. unfold Auth.hasPermission, Auth.getPermissionForOperation. fold op.
  destruct (Auth.role user); [reflexivity| |];
    repeat match goal with
           | |- context [String.eqb op ?k] =>
               destruct (String.eqb_spec op k) as [->|?]; try reflexivity
           end.
Qed.

(** ** The request gate *)

(** the check of a tool call: the session, then the permission *)
Lemma authorize_outcome (sid : string) (p : Auth.Permission)
    (operation : string) (sql : option string) (st : Server.State) :
  (match sql with
   | Some q =>
       if String.eqb operation "mysql_query" && Str.truthy q
       then Auth.parseQueryPermission q
       else Auth.getPermissionForOperation operation
   | None => Auth.getPermissionForOperation operation
   end) = p ->
  Server.authenticateAndAuthorize sid operation sql st =
    match Auth.getUserFromSession sid (Server.authManager st) with
    | None =>
        (Server.Threw (Client.McpError Server.InvalidRequest
                         "Invalid session ID or session expired"), st)
    | Some user =>
        if Auth.hasPermission user p then (Server.Returned tt, st)
        else (Server.Threw
                (Client.McpError Server.InvalidRequest
                   ("User " +:+ Auth.username user
                    +:+ " does not have permission for "
                    +:+ Auth.permissionValue p +:+ " operation")), st)
    end.
Proof.
  intros Hp. unfold Server.authenticateAndAuthorize, Server.bind, Server.gets.
  destruct (Auth.getUserFromSession sid (Server.authManager st)) as [user|];
    [|reflexivity].
  rewrite Hp. destruct (Auth.hasPermission user p); reflexivity.
Qed.

Lemma query_permission query :
  (if String.eqb "mysql_query" "mysql_query" && Str.truthy query
   then Auth.parseQueryPermission query
   else Auth.getPermissionForOperation "mysql_query")
  = Auth.parseQueryPermission query.
Proof. destruct query; reflexivity. Qed.

(** a call that names a session is first checked, whatever the tool *)
Lemma callTool_checked (req : Server.Request) (sid : string)
    (p : Auth.Permission) (c : Client.MySQLClient) (io : Server.Inputs)
    (st : Server.State) :
  Server.mysqlClient st = Some c ->
  Gate.sessionOf req = Some sid ->
  Gate.toolPermission req = Some p ->
  match Auth.getUserFromSession sid (Server.authManager st) with
  | None => Server.callTool req io st = (Server.Threw Gate.invalidSession, st)
  | Some user =>
      Auth.hasPermission user p = false ->
      Server.callTool req io st = (Server.Threw (Gate.denied user p), st)
  end.
Proof.
  intros Hc Hsid Hperm.
  unfold Server.callTool, Server.bind, Server.gets, Server.tryCatch,
    Server.throw. rewrite Hc.
  destruct req; simpl in Hsid, Hperm; try discriminate;
    injection Hsid as <-; injection Hperm as <-;
    unfold Server.handle, Server.bind;
    match goal with
    | |- context [Server.authenticateAndAuthorize ?s ?o ?q st] =>
        rewrite (authorize_outcome s _ o q st (query_permission _))
        || rewrite (authorize_outcome s _ o q st eq_refl)
    end;
    destruct (Auth.getUserFromSession _ _) as [user|]; try reflexivity;
    intros Hdenied;
    match goal with
    | |- context [Auth.hasPermission user ?p'] =>
        replace (Auth.hasPermission user p') with false
          by (symmetry; exact Hdenied)
    end;
    reflexivity.
Qed.

(** X14.  A call with a session id that does not resolve is refused with
    the same error by every tool that takes one; the call reaches neither
    the cache nor the database, and leaves the state as it is. *)
Theorem unknown_session_is_refused (st : Server.State)
    (c : Client.MySQLClient) (req : Server.Request) (sid : string)
    (io : Server.Inputs) :
  Server.mysqlClient st = Some c ->
  Gate.sessionOf req = Some sid ->
  Auth.getUserFromSession sid (Server.authManager st) = None ->
  Server.callTool req io st = (Server.Threw Gate.invalidSession, st).
Proof.
  intros Hc Hsid Hnone.
  assert (exists p, Gate.toolPermission req = Some p) as [p Hp].
  { destruct req; simpl in *; try discriminate; eauto. }
  pose proof (callTool_checked req sid p c io st Hc Hsid Hp) as H.
  now rewrite Hnone in H.
Qed.

(** a delete with an id that was never issued *)
Lemma unknown_session_is_refused_witness :
  Server.callTool (Server.mysql_delete "nosuch" "t" nil None)
                  (Sample.inputs (Client.DbHeader 1)) Sample.started
  = (Server.Threw Gate.invalidSession, Sample.started).
Proof.
  apply (unknown_session_is_refused Sample.started
           (Client.mkClient (Some 0%nat) (Server.connectionConfigOf Sample.configA))
           _ "nosuch");
    vm_compute; reflexivity.
Defined.

(** X15.  A call whose session lacks the permission of the tool is
    refused with an error that names the user and the permission; the
    statement is not sent, and the cache is not invalidated: the state
    is left as it is. *)
Theorem missing_permission_is_refused (st : Server.State)
    (c : Client.MySQLClient) (req : Server.Request) (sid : string)
    (user : Auth.User) (p : Auth.Permission) (io : Server.Inputs) :
  Server.mysqlClient st = Some c ->
  Gate.sessionOf req = Some sid ->
  Gate.toolPermission req = Some p ->
  Auth.getUserFromSession sid (Server.authManager st) = Some user ->
  Auth.hasPermission user p = false ->
  Server.callTool req io st = (Server.Threw (Gate.denied user p), st).
Proof.
  intros Hc Hsid Hp Huser Hdenied.
  pose proof (callTool_checked req sid p c io st Hc Hsid Hp) as H.
  rewrite Huser in H. auto.
Qed.

(** the read-only user inserts; the read-write user deletes by a raw query *)
Lemma missing_permission_is_refused_witness :
  Server.callTool (Server.mysql_insert "ro7x2" "t" [("id", Json.PNum 1)] None)
                  (Sample.inputs (Client.DbHeader 1)) Sample.signedIn
  = (Server.Threw
       (Gate.denied (Auth.mkUser "readonly" "ro123" Auth.READ_ONLY) Auth.INSERT),
     Sample.signedIn)
  /\ Server.callTool (Server.mysql_query "rw4m8" "delete from t" None)
                     (Sample.inputs (Client.DbHeader 1)) Sample.signedIn
     = (Server.Threw
          (Gate.denied (Auth.mkUser "readwrite" "rw123" Auth.READ_WRITE)
                       Auth.DELETE),
        Sample.signedIn).
Proof.
  split.
  - apply (missing_permission_is_refused Sample.signedIn Sample.client _ "ro7x2");
      vm_compute; reflexivity.
  - apply (missing_permission_is_refused Sample.signedIn Sample.client _ "rw4m8");
      vm_compute; reflexivity.
Defined.

(** a query that reaches the database answers with what the database
    answers *)
Lemma query_uncached (c : Client.MySQLClient) (h : nat) (sid query : string)
    (params : option (list Json.JsParam)) (user : Auth.User)
    (io : Server.Inputs) (st : Server.State) :
  Server.mysqlClient st = Some c ->
  Client.connection c = Some h ->
  Auth.getUserFromSession sid (Server.authManager st) = Some user ->
  Auth.hasPermission user (Auth.parseQueryPermission query) = true ->
  Cache.shouldCache query = false ->
  Server.callTool (Server.mysql_query sid query params) io st =
    (match Server.db io with
     | Client.DbRows rows => Server.Returned (Server.QueryResult rows)
     | Client.DbHeader _ => Server.Returned (Server.QueryResult nil)
     | Client.DbFail m =>
         Server.Threw (Client.ToolExecutionFailed
                         (Client.JsError
                            ("Query failed: " +:+ Client.errorToString m)))
     end, st).
Proof.
  intros Hc Hh Huser Hperm Hcache.
  unfold Server.callTool, Server.bind, Server.gets, Server.tryCatch,
    Server.throw, Server.handle, Server.bind. rewrite Hc.
  rewrite (authorize_outcome sid _ "mysql_query" (Some query) st
             (query_permission query)).
  rewrite Huser, Hperm, Hcache.
  unfold Server.ret, Server.clientQuery, Server.liftResult, Client.query.
  rewrite Hh. destruct (Server.db io); reflexivity.
Qed.

(** X16.  A raw statement that starts with none of the keywords is
    classified as a Select and not cached: every session, whatever its
    role, passes the check, and the statement is sent to the database,
    whose answer is the answer of the call. *)
Theorem unclassified_statement_is_sent (st : Server.State)
    (c : Client.MySQLClient) (h : nat) (sid query : string)
    (params : option (list Json.JsParam)) (user : Auth.User)
    (io : Server.Inputs) :
  Server.mysqlClient st = Some c ->
  Client.connection c = Some h ->
  Auth.getUserFromSession sid (Server.authManager st) = Some user ->
  (forall k p, In (k, p) Spec.keywords ->
               Str.startsWith (Str.toLowerCase (Str.trimStart query)) k = false) ->
  Server.callTool (Server.mysql_query sid query params) io st =
    (match Server.db io with
     | Client.DbRows rows => Server.Returned (Server.QueryResult rows)
     | Client.DbHeader _ => Server.Returned (Server.QueryResult nil)
     | Client.DbFail m =>
         Server.Threw (Client.ToolExecutionFailed
                         (Client.JsError
                            ("Query failed: " +:+ Client.errorToString m)))
     end, st).
Proof.
  intros Hc Hh Huser Hnone.
  assert (Hclass : Auth.parseQueryPermission query = Auth.SELECT).
  { rewrite parseQueryPermission_leading. cbv zeta.
    rewrite (Hnone "select" Auth.SELECT), (Hnone "insert" Auth.INSERT),
      (Hnone "update" Auth.UPDATE), (Hnone "delete" Auth.DELETE),
      (Hnone "show" Auth.SHOW), (Hnone "describe" Auth.DESCRIBE),
      (Hnone "desc" Auth.DESCRIBE) by (simpl; tauto).
    reflexivity. }
  apply (query_uncached c h sid query params user io st Hc Hh Huser).
  - rewrite Hclass. unfold Auth.hasPermission. destruct (Auth.role user); reflexivity.
  - rewrite shouldCache_leading. cbv zeta.
    rewrite (Hnone "select" Auth.SELECT), (Hnone "show" Auth.SHOW),
      (Hnone "describe" Auth.DESCRIBE), (Hnone "desc" Auth.DESCRIBE)
      by (simpl; tauto).
    reflexivity.
Qed.

(** the read-only user drops a table, and deletes behind a comment *)
Lemma unclassified_statement_is_sent_witness :
  Server.callTool (Server.mysql_query "ro7x2" "DROP TABLE t" None)
                  (Sample.inputs (Client.DbHeader 0)) Sample.signedIn
  = (Server.Returned (Server.QueryResult nil), Sample.signedIn)
  /\ Server.callTool (Server.mysql_query "ro7x2" "/**/ DELETE FROM t" None)
                     (Sample.inputs (Client.DbHeader 3)) Sample.signedIn
     = (Server.Returned (Server.QueryResult nil), Sample.signedIn).
Proof.
  split.
  - apply (unclassified_statement_is_sent Sample.signedIn Sample.client 0%nat
             "ro7x2" "DROP TABLE t" None
             (Auth.mkUser "readonly" "ro123" Auth.READ_ONLY)
             (Sample.inputs (Client.DbHeader 0)));
      try (vm_compute; reflexivity).
    intros k p Hin. simpl in Hin.
    repeat (destruct Hin as [Hin|Hin]; [injection Hin as <- <-; reflexivity|]).
    contradiction.
  - apply (unclassified_statement_is_sent Sample.signedIn Sample.client 0%nat
             "ro7x2" "/**/ DELETE FROM t" None
             (Auth.mkUser "readonly" "ro123" Auth.READ_ONLY)
             (Sample.inputs (Client.DbHeader 3)));
      try (vm_compute; reflexivity).
    intros k p Hin. simpl in Hin.
    repeat (destruct Hin as [Hin|Hin]; [injection Hin as <- <-; reflexivity|]).
    contradiction.
Defined.

(** a delete after the no-break space U+00A0 is classified as a delete,
    and refused to the read-only user *)
Lemma delete_after_no_break_space :
  Server.callTool
    (Server.mysql_query "ro7x2" (String (ascii_of_N 160) "DELETE FROM t") None)
    (Sample.inputs (Client.DbHeader 3)) Sample.signedIn
  = (Server.Threw
       (Gate.denied (Auth.mkUser "readonly" "ro123" Auth.READ_ONLY) Auth.DELETE),
     Sample.signedIn).
Proof. vm_compute. reflexivity. Qed.

Lemma setCache_same (st : Server.State) :
  Server.setCache (Server.queryCache st) st = st.
Proof. now destruct st. Qed.

(** a read that hits the cache *)
Lemma cache_hit_is_served_at (st : Server.State) (c : Client.MySQLClient)
    (sid query : string) (params : option (list Json.JsParam))
    (user : Auth.User) (rows : Client.Rows) (io : Server.Inputs) :
  Server.mysqlClient st = Some c ->
  Auth.getUserFromSession sid (Server.authManager st) = Some user ->
  Cache.shouldCache query = true ->
  fst (Cache.get (Server.tGet io) query params (Server.queryCache st))
  = Some rows ->
  Server.callTool (Server.mysql_query sid query params) io st
  = (Server.Returned (Server.CachedResult rows), st).
Proof.
  intros Hc Huser Hcache Hhit.
  pose proof (cacheable_readable_by user query Hcache) as Hperm.
  unfold Server.callTool, Server.bind, Server.gets, Server.tryCatch,
    Server.throw, Server.handle, Server.bind. rewrite Hc.
  rewrite (authorize_outcome sid _ "mysql_query" (Some query) st
             (query_permission query)).
  rewrite Huser, Hperm, Hcache. unfold Server.cacheGet.
  unfold Cache.get in *.
  destruct (JsMap.get _ _) as [e|]; [|discriminate].
  destruct (Cache.isExpired _ e); [discriminate|].
  simpl in Hhit. injection Hhit as <-. simpl.
  now rewrite setCache_same.
Qed.

(** X17.  A cached read is answered from the cache alone: the answer is
    the cached rows, whatever the database would say and whether or not
    the client still has a connection, and the state is left as it is. *)
Theorem cache_hit_is_served (st : Server.State) (c : Client.MySQLClient)
    (sid query : string) (params : option (list Json.JsParam))
    (user : Auth.User) (rows : Client.Rows) (io : Server.Inputs) :
  Server.mysqlClient st = Some c ->
  Auth.getUserFromSession sid (Server.authManager st) = Some user ->
  Cache.shouldCache query = true ->
  fst (Cache.get (Server.tGet io) query params (Server.queryCache st))
  = Some rows ->
  Server.callTool (Server.mysql_query sid query params) io st
  = (Server.Returned (Server.CachedResult rows), st).
Proof. apply cache_hit_is_served_at. Qed.

(** the rows read under the old configuration are served after a
    reconnection that failed, with no connection at all *)
Lemma cache_hit_is_served_witness :
  Server.callTool (Server.mysql_query "ro7x2" "SELECT * FROM t" None)
                  (Sample.inputs (Client.DbFail "no connection"))
                  Sample.disconnected
  = (Server.Returned (Server.CachedResult Sample.oneRow), Sample.disconnected).
Proof.
  apply (cache_hit_is_served Sample.disconnected
           (Client.mkClient None (Server.connectionConfigOf Sample.configB))
           "ro7x2" "SELECT * FROM t" None
           (Auth.mkUser "readonly" "ro123" Auth.READ_ONLY));
    vm_compute; reflexivity.
Defined.

(** X18.  A read that misses the cache is sent to the database and its
    rows are stored: the same read, repeated within the default time to
    live, is answered from the cache with the same rows, whatever the
    database would answer by then. *)
Theorem repeated_read_is_cached (st : Server.State) (c : Client.MySQLClient)
    (h : nat) (sid query : string) (params : option (list Json.JsParam))
    (user : Auth.User) (rows : Client.Rows) (io1 io2 : Server.Inputs) :
  Server.mysqlClient st = Some c ->
  Client.connection c = Some h ->
  Auth.getUserFromSession sid (Server.authManager st) = Some user ->
  Cache.shouldCache query = true ->
  fst (Cache.get (Server.tGet io1) query params (Server.queryCache st)) = None ->
  Server.db io1 = Client.DbRows rows ->
  Server.tGet io2 - Server.tSet io1 <= Cache.defaultTTL (Server.queryCache st) ->
  let r1 := Server.callTool (Server.mysql_query sid query params) io1 st in
  fst r1 = Server.Returned (Server.QueryResult rows)
  /\ fst (Server.callTool (Server.mysql_query sid query params) io2 (snd r1))
     = Server.Returned (Server.CachedResult rows).
Proof.
  intros Hc Hh Huser Hcache Hmiss Hdb Httl r1.
  pose proof (cacheable_readable_by user query Hcache) as Hperm.
  set (qc1 := snd (Cache.get (Server.tGet io1) query params (Server.queryCache st))).
  assert (Hr1 : r1 = (Server.Returned (Server.QueryResult rows),
                      Server.setCache
                        (Cache.set (Server.tEvict io1) (Server.tSet io1) query
                                   rows params None qc1) st)).
  { subst r1 qc1.
    unfold Server.callTool, Server.bind, Server.gets, Server.tryCatch,
      Server.throw, Server.handle, Server.bind. rewrite Hc.
    rewrite (authorize_outcome sid _ "mysql_query" (Some query) st
               (query_permission query)).
    rewrite Huser, Hperm, Hcache. unfold Server.cacheGet.
    destruct (Cache.get (Server.tGet io1) query params (Server.queryCache st))
      as [[r|] qc1]; [discriminate|].
    unfold Server.ret, Server.clientQuery, Server.liftResult, Client.query,
      Server.cacheSet, Server.modify.
    rewrite Hh, Hdb. reflexivity. }
  rewrite Hr1. cbn [fst snd]. split; [reflexivity|].
  set (st1 := Server.setCache _ st).
  assert (Hdefault : Cache.defaultTTL qc1 = Cache.defaultTTL (Server.queryCache st)).
  { subst qc1. unfold Cache.get.
    destruct (JsMap.get _ _) as [e|]; [destruct (Cache.isExpired _ e)|];
      reflexivity. }
  rewrite (cache_hit_is_served_at st1 c sid query params user rows io2);
    try reflexivity; try assumption.
  subst st1. cbn [Server.queryCache Server.setCache].
  rewrite get_result, set_lookup.
  unfold Cache.isExpired. cbn [Cache.ttl Cache.timestamp Spec.stored Cache.data].
  rewrite Hdefault.
  destruct (Z.ltb_spec (Cache.defaultTTL (Server.queryCache st))
                       (Server.tGet io2 - Server.tSet io1)); [lia | reflexivity].
Qed.

(** the read-only user reads [t] twice; the second time the database is
    not asked *)
Lemma repeated_read_is_cached_witness :
  let r1 := Server.callTool (Server.mysql_query "ro7x2" "SELECT * FROM t" None)
              (Sample.inputs (Client.DbRows Sample.oneRow)) Sample.signedIn in
  fst r1 = Server.Returned (Server.QueryResult Sample.oneRow)
  /\ fst (Server.callTool (Server.mysql_query "ro7x2" "SELECT * FROM t" None)
            (Sample.inputs (Client.DbFail "gone")) (snd r1))
     = Server.Returned (Server.CachedResult Sample.oneRow).
Proof.
  apply (repeated_read_is_cached Sample.signedIn Sample.client 0%nat
           "ro7x2" "SELECT * FROM t" None
           (Auth.mkUser "readonly" "ro123" Auth.READ_ONLY) Sample.oneRow);
    vm_compute; solve [reflexivity | discriminate].
Defined.

(** X19.  A statement that the database rejects is not cached: after the
    call, the cache holds no entry that it did not hold before. *)
Theorem failed_query_is_not_cached (st : Server.State) (sid query : string)
    (params : option (list Json.JsParam)) (io : Server.Inputs) (m : string) :
  Server.db io = Client.DbFail m ->
  let st' := snd (Server.callTool (Server.mysql_query sid query params) io st) in
  forall k e, In (k, e) (Cache.cache (Server.queryCache st')) ->
              In (k, e) (Cache.cache (Server.queryCache st)).
Proof.
  intros Hdb st' k e. subst st'.
  unfold Server.callTool, Server.bind, Server.gets, Server.tryCatch,
    Server.throw, Server.handle, Server.bind.
  destruct (Server.mysqlClient st) as [c|]; [|auto].
  pose proof (authorize_state sid "mysql_query" (Some query) st) as Ha.
  destruct (Server.authenticateAndAuthorize _ _ _ st) as [[[]|err] st1];
    simpl in Ha; subst st1; [|auto].
  assert (Hquery : exists err, Client.query c (Server.db io) = inr err).
  { unfold Client.query. rewrite Hdb. destruct (Client.connection c); eauto. }
  destruct Hquery as [err Hquery].
  unfold Server.ret, Server.clientQuery, Server.liftResult, Server.cacheGet.
  rewrite Hquery.
  destruct (Cache.shouldCache query); [|auto].
  unfold Cache.get.
  destruct (JsMap.get _ _) as [e0|]; [destruct (Cache.isExpired _ e0)|];
    simpl; auto.
  apply delete_In.
Qed.

(** a read that fails, sent by the administrator *)
Lemma failed_query_is_not_cached_witness :
  Cache.cache (Server.queryCache
     (snd (Server.callTool (Server.mysql_query "k3x9f" "SELECT * FROM nosuch" None)
             (Sample.inputs (Client.DbFail "no such table")) Sample.signedIn)))
  = nil.
Proof.
  destruct (Cache.cache _) as [|[k e] l] eqn:E; [reflexivity|].
  exfalso.
  apply (failed_query_is_not_cached Sample.signedIn "k3x9f"
           "SELECT * FROM nosuch" None
           (Sample.inputs (Client.DbFail "no such table")) "no such table"
           eq_refl k e).
  rewrite E. now left.
Defined.

(** a tool call changes the cache, or, for [mysql_auth], the sessions,
    and nothing else *)
Lemma callTool_changes (st : Server.State) (req : Server.Request)
    (io : Server.Inputs) :
  let st' := snd (Server.callTool req io st) in
  (exists qc, st' = Server.setCache qc st)
  \/ (exists username password,
         req = Server.mysql_auth username password
         /\ st' = Server.setAuth
                    (snd (Auth.authenticate username password
                            (Server.rnd io) (Server.authManager st)))
                    st).
Proof.
  intros st'. subst st'.
  unfold Server.callTool, Server.bind, Server.gets, Server.tryCatch,
    Server.throw.
  destruct (Server.mysqlClient st) as [c|];
    [|left; exists (Server.queryCache st); now rewrite setCache_same].
  destruct req; simpl;
    try (right; do 2 eexists; split; [reflexivity|];
         destruct (Auth.authenticate _ _ _ _) as [[sid|] am];
         [destruct (negb (Str.truthy sid))|]; reflexivity);
    left; unfold Server.bind;
    try match goal with
        | |- context [Server.authenticateAndAuthorize ?s ?o ?q st] =>
            pose proof (authorize_state s o q st) as Ha;
            destruct (Server.authenticateAndAuthorize s o q st)
              as [[[]|e] st1];
            simpl in Ha; subst st1;
            [|exists (Server.queryCache st); now rewrite setCache_same]
        end;
    unfold Server.clientQuery, Server.clientExecute, Server.liftResult,
      Server.cacheInvalidateTable, Server.modify, Server.ret, Server.throw,
      Server.cacheGet, Server.cacheSet;
    try (destruct (Client.query c (Server.db io));
         eexists; simpl; solve [reflexivity | now rewrite setCache_same]);
    try (destruct (Client.execute c (Server.db io));
         eexists; simpl; solve [reflexivity | symmetry; apply setCache_same]);
    try (exists (Server.queryCache st); now rewrite setCache_same).
  unfold Server.modify.
  destruct (Cache.shouldCache query).
  - destruct (Cache.get (Server.tGet io) query params (Server.queryCache st))
      as [[r|] qc0]; [eexists; reflexivity|].
    destruct (Client.query c (Server.db io)); eexists; reflexivity.
  - destruct (Client.query c (Server.db io));
      exists (Server.queryCache st); now rewrite setCache_same.
Qed.

(** X20.  A tool call never opens or closes a connection, never changes
    the configuration or the registry, and never removes a session; only
    [mysql_auth] changes the sessions at all. *)
Theorem tool_call_frame (st : Server.State) (req : Server.Request)
    (io : Server.Inputs) :
  let st' := snd (Server.callTool req io st) in
  Server.mysqlClient st' = Server.mysqlClient st
  /\ Server.driver st' = Server.driver st
  /\ Server.configWatcher st' = Server.configWatcher st
  /\ Auth.users (Server.authManager st') = Auth.users (Server.authManager st)
  /\ (forall t, is_Some (Auth.sessions (Server.authManager st) !! t) ->
                is_Some (Auth.sessions (Server.authManager st') !! t))
  /\ ((forall username password, req <> Server.mysql_auth username password) ->
      Server.authManager st' = Server.authManager st).
Proof.
  intros st'.
  pose proof (callTool_changes st req io) as H. cbv zeta in H. fold st' in H.
  destruct H as [[qc ->]|(u & p & -> & ->)]; simpl.
  - repeat split; auto.
  - unfold Auth.authenticate.
    destruct (Auth.users (Server.authManager st) !! u) as [[n pw r]|];
      [destruct (negb (String.eqb pw p))|]; simpl; repeat split; auto;
      try (intros H; exfalso; eapply H; reflexivity).
    intros t Ht. rewrite lookup_insert. case_decide; eauto.
Qed.

(** the session of the administrator is still there after another user
    has signed in *)
Lemma tool_call_frame_witness :
  is_Some (Auth.sessions
             (Server.authManager
                (snd (Server.callTool (Server.mysql_auth "readonly" "ro123")
                        (Sample.inputs Sample.noRows) Sample.signedIn)))
           !! "rw4m8").
Proof.
  destruct (tool_call_frame Sample.signedIn
              (Server.mysql_auth "readonly" "ro123")
              (Sample.inputs Sample.noRows)) as (_ & _ & _ & _ & Hkeep & _).
  apply Hkeep. vm_compute. eauto.
Defined.

(** ** The connection *)

(** X21.  The services start exactly when the configuration has a user,
    a password and a numeric port and the database accepts the
    connection.  A started server has one open connection, the one of its
    client, an empty cache and no session; a server that fails to start
    has no open connection, and did not try to connect unless its
    configuration was acceptable. *)
Theorem initializeServices_outcome (env : gmap string string)
    (config : Server.Config) (ok : bool) :
  let r := Server.initializeServices env config ok in
  let cc := Server.connectionConfigOf config in
  (fst r = Server.Returned tt <-> Spec.acceptable config = true /\ ok = true)
  /\ (fst r = Server.Returned tt ->
      Server.mysqlClient (snd r) = Some (Client.mkClient (Some 0%nat) cc)
      /\ Client.live (Server.driver (snd r)) = {[ 0%nat ]}
      /\ Client.trace (Server.driver (snd r)) = [Client.Opened 0 cc]
      /\ Cache.cache (Server.queryCache (snd r)) = nil
      /\ Auth.sessions (Server.authManager (snd r)) = ∅)
  /\ (fst r <> Server.Returned tt ->
      Client.live (Server.driver (snd r)) = ∅
      /\ Client.trace (Server.driver (snd r))
         = (if Spec.acceptable config then [Client.Refused cc] else nil)).
Proof.
  intros r cc. subst r cc.
  unfold Server.initializeServices, Server.initializeMySQLClient, Server.bind,
    Server.gets, Server.modify, Server.throw, Spec.acceptable,
    Server.clientConnect, Client.new, Client.connect.
  simpl.
  destruct (Str.truthy (Server.MYSQL_USER config));
    destruct (Str.truthy (Server.MYSQL_PASSWORD config)); simpl;
    try (split; [split; [discriminate | intros [? ?]; discriminate]
                |split; [discriminate | auto]]).
  destruct (Server.MYSQL_PORT config); simpl;
    try (split; [split; [discriminate | intros [? ?]; discriminate]
                |split; [discriminate | auto]]);
    (destruct ok; simpl;
     [ split; [split; auto|]; split; [|congruence]; intros _; repeat split
     | split; [split; [discriminate | intros [? ?]; discriminate]|];
       split; [discriminate | auto] ]).
Qed.

(** a configuration without a password *)
Lemma initializeServices_outcome_witness :
  let config := Server.mkEnv "localhost" (Num.Int 3306) "root" "" None in
  fst (Server.initializeServices ∅ config true) <> Server.Returned tt
  /\ Client.trace (Server.driver (snd (Server.initializeServices ∅ config true)))
     = nil.
Proof.
  intros config.
  destruct (initializeServices_outcome ∅ config true) as (Hiff & _ & Hfail).
  assert (Hno : fst (Server.initializeServices ∅ config true)
                <> Server.Returned tt).
  { intros H. apply Hiff in H as [H _]. discriminate H. }
  split; [exact Hno|]. now destruct (Hfail Hno) as [_ ->].
Defined.

(** X23.  When the old connection cannot be closed, the listener gives
    up: apart from the new configuration being recorded, nothing
    changes.  The client keeps its connection, no connection is attempted
    and the cache is not cleared. *)
Theorem config_change_close_fails (st : Server.State)
    (c : Client.MySQLClient) (h : nat) (newConfig : Server.Config)
    (io : Server.Link) :
  Server.mysqlClient st = Some c ->
  Client.connection c = Some h ->
  Server.endOk io = false ->
  Server.configChanged newConfig io st = Server.setConfig newConfig st.
Proof.
  intros Hc Hh Hend.
  unfold Server.configChanged, Server.onChange, Server.tryCatch, Server.bind,
    Server.gets, Server.clientDisconnect, Client.disconnect, Server.ret.
  simpl. rewrite Hc, Hh, Hend. simpl.
  destruct st, c. simpl in *. now subst.
Qed.

Lemma config_change_close_fails_witness :
  let st' := Server.configChanged Sample.configB (Server.mkLink false true)
               Sample.cachedRead in
  Server.mysqlClient st' = Some Sample.client
  /\ Server.queryCache st' = Server.queryCache Sample.cachedRead
  /\ Server.driver st' = Server.driver Sample.cachedRead.
Proof.
  intros st'. subst st'.
  rewrite (config_change_close_fails Sample.cachedRead Sample.client 0%nat);
    try reflexivity.
  repeat split; vm_compute; reflexivity.
Defined.

Lemma oneConnection_call (st : Server.State) (req : Server.Request)
    (io : Server.Inputs) :
  Gate.oneConnection st -> Gate.oneConnection (snd (Server.callTool req io st)).
Proof.
  pose proof (callTool_changes st req io) as H. cbv zeta in H.
  destruct H as [[qc ->]|(u & p & _ & ->)]; exact (fun H => H).
Qed.

Lemma singleton_without (h : nat) : ({[ h ]} : gset nat) ∖ {[ h ]} = ∅.
Proof. apply difference_diag_L. Qed.

Lemma oneConnection_change (st : Server.State) (newConfig : Server.Config)
    (io : Server.Link) :
  Gate.oneConnection st ->
  Gate.oneConnection (Server.configChanged newConfig io st).
Proof.
  unfold Gate.oneConnection.
  unfold Server.configChanged, Server.onChange, Server.tryCatch, Server.bind,
    Server.gets, Server.initializeMySQLClient, Server.bind, Server.gets,
    Server.modify, Server.throw, Server.ret,
    Server.clientDisconnect, Server.clientConnect, Client.disconnect,
    Client.new, Client.connect.
  destruct st as [[[[h|] ccfg]|] am qc cfg d]; simpl.
  - intros [Hlive Hfresh]. destruct (Server.endOk io); simpl; [|auto].
    rewrite Hlive, singleton_without.
    destruct (Str.truthy (Server.MYSQL_USER newConfig));
      destruct (Str.truthy (Server.MYSQL_PASSWORD newConfig)); simpl; auto.
    destruct (Server.MYSQL_PORT newConfig); simpl; auto;
      (destruct (Server.connectOk io); simpl; auto;
       split; [apply (right_id_L ∅ (∪)) | lia]).
  - intros Hlive.
    destruct (Str.truthy (Server.MYSQL_USER newConfig));
      destruct (Str.truthy (Server.MYSQL_PASSWORD newConfig)); simpl; auto.
    destruct (Server.MYSQL_PORT newConfig); simpl; auto;
      (destruct (Server.connectOk io); simpl; auto;
       rewrite Hlive; split; [apply (right_id_L ∅ (∪)) | lia]).
  - intros Hlive.
    destruct (Str.truthy (Server.MYSQL_USER newConfig));
      destruct (Str.truthy (Server.MYSQL_PASSWORD newConfig)); simpl; auto.
    destruct (Server.MYSQL_PORT newConfig); simpl; auto;
      (destruct (Server.connectOk io); simpl; auto;
       rewrite Hlive; split; [apply (right_id_L ∅ (∪)) | lia]).
Qed.

(** *** The listener, await by await *)

Lemma view_idle st : Async.view (Async.idle st) = st.
Proof. destruct st as [[c|] am qc cfg d]; reflexivity. Qed.

Lemma lookup_last {T} (l : list T) (x : T) :
  (l ++ [x])%list !! List.length l = Some x.
Proof. now apply list_lookup_middle. Qed.

Lemma insert_last {T} (l : list T) (x y : T) :
  <[List.length l := y]> (l ++ [x])%list = (l ++ [y])%list.
Proof.
  rewrite insert_app_r_alt by lia. now rewrite Nat.sub_diag.
Qed.

(** the state after a configuration change when there is no connection
    to close *)
Lemma configChanged_unconnected (st : Server.State) (newConfig : Server.Config)
    (io : Server.Link) :
  match Server.mysqlClient st with
  | Some c => Client.connection c = None
  | None => True
  end ->
  let d := Server.driver st in
  let cc := Server.connectionConfigOf newConfig in
  Server.configChanged newConfig io st =
    if negb (Spec.acceptable newConfig)
    then Server.setConfig newConfig st
    else if Server.connectOk io
    then Server.mkState (Some (Client.mkClient (Some (Client.fresh d)) cc))
           (Server.authManager st)
           (Cache.withCache (Server.queryCache st) nil) newConfig
           (Client.mkDriver ({[ Client.fresh d ]} ∪ Client.live d)
              (S (Client.fresh d))
              (Client.trace d ++ [Client.Opened (Client.fresh d) cc])%list)
    else Server.mkState (Some (Client.mkClient None cc))
           (Server.authManager st) (Server.queryCache st) newConfig
           (Client.mkDriver (Client.live d) (Client.fresh d)
              (Client.trace d ++ [Client.Refused cc])%list).
Proof.
  intros Hc d cc. subst d cc.
  unfold Server.configChanged, Server.onChange, Server.tryCatch, Server.bind,
    Server.gets, Server.initializeMySQLClient, Server.bind, Server.gets,
    Server.modify, Server.throw, Server.ret, Spec.acceptable,
    Server.clientDisconnect, Server.clientConnect, Client.disconnect.
  destruct st as [[[conn ccfg]|] am qc cfg d]; simpl in *; [subst conn|];
    unfold Client.new, Client.connect; simpl;
    destruct (Str.truthy (Server.MYSQL_USER newConfig));
    destruct (Str.truthy (Server.MYSQL_PASSWORD newConfig)); simpl;
    try reflexivity;
    destruct (Server.MYSQL_PORT newConfig); simpl; try reflexivity;
    destruct (Server.connectOk io); reflexivity.
Qed.

(** the state after a configuration change when the old connection
    cannot be closed *)
Lemma configChanged_end_rejected (st : Server.State) (c : Client.MySQLClient)
    (h : nat) (newConfig : Server.Config) (io : Server.Link) :
  Server.mysqlClient st = Some c ->
  Client.connection c = Some h ->
  Server.endOk io = false ->
  Server.configChanged newConfig io st = Server.setConfig newConfig st.
Proof.
  intros Hc Hh Hend.
  unfold Server.configChanged, Server.onChange, Server.tryCatch, Server.bind,
    Server.gets, Server.clientDisconnect, Client.disconnect, Server.ret.
  simpl. rewrite Hc, Hh, Hend. simpl.
  destruct st, c. simpl in *. now subst.
Qed.

Lemma startInit_acceptable (a : Async.State) :
  Async.startInit a =
    if Spec.acceptable (Async.configWatcher a)
    then (Async.mkState
            (Async.heap a
             ++ [Client.mkClient None
                   (Server.connectionConfigOf (Async.configWatcher a))])
            (Some (List.length (Async.heap a))) (Async.authManager a)
            (Async.queryCache a) (Async.configWatcher a) (Async.driver a)
            (Async.runs a),
          Async.AwaitCreate (List.length (Async.heap a)))
    else (a, Async.Finished).
Proof.
  unfold Async.startInit, Spec.acceptable, Client.new. simpl.
  destruct (Str.truthy (Server.MYSQL_USER (Async.configWatcher a)));
    destruct (Str.truthy (Server.MYSQL_PASSWORD (Async.configWatcher a)));
    simpl; try reflexivity.
  destruct (Server.MYSQL_PORT (Async.configWatcher a)); reflexivity.
Qed.

Ltac fields :=
  cbn [Async.heap Async.mysqlClient Async.authManager Async.queryCache
       Async.configWatcher Async.driver Async.runs Client.config
       Client.fresh Client.live Client.trace Client.connection
       Server.driver Server.authManager Server.queryCache Server.mysqlClient
       Server.configWatcher mbind option_bind negb].

(** an event for a run of the listener that is not suspended there is
    not an event of the run *)
Lemma step_EndSettled_other (a : Async.State) (t : nat) (ok : bool) :
  match Async.runs a !! t with
  | Some (Async.AwaitEnd _ _) => False
  | _ => True
  end ->
  Async.step a (Async.EndSettled t ok) = a.
Proof.
  unfold Async.step. destruct (Async.runs a !! t) as [[| |]|]; tauto.
Qed.

Lemma step_CreateSettled_other (a : Async.State) (t : nat) (ok : bool) :
  match Async.runs a !! t with
  | Some (Async.AwaitCreate _) => False
  | _ => True
  end ->
  Async.step a (Async.CreateSettled t ok) = a.
Proof.
  unfold Async.step. destruct (Async.runs a !! t) as [[| |]|]; tauto.
Qed.

(** the new connection is accepted or refused *)
Lemma step_CreateSettled (hp : list Client.MySQLClient) (mc : option nat)
    (am : Auth.AuthManager) (qc : Cache.QueryCache Client.Rows)
    (cfg : Server.Config) (d : Client.Driver) (ts : list Async.Progress)
    (c : Client.MySQLClient) (ok : bool) :
  Async.step
    (Async.mkState (hp ++ [c]) mc am qc cfg d
                   (ts ++ [Async.AwaitCreate (List.length hp)]))
    (Async.CreateSettled (List.length ts) ok)
  = if ok
    then Async.mkState
           (hp ++ [Client.mkClient (Some (Client.fresh d)) (Client.config c)])
           mc am (Cache.invalidate None qc) cfg
           (Client.mkDriver ({[ Client.fresh d ]} ∪ Client.live d)
              (S (Client.fresh d))
              (Client.trace d ++ [Client.Opened (Client.fresh d) (Client.config c)]))
           (ts ++ [Async.Finished])
    else Async.mkState (hp ++ [c]) mc am qc cfg
           (Client.mkDriver (Client.live d) (Client.fresh d)
              (Client.trace d ++ [Client.Refused (Client.config c)]))
           (ts ++ [Async.Finished]).
Proof.
  unfold Async.step. fields. rewrite !lookup_last. fields.
  rewrite !insert_last. reflexivity.
Qed.

(** the listener from [initializeMySQLClient] on, when nothing else
    happens before it ends *)
Lemma alone_from_init (hp : list Client.MySQLClient) (mc : option nat)
    (am : Auth.AuthManager) (qc : Cache.QueryCache Client.Rows)
    (cfg : Server.Config) (d : Client.Driver) (ts : list Async.Progress)
    (ok : bool) :
  let a := Async.mkState hp mc am qc cfg d ts in
  let cc := Server.connectionConfigOf cfg in
  let r :=
    Async.step (let '(a', progress) := Async.startInit a in
                Async.setRuns (ts ++ [progress]) a')
               (Async.CreateSettled (List.length ts) ok) in
  Async.view r =
    (if negb (Spec.acceptable cfg)
     then Async.view a
     else if ok
     then Server.mkState (Some (Client.mkClient (Some (Client.fresh d)) cc))
            am (Cache.withCache qc nil) cfg
            (Client.mkDriver ({[ Client.fresh d ]} ∪ Client.live d)
               (S (Client.fresh d))
               (Client.trace d ++ [Client.Opened (Client.fresh d) cc])%list)
     else Server.mkState (Some (Client.mkClient None cc)) am qc cfg
            (Client.mkDriver (Client.live d) (Client.fresh d)
               (Client.trace d ++ [Client.Refused cc])%list))
  /\ (Async.wellFormed a -> Async.wellFormed r)
  /\ match Async.runs (let '(a', progress) := Async.startInit a in
                        Async.setRuns (ts ++ [progress]) a') !! List.length ts with
     | Some (Async.AwaitEnd _ _) => False
     | _ => True
     end.
Proof.
  intros a cc r. subst a cc r. rewrite startInit_acceptable. fields.
  destruct (Spec.acceptable cfg); fields; unfold Async.setRuns; fields.
  - rewrite step_CreateSettled, lookup_last.
    destruct ok; unfold Async.view, Async.wellFormed; fields;
      rewrite lookup_last, length_app; (split; [reflexivity|]);
      (split; [simpl; lia | exact I]).
  - rewrite step_CreateSettled_other by (fields; now rewrite lookup_last).
    rewrite lookup_last. repeat split; auto.
Qed.

(** a change handled alone is the change of the sequential model *)
Lemma alone_configChanged (a : Async.State) (newConfig : Server.Config)
    (io : Server.Link) :
  Async.wellFormed a ->
  Async.view (Async.alone newConfig io a)
  = Server.configChanged newConfig io (Async.view a)
  /\ Async.wellFormed (Async.alone newConfig io a).
Proof.
  intros Hwf.
  destruct a as [hp mc am qc cfg d ts]. unfold Async.alone, Async.run.
  cbn [fold_left Async.runs].
  assert (Hfree :
    match mc ≫= (fun this => hp !! this) with
    | Some c => Client.connection c = None
    | None => True
    end ->
    Async.view
      (Async.step
         (Async.step
            (Async.step (Async.mkState hp mc am qc cfg d ts)
                        (Async.Change newConfig))
            (Async.EndSettled (List.length ts) (Server.endOk io)))
         (Async.CreateSettled (List.length ts) (Server.connectOk io)))
    = Server.configChanged newConfig io
        (Async.view (Async.mkState hp mc am qc cfg d ts))
    /\ Async.wellFormed
         (Async.step
            (Async.step
               (Async.step (Async.mkState hp mc am qc cfg d ts)
                           (Async.Change newConfig))
               (Async.EndSettled (List.length ts) (Server.endOk io)))
            (Async.CreateSettled (List.length ts) (Server.connectOk io)))).
  { intros Hnone.
    rewrite (configChanged_unconnected
               (Async.view (Async.mkState hp mc am qc cfg d ts)) newConfig io
               Hnone).
    cbv zeta.
    assert (Hstep1 :
      Async.step (Async.mkState hp mc am qc cfg d ts) (Async.Change newConfig)
      = let '(a', progress) :=
          Async.startInit (Async.mkState hp mc am qc newConfig d ts) in
        Async.setRuns (ts ++ [progress]) a').
    { unfold Async.step, Async.called. fields.
      destruct mc as [this|]; [|reflexivity]. simpl in Hnone.
      destruct (hp !! this) as [c|]; [|reflexivity]. now rewrite Hnone. }
    rewrite Hstep1. clear Hstep1.
    destruct (alone_from_init hp mc am qc newConfig d ts (Server.connectOk io))
      as (Hv & Hw & Ht).
    rewrite step_EndSettled_other by exact Ht.
    split; [exact Hv | exact (Hw Hwf)]. }
  unfold Async.wellFormed in Hwf. simpl in Hwf.
  destruct mc as [this|]; [|now apply Hfree].
  destruct (lookup_lt_is_Some_2 hp this Hwf) as [c Hc].
  destruct (Client.connection c) as [h|] eqn:Hh;
    [|apply Hfree; simpl; now rewrite Hc].
  clear Hfree.
  (* the old connection is closed first *)
  assert (Hstep1 :
    Async.step (Async.mkState hp (Some this) am qc cfg d ts)
               (Async.Change newConfig)
    = Async.mkState hp (Some this) am qc newConfig d
        (ts ++ [Async.AwaitEnd this h])).
  { unfold Async.step, Async.called. fields. rewrite Hc, Hh. reflexivity. }
  rewrite Hstep1. clear Hstep1.
  assert (Hview : Server.mysqlClient
                    (Async.view (Async.mkState hp (Some this) am qc cfg d ts))
                  = Some c) by exact Hc.
  destruct (Server.endOk io) eqn:Hend.
  - rewrite (configChanged_connected _ c h newConfig io Hview Hh Hend).
    cbv zeta.
    assert (Hstep2 :
      Async.step (Async.mkState hp (Some this) am qc newConfig d
                                (ts ++ [Async.AwaitEnd this h]))
                 (Async.EndSettled (List.length ts) true)
      = let '(a', progress) :=
          Async.startInit
            (Async.mkState
               (alter (fun c0 => Client.mkClient None (Client.config c0)) this hp)
               (Some this) am qc newConfig
               (Client.mkDriver (Client.live d ∖ {[ h ]}) (Client.fresh d)
                                (Client.trace d ++ [Client.Closed h]))
               ts) in
        Async.setRuns (ts ++ [progress]) a').
    { unfold Async.step. fields. rewrite lookup_last.
      rewrite !startInit_acceptable. fields.
      destruct (Spec.acceptable newConfig); unfold Async.setRuns; fields;
        now rewrite insert_last. }
    rewrite Hstep2. clear Hstep2.
    destruct (alone_from_init
                (alter (fun c0 => Client.mkClient None (Client.config c0)) this hp)
                (Some this) am qc newConfig
                (Client.mkDriver (Client.live d ∖ {[ h ]}) (Client.fresh d)
                                 (Client.trace d ++ [Client.Closed h]))
                ts (Server.connectOk io))
      as (Hv & Hw & _).
    split.
    + rewrite Hv. unfold Async.view. fields.
      rewrite list_lookup_alter, Hc.
      destruct (decide (this = this)); [reflexivity | congruence].
    + apply Hw. unfold Async.wellFormed. fields. now rewrite length_alter.
  - rewrite (configChanged_end_rejected _ c h newConfig io Hview Hh Hend).
    assert (Hstep2 :
      Async.step (Async.mkState hp (Some this) am qc newConfig d
                                (ts ++ [Async.AwaitEnd this h]))
                 (Async.EndSettled (List.length ts) false)
      = Async.mkState hp (Some this) am qc newConfig d
                      (ts ++ [Async.Finished])).
    { unfold Async.step. fields. rewrite lookup_last.
      unfold Async.setRuns. fields. now rewrite insert_last. }
    rewrite Hstep2. clear Hstep2.
    rewrite step_CreateSettled_other by (fields; now rewrite lookup_last).
    split; [|exact Hwf]. unfold Async.view. fields. reflexivity.
Qed.

(** a second change that arrives while the first awaits its connection:
    both connections are opened, the variable [mysqlClient] refers to the
    second, and nothing refers to the first *)
Lemma overlap_opens_two (st : Server.State) (c : Client.MySQLClient) (h : nat)
    (configB configC : Server.Config) :
  Server.mysqlClient st = Some c ->
  Client.connection c = Some h ->
  Spec.acceptable configB = true ->
  Spec.acceptable configC = true ->
  let d := Server.driver st in
  let ccB := Server.connectionConfigOf configB in
  let ccC := Server.connectionConfigOf configC in
  Async.run [Async.Change configB; Async.EndSettled 0 true;
             Async.Change configC;
             Async.CreateSettled 0 true; Async.CreateSettled 1 true]
            (Async.idle st)
  = Async.mkState
      [ Client.mkClient None (Client.config c);
        Client.mkClient (Some (Client.fresh d)) ccB;
        Client.mkClient (Some (S (Client.fresh d))) ccC ]
      (Some 2%nat) (Server.authManager st)
      (Cache.invalidate None (Cache.invalidate None (Server.queryCache st)))
      configC
      (Client.mkDriver
         ({[ S (Client.fresh d) ]} ∪ ({[ Client.fresh d ]} ∪ Client.live d ∖ {[ h ]}))
         (S (S (Client.fresh d)))
         (((Client.trace d ++ [Client.Closed h])
           ++ [Client.Opened (Client.fresh d) ccB])
          ++ [Client.Opened (S (Client.fresh d)) ccC]))
      [Async.Finished; Async.Finished].
Proof.
  intros Hc Hh HB HC d ccB ccC. subst d ccB ccC.
  destruct st as [mc am qc cfg d]. simpl in Hc. subst mc.
  destruct c as [conn ccfg]. simpl in Hh. subst conn.
  unfold Async.run, Async.idle. cbn [fold_left Server.mysqlClient
    Server.authManager Server.queryCache Server.configWatcher Server.driver
    Client.config].
  assert (H1 :
    Async.step (Async.mkState [Client.mkClient (Some h) ccfg] (Some 0%nat)
                              am qc cfg d [])
               (Async.Change configB)
    = Async.mkState [Client.mkClient (Some h) ccfg] (Some 0%nat) am qc configB d
                    [Async.AwaitEnd 0 h]) by reflexivity.
  rewrite H1. clear H1.
  assert (H2 :
    Async.step (Async.mkState [Client.mkClient (Some h) ccfg] (Some 0%nat)
                              am qc configB d [Async.AwaitEnd 0 h])
               (Async.EndSettled 0 true)
    = Async.mkState
        [Client.mkClient None ccfg;
         Client.mkClient None (Server.connectionConfigOf configB)]
        (Some 1%nat) am qc configB
        (Client.mkDriver (Client.live d ∖ {[ h ]}) (Client.fresh d)
                         (Client.trace d ++ [Client.Closed h]))
        [Async.AwaitCreate 1]).
  { unfold Async.step. cbn [Async.runs lookup list_lookup].
    rewrite startInit_acceptable. fields. rewrite HB. reflexivity. }
  rewrite H2. clear H2.
  assert (H3 :
    Async.step
      (Async.mkState
         [Client.mkClient None ccfg;
          Client.mkClient None (Server.connectionConfigOf configB)]
         (Some 1%nat) am qc configB
         (Client.mkDriver (Client.live d ∖ {[ h ]}) (Client.fresh d)
                          (Client.trace d ++ [Client.Closed h]))
         [Async.AwaitCreate 1])
      (Async.Change configC)
    = Async.mkState
        [Client.mkClient None ccfg;
         Client.mkClient None (Server.connectionConfigOf configB);
         Client.mkClient None (Server.connectionConfigOf configC)]
        (Some 2%nat) am qc configC
        (Client.mkDriver (Client.live d ∖ {[ h ]}) (Client.fresh d)
                         (Client.trace d ++ [Client.Closed h]))
        [Async.AwaitCreate 1; Async.AwaitCreate 2]).
  { unfold Async.step, Async.called.
    cbn [Async.mysqlClient Async.heap lookup list_lookup Client.connection].
    rewrite startInit_acceptable. fields. rewrite HC. reflexivity. }
  rewrite H3. clear H3.
  reflexivity.
Qed.

(** X22.  In a run in which the events are handled one after the other,
    each change of configuration to its end before the next event,
    however the start goes and whatever the driver answers, the open
    connections are exactly the connection of the client, if it has one;
    and a change that is handled alone by the asynchronous listener is
    such a step.  The code does not order the events itself: the listener
    is asynchronous and nothing awaits it.  When a second change arrives
    while the first awaits its connection, both connections are opened:
    two connections are open, [mysqlClient] refers to the second, and
    nothing refers to the first. *)
Theorem one_connection_unless_overlap :
  (forall env config ok steps,
      Gate.oneConnection
        (Gate.run steps (snd (Server.initializeServices env config ok))))
  /\ (forall a newConfig io,
         Async.wellFormed a ->
         Async.view (Async.alone newConfig io a)
         = Gate.step (Async.view a) (Gate.ConfigChange newConfig io)
         /\ Async.wellFormed (Async.alone newConfig io a))
  /\ (forall st c h configB configC,
         Gate.oneConnection st ->
         Server.mysqlClient st = Some c ->
         Client.connection c = Some h ->
         Spec.acceptable configB = true ->
         Spec.acceptable configC = true ->
         let d := Server.driver st in
         let a := Async.run [Async.Change configB; Async.EndSettled 0 true;
                             Async.Change configC;
                             Async.CreateSettled 0 true;
                             Async.CreateSettled 1 true]
                            (Async.idle st) in
         Client.live (Async.driver a)
         = {[ S (Client.fresh d) ]} ∪ ({[ Client.fresh d ]} ∪ ∅)
         /\ Server.mysqlClient (Async.view a)
            = Some (Client.mkClient (Some (S (Client.fresh d)))
                                    (Server.connectionConfigOf configC))
         /\ ~ Gate.oneConnection (Async.view a)).
Proof.
  split; [|split].
  - intros env config ok steps.
    assert (H0 : Gate.oneConnection
                   (snd (Server.initializeServices env config ok))).
    { unfold Gate.oneConnection, Server.initializeServices,
        Server.initializeMySQLClient, Server.bind, Server.gets, Server.modify,
        Server.throw, Server.clientConnect, Client.new, Client.connect.
      simpl.
      destruct (Str.truthy (Server.MYSQL_USER config));
        destruct (Str.truthy (Server.MYSQL_PASSWORD config)); simpl; auto.
      destruct (Server.MYSQL_PORT config); simpl; auto;
        destruct ok; simpl; auto. }
    revert H0. generalize (snd (Server.initializeServices env config ok)) as st.
    unfold Gate.run.
    induction steps as [|s steps IH]; intros st Hst; simpl; [exact Hst|].
    apply IH. destruct s as [newConfig io|req io]; simpl.
    + now apply oneConnection_change.
    + now apply oneConnection_call.
  - intros a newConfig io Hwf. now apply alone_configChanged.
  - intros st c h configB configC Hone Hc Hh HB HC d a.
    assert (Hlive : Client.live d = {[ h ]}).
    { unfold Gate.oneConnection in Hone. rewrite Hc, Hh in Hone. tauto. }
    subst a. rewrite (overlap_opens_two st c h configB configC Hc Hh HB HC).
    cbv zeta. fold d. unfold Async.view. fields.
    rewrite Hlive, singleton_without.
    split; [reflexivity | split; [reflexivity|]].
    unfold Gate.oneConnection. fields. intros [Heq _].
    assert (Hin : Client.fresh d
                  ∈ ({[ S (Client.fresh d) ]} ∪ ({[ Client.fresh d ]} ∪ ∅)
                     : gset nat)).
    { apply elem_of_union_r, elem_of_union_l, elem_of_singleton. reflexivity. }
    rewrite Heq in Hin. apply elem_of_singleton in Hin. lia.
Qed.

(** the started server: the file is changed twice, and the second change
    arrives while the connection for the first is being opened *)
Lemma one_connection_unless_overlap_witness :
  let a := Async.run [Async.Change Sample.configB; Async.EndSettled 0 true;
                      Async.Change Sample.configA;
                      Async.CreateSettled 0 true; Async.CreateSettled 1 true]
                     (Async.idle Sample.started) in
  Client.live (Async.driver a) = {[ 2%nat ]} ∪ ({[ 1%nat ]} ∪ ∅)
  /\ ~ Gate.oneConnection (Async.view a).
Proof.
  destruct one_connection_unless_overlap as (_ & _ & H).
  destruct (H Sample.started Sample.client 0%nat Sample.configB Sample.configA)
    as (Hlive & _ & Hnot);
    [ split; [reflexivity | simpl; lia] | reflexivity.. | ].
  split; [exact Hlive | exact Hnot].
Defined.

(** X24.  [mysql_auth] reports success exactly when the credentials are
    right and the session id drawn is not empty.  With an empty draw the
    call is answered like a wrong password, although the session was
    recorded and the empty id resolves to the user from then on. *)
Theorem mysql_auth_outcome (st : Server.State) (c : Client.MySQLClient)
    (username password : string) (user : Auth.User) (io : Server.Inputs) :
  Server.mysqlClient st = Some c ->
  Auth.users (Server.authManager st) !! username = Some user ->
  Auth.password user = password ->
  let r := Server.callTool (Server.mysql_auth username password) io st in
  fst r = (if Str.truthy (Server.rnd io)
           then Server.Returned (Server.AuthSuccessful (Server.rnd io))
           else Server.Threw
                  (Client.ToolExecutionFailed
                     (Client.McpError Server.InvalidRequest
                        "Invalid username or password")))
  /\ Auth.sessions (Server.authManager (snd r)) !! Server.rnd io = Some username.
Proof.
  intros Hc Hu Hpw r. subst r.
  unfold Server.callTool, Server.bind, Server.gets, Server.tryCatch,
    Server.throw, Server.handle, Auth.authenticate. rewrite Hc, Hu.
  destruct user as [n pw role]. simpl in Hpw. subst pw.
  rewrite String.eqb_refl. simpl.
  destruct (Str.truthy (Server.rnd io)); simpl;
    (split; [reflexivity | apply lookup_insert_eq]).
Qed.

(** the administrator signs in and the draw is empty *)
Lemma mysql_auth_outcome_witness :
  let r := Server.callTool (Server.mysql_auth "admin" "admin123")
             (Server.mkInputs "" 1000 1000 1000 Sample.noRows) Sample.started in
  fst r = Server.Threw
            (Client.ToolExecutionFailed
               (Client.McpError Server.InvalidRequest
                  "Invalid username or password"))
  /\ Auth.getUserFromSession "" (Server.authManager (snd r))
     = Some (Auth.mkUser "admin" "admin123" Auth.ADMIN).
Proof.
  intros r.
  destruct (mysql_auth_outcome Sample.started Sample.client "admin" "admin123"
              (Auth.mkUser "admin" "admin123" Auth.ADMIN)
              (Server.mkInputs "" 1000 1000 1000 Sample.noRows))
    as [Hfst _]; try (vm_compute; reflexivity).
  split; [exact Hfst | vm_compute; reflexivity].
Defined.

(** ** The statements of the helpers *)

Lemma placeholders_length (values values' : list Json.JsParam) :
  List.length values = List.length values' ->
  Statements.placeholders values = Statements.placeholders values'.
Proof.
  unfold Statements.placeholders. intros Hlen. f_equal.
  revert values' Hlen.
  induction values as [|v values IH]; intros [|v' values'] Hlen;
    simpl in *; try discriminate; [reflexivity|].
  f_equal. apply IH. lia.
Qed.

(** X25.  The values of a record never enter the text of a statement:
    the text of an insert, an update or a delete is decided by the table,
    the database and the keys, and the values are bound in the order of
    the keys, those of the data before those of the condition. *)
Theorem statements_ignore_values (tableName : string)
    (database : option string) (data data' where_ where' : Server.Record_) :
  map fst data = map fst data' ->
  map fst where_ = map fst where' ->
  Statements.insertDataSql tableName data database
  = Statements.insertDataSql tableName data' database
  /\ Statements.updateDataSql tableName data where_ database
     = Statements.updateDataSql tableName data' where' database
  /\ Statements.deleteDataSql tableName where_ database
     = Statements.deleteDataSql tableName where' database
  /\ Statements.updateDataValues data where_
     = (map snd data ++ map snd where_)%list.
Proof.
  intros Hdata Hwhere.
  unfold Statements.insertDataSql, Statements.updateDataSql,
    Statements.deleteDataSql. cbv zeta.
  rewrite Hdata, Hwhere.
  rewrite (placeholders_length (map snd data) (map snd data')).
  - repeat split.
  - rewrite !length_map. rewrite <- (length_map fst data), Hdata.
    now rewrite length_map.
Qed.

(** two rows with the same columns, one of them with a value made to
    look like a statement *)
Lemma statements_ignore_values_witness :
  Statements.insertDataSql "t" [("name", Json.PStr "x'); DROP TABLE t; --")] None
  = "INSERT INTO `t` (`name`) VALUES (?)".
Proof.
  destruct (statements_ignore_values "t" None
              [("name", Json.PStr "x'); DROP TABLE t; --")]
              [("name", Json.PNull)] nil nil eq_refl eq_refl) as [-> _].
  reflexivity.
Defined.

Lemma count_append c a b :
  Statements.count c (a +:+ b)
  = (Statements.count c a + Statements.count c b)%nat.
Proof. induction a as [|x a IH]; simpl; [reflexivity | rewrite IH; lia]. Qed.

Lemma count_join c sep (l : list string) :
  Statements.count c sep = O ->
  Statements.count c (Json.join sep l)
  = fold_right (fun x n => (Statements.count c x + n)%nat) O l.
Proof.
  intros Hsep. induction l as [|x l IH]; [reflexivity|].
  destruct l as [|y l]; [simpl; lia|].
  change (Json.join sep (x :: y :: l))
    with (x +:+ sep +:+ Json.join sep (y :: l)).
  rewrite !count_append, Hsep, IH. reflexivity.
Qed.

Lemma count_placeholders (values : list Json.JsParam) :
  Statements.count "?" (Statements.placeholders values) = List.length values.
Proof.
  unfold Statements.placeholders. rewrite count_join by reflexivity.
  induction values as [|v values IH]; simpl; [reflexivity | now rewrite IH].
Qed.

Lemma count_assignments sep (keys : list string) :
  Statements.count "?" sep = O ->
  Forall (fun k => Statements.count "?" k = O) keys ->
  Statements.count "?" (Statements.assignments sep keys) = List.length keys.
Proof.
  intros Hsep Hkeys. unfold Statements.assignments.
  rewrite count_join by assumption.
  induction Hkeys as [|k keys Hk _ IH]; [reflexivity|].
  cbn [map fold_right List.length]. rewrite IH, !count_append, Hk. reflexivity.
Qed.

Lemma count_columns (keys : list string) :
  Forall (fun k => Statements.count "?" k = O) keys ->
  Statements.count "?" (Json.join "`, `" keys) = O.
Proof.
  intros Hkeys. rewrite count_join by reflexivity.
  induction Hkeys as [|k keys Hk _ IH]; simpl; [reflexivity | now rewrite Hk, IH].
Qed.

(** X26.  A statement has as many placeholders as values are bound to
    it, as long as no question mark comes in with the names of the table,
    the database and the columns, which are pasted into the text as they
    are. *)
Theorem placeholders_match_values (tableName : string)
    (database : option string) (data where_ : Server.Record_) (limit : Z) :
  Statements.count "?" (Statements.target tableName database) = O ->
  Forall (fun k => Statements.count "?" k = O) (map fst data) ->
  Forall (fun k => Statements.count "?" k = O) (map fst where_) ->
  Statements.count "?" (Statements.insertDataSql tableName data database)
  = List.length (Statements.insertDataValues data)
  /\ Statements.count "?" (Statements.updateDataSql tableName data where_ database)
     = List.length (Statements.updateDataValues data where_)
  /\ Statements.count "?" (Statements.deleteDataSql tableName where_ database)
     = List.length (Statements.deleteDataValues where_)
  /\ Statements.count "?" (Statements.getTableDataSql tableName database)
     = List.length (Statements.getTableDataValues limit).
Proof.
  intros Htarget Hdata Hwhere.
  unfold Statements.insertDataSql, Statements.updateDataSql,
    Statements.deleteDataSql, Statements.getTableDataSql,
    Statements.insertDataValues, Statements.updateDataValues,
    Statements.deleteDataValues, Statements.getTableDataValues.
  cbv zeta.
  rewrite !count_append, !Htarget, !count_placeholders,
    !count_columns by assumption.
  rewrite !count_assignments by (assumption || reflexivity).
  rewrite length_app, !length_map. simpl. repeat split; lia.
Qed.

Lemma placeholders_match_values_witness :
  Statements.count "?"
    (Statements.updateDataSql "t" [("a", Json.PNum 1); ("b", Json.PNull)]
                              [("id", Json.PNum 7)] (Some "shop"))
  = 3%nat.
Proof.
  destruct (placeholders_match_values "t" (Some "shop")
              [("a", Json.PNum 1); ("b", Json.PNull)] [("id", Json.PNum 7)] 10)
    as (_ & Hupdate & _).
  - reflexivity.
  - repeat constructor.
  - repeat constructor.
  - exact Hupdate.
Defined.

(** ** The configuration *)

Lemma digit_not_white c : Watcher.isDigit c = true -> Str.isWhite c = false.
Proof.
  unfold Watcher.isDigit, Str.isWhite. intros [H1 H2]%andb_prop.
  apply Z.leb_le in H1, H2.
  destruct (Z.leb_spec 9 (Str.code c)), (Z.leb_spec (Str.code c) 13),
    (Z.eqb_spec (Str.code c) 32); simpl; try reflexivity; lia.
Qed.

Lemma digit_code c : Watcher.isDigit c = true -> 48 <= Str.code c <= 57.
Proof.
  unfold Watcher.isDigit. intros [H1 H2]%andb_prop.
  apply Z.leb_le in H1, H2. lia.
Qed.

Lemma string_of_uint_digits u : Watcher.allDigits (NilEmpty.string_of_uint u).
Proof.
  unfold Watcher.allDigits. induction u; simpl; constructor; auto.
Qed.

Lemma digitPrefix_all s : Watcher.allDigits s -> Watcher.digitPrefix s = s.
Proof.
  unfold Watcher.allDigits. induction s as [|c s IH]; simpl; [reflexivity|].
  intros H. inversion H as [|? ? Hc Hs]; subst. rewrite Hc. now rewrite IH.
Qed.

Lemma unsignedInt_digits s :
  Watcher.allDigits s -> s <> EmptyString ->
  Watcher.unsignedInt s = option_map Z.of_uint (NilEmpty.uint_of_string s).
Proof.
  intros Hs Hne. unfold Watcher.unsignedInt.
  assert (Hx : forall x, Str.startsWith s (String "0" (String x EmptyString)) = true ->
                         Watcher.isDigit x = true).
  { intros x Hpre. unfold Str.startsWith in Hpre.
    destruct s as [|c [|y s']]; [discriminate| |]; rewrite prefix_cons in Hpre.
    - destruct (ascii_dec "0" c); discriminate.
    - destruct (ascii_dec "0" c); [|discriminate].
      rewrite prefix_cons in Hpre.
      destruct (ascii_dec x y) as [->|]; [|discriminate].
      unfold Watcher.allDigits in Hs. simpl in Hs.
      inversion Hs as [|? ? _ Hs']; subst. now inversion Hs'. }
  destruct (Str.startsWith s "0x") eqn:E1; [apply Hx in E1; discriminate|].
  destruct (Str.startsWith s "0X") eqn:E2; [apply Hx in E2; discriminate|].
  simpl. rewrite digitPrefix_all by assumption.
  destruct s; [congruence | reflexivity].
Qed.

(** the digits of a positive integer are read back as that integer *)
Lemma unsignedInt_decimal p :
  exists c s,
    Num.decimal (Z.pos p) = String c s
    /\ Watcher.isDigit c = true
    /\ Watcher.unsignedInt (String c s) = Some (Z.pos p).
Proof.
  unfold Num.decimal. simpl Z.to_int.
  pose proof (DecimalPos.Unsigned.to_uint_nonnil p) as Hnil.
  pose proof (string_of_uint_digits (Pos.to_uint p)) as Hdig.
  assert (Hs : NilZero.string_of_int (Decimal.Pos (Pos.to_uint p))
               = NilEmpty.string_of_uint (Pos.to_uint p)).
  { simpl. destruct (Pos.to_uint p); [congruence | reflexivity..]. }
  rewrite Hs.
  destruct (NilEmpty.string_of_uint (Pos.to_uint p)) as [|c s] eqn:E.
  { destruct (Pos.to_uint p); simpl in E; congruence. }
  exists c, s. split; [reflexivity|].
  unfold Watcher.allDigits in Hdig. simpl in Hdig.
  inversion Hdig as [|? ? Hc Hrest]; subst. split; [exact Hc|].
  rewrite unsignedInt_digits; [|exact Hdig | discriminate].
  rewrite <- E, NilEmpty.usu. simpl. unfold Z.of_uint.
  now rewrite DecimalPos.Unsigned.of_to.
Qed.

Lemma magnitude_decimal p :
  Z.pos p < 2 ^ 53 ->
  exists c s,
    Num.natToString (Z.pos p) = String c s
    /\ Watcher.isDigit c = true
    /\ Watcher.magnitude (String c s) = Num.Int (Z.pos p).
Proof.
  intros Hp. destruct (unsignedInt_decimal p) as (c & s & Hd & Hc & Hu).
  exists c, s. unfold Num.natToString, Watcher.magnitude, Num.nearest.
  destruct (Z.ltb_spec (Z.pos p) (2 ^ 53)) as [_|]; [|lia].
  rewrite Hd, Hu.
  destruct (Z.ltb_spec (Z.pos p) (2 ^ 53)) as [_|]; [auto | lia].
Qed.

(** a port that is NaN or an integer below 2^53, printed and parsed
    again, is the same port *)
Lemma parseInt_portToString port :
  Watcher.safePort port = true ->
  Str.truthy (Watcher.portToString port) = true
  /\ Watcher.parseInt (Watcher.portToString port) = port.
Proof.
  destruct port as [|b|[|p|p]]; simpl Watcher.safePort; intros Hsafe;
    [split; reflexivity | discriminate | split; reflexivity | |].
  - apply Z.ltb_lt in Hsafe. simpl Z.abs in Hsafe.
    destruct (magnitude_decimal p Hsafe) as (c & s & Hd & Hc & Hm).
    unfold Watcher.portToString, Num.toString.
    change (Z.pos p <? 0) with false. cbv iota. rewrite Hd.
    split; [reflexivity|].
    unfold Watcher.parseInt. simpl Str.trimStart.
    rewrite (digit_not_white c Hc).
    pose proof (digit_code c Hc) as Hcode.
    destruct (Ascii.eqb_spec c "-") as [->|_];
      [change (Str.code "-") with 45 in Hcode; lia|].
    destruct (Ascii.eqb_spec c "+") as [->|_];
      [change (Str.code "+") with 43 in Hcode; lia|].
    exact Hm.
  - apply Z.ltb_lt in Hsafe. simpl Z.abs in Hsafe.
    destruct (magnitude_decimal p Hsafe) as (c & s & Hd & Hc & Hm).
    unfold Watcher.portToString, Num.toString.
    change (Z.neg p <? 0) with true. cbv iota.
    change (- Z.neg p) with (Z.pos p). rewrite Hd.
    split; [reflexivity|].
    unfold Watcher.parseInt.
    change (Str.trimStart ("-" +:+ String c s)) with (String "-" (String c s)).
    cbv iota. rewrite Ascii.eqb_refl, Hm. reflexivity.
Qed.

Lemma setIfTruthy_other name value env k :
  k <> name -> Watcher.setIfTruthy name value env !! k = env !! k.
Proof.
  intros Hne. unfold Watcher.setIfTruthy.
  destruct value as [v|]; [|reflexivity].
  destruct (Str.truthy v); [|reflexivity]. now apply lookup_insert_ne.
Qed.

Lemma setIfTruthy_same name value env :
  Watcher.setIfTruthy name value env !! name =
    match value with
    | Some v => if Str.truthy v then Some v else env !! name
    | None => env !! name
    end.
Proof.
  unfold Watcher.setIfTruthy. destruct value as [v|]; [|reflexivity].
  destruct (Str.truthy v); [apply lookup_insert_eq | reflexivity].
Qed.

Ltac env_lookup :=
  unfold Watcher.updateProcessEnv;
  repeat first
    [ rewrite setIfTruthy_other by discriminate
    | rewrite lookup_insert_ne by discriminate
    | rewrite setIfTruthy_same
    | rewrite lookup_insert_eq ].

(** what [updateProcessEnv] leaves in the variables of the process *)
Lemma updateProcessEnv_fixed config env :
  let env' := Watcher.updateProcessEnv config env in
  env' !! "MYSQL_HOST" = Some (Watcher.MYSQL_HOST config)
  /\ env' !! "MYSQL_PORT" = Some (Watcher.portToString (Watcher.MYSQL_PORT config))
  /\ env' !! "MYSQL_USER" = Some (Watcher.MYSQL_USER config)
  /\ env' !! "MYSQL_PASSWORD" = Some (Watcher.MYSQL_PASSWORD config).
Proof. cbv zeta. repeat split; env_lookup; reflexivity. Qed.

Lemma envOr_idem env name fallback merged :
  merged !! name = Some (Auth.envOr env name fallback) ->
  Auth.envOr merged name fallback = Auth.envOr env name fallback.
Proof.
  intros H. unfold Auth.envOr at 1. rewrite H.
  destruct (Str.truthy (Auth.envOr env name fallback)) eqn:E; [reflexivity|].
  unfold Auth.envOr in *. destruct (env !! name) as [v|]; [|reflexivity].
  destruct (Str.truthy v) eqn:Ev; [congruence | reflexivity].
Qed.

(** X27.  After the start, a reload cannot change the host, the user or
    the password, nor a port that is NaN or an integer below 2^53.
    [updateProcessEnv] copies the first configuration into the variables
    of the process, which take precedence over the file: whatever the
    file says later, [loadConfig] returns these as they were, and so too
    a database name that was set.  A port from 10^21 on is copied in
    exponent notation and is read back as another number. *)
Theorem reload_keeps_connection_settings (file1 file2 : option string)
    (processEnv : gmap string string) :
  let config1 := Watcher.loadConfig file1 processEnv in
  let config2 :=
    Watcher.loadConfig file2 (Watcher.updateProcessEnv config1 processEnv) in
  Watcher.safePort (Watcher.MYSQL_PORT config1) = true ->
  Watcher.MYSQL_HOST config2 = Watcher.MYSQL_HOST config1
  /\ Watcher.MYSQL_PORT config2 = Watcher.MYSQL_PORT config1
  /\ Watcher.MYSQL_USER config2 = Watcher.MYSQL_USER config1
  /\ Watcher.MYSQL_PASSWORD config2 = Watcher.MYSQL_PASSWORD config1
  /\ (forall d, Watcher.MYSQL_DATABASE config1 = Some d -> Str.truthy d = true ->
                Watcher.connectionPart config2 = Watcher.connectionPart config1).
Proof.
  intros config1 config2 Hsafe.
  destruct (updateProcessEnv_fixed config1 processEnv)
    as (Hhost & Hport & Huser & Hpw).
  set (env1 := Watcher.updateProcessEnv config1 processEnv) in *.
  set (merged1 := processEnv ∪ Watcher.parseEnvFile file1).
  assert (H1 : Watcher.MYSQL_HOST config2 = Watcher.MYSQL_HOST config1).
  { subst config2. unfold Watcher.loadConfig. cbn [Watcher.MYSQL_HOST].
    apply (envOr_idem merged1). now apply lookup_union_Some_l. }
  assert (H2 : Watcher.MYSQL_USER config2 = Watcher.MYSQL_USER config1).
  { subst config2. unfold Watcher.loadConfig. cbn [Watcher.MYSQL_USER].
    apply (envOr_idem merged1). now apply lookup_union_Some_l. }
  assert (H3 : Watcher.MYSQL_PASSWORD config2 = Watcher.MYSQL_PASSWORD config1).
  { subst config2. unfold Watcher.loadConfig. cbn [Watcher.MYSQL_PASSWORD].
    apply (envOr_idem merged1). now apply lookup_union_Some_l. }
  assert (H4 : Watcher.MYSQL_PORT config2 = Watcher.MYSQL_PORT config1).
  { subst config2. unfold Watcher.loadConfig at 1. cbn [Watcher.MYSQL_PORT].
    destruct (parseInt_portToString (Watcher.MYSQL_PORT config1) Hsafe)
      as [Ht Hp].
    unfold Auth.envOr at 1.
    rewrite (lookup_union_Some_l _ _ _ _ Hport), Ht. exact Hp. }
  repeat split; try assumption.
  intros d Hd Htruthy. unfold Watcher.connectionPart.
  rewrite H1, H2, H3, H4. f_equal. rewrite Hd.
  subst config2. unfold Watcher.loadConfig at 1. cbn [Watcher.MYSQL_DATABASE].
  apply lookup_union_Some_l. subst env1. env_lookup. now rewrite Hd, Htruthy.
Qed.

(** the file first names one server, then is edited to name another *)
Lemma reload_keeps_connection_settings_witness :
  let file1 := Some "MYSQL_HOST=db1
MYSQL_PASSWORD=secret" in
  let file2 := Some "MYSQL_HOST=db2
MYSQL_PASSWORD=other
MYSQL_PORT=3307" in
  let config1 := Watcher.loadConfig file1 ∅ in
  Watcher.MYSQL_HOST
    (Watcher.loadConfig file2 (Watcher.updateProcessEnv config1 ∅)) = "db1"
  /\ Watcher.MYSQL_PORT
       (Watcher.loadConfig file2 (Watcher.updateProcessEnv config1 ∅))
     = Num.Int 3306.
Proof.
  intros file1 file2 config1.
  destruct (reload_keeps_connection_settings file1 file2 ∅)
    as (Hhost & Hport & _); [reflexivity|].
  fold config1 in Hhost, Hport. rewrite Hhost, Hport.
  split; vm_compute; reflexivity.
Defined.

(** a port of 22 digits is written to the variables of the process as
    [1e+21], and the reload reads the port 1 *)
Lemma reload_changes_large_port :
  let config1 := Watcher.loadConfig (Some "MYSQL_PORT=1000000000000000000000") ∅ in
  let config2 := Watcher.loadConfig None (Watcher.updateProcessEnv config1 ∅) in
  Watcher.MYSQL_PORT config1 = Num.Int (10 ^ 21)
  /\ Watcher.updateProcessEnv config1 ∅ !! "MYSQL_PORT" = Some "1e+21"
  /\ Watcher.MYSQL_PORT config2 = Num.Int 1.
Proof. repeat split; vm_compute; reflexivity. Qed.

Lemma split_nonempty sep s : exists x r, Watcher.split sep s = x :: r.
Proof.
  induction s as [|c s (x & r & IH)]; simpl; [eauto|].
  destruct (Ascii.eqb c sep); [eauto|]. rewrite IH. eauto.
Qed.

Lemma split_append sep a b :
  Watcher.split sep (a +:+ String sep b)
  = (Watcher.split sep a ++ Watcher.split sep b)%list.
Proof.
  induction a as [|c a IH]; simpl.
  - now rewrite Ascii.eqb_refl.
  - destruct (Ascii.eqb c sep); [now rewrite IH|].
    rewrite IH. destruct (split_nonempty sep a) as (x & r & ->). reflexivity.
Qed.

Lemma split_none sep s :
  Statements.count sep s = O -> Watcher.split sep s = [s].
Proof.
  induction s as [|c s IH]; simpl; [reflexivity|].
  destruct (Ascii.eqb c sep); [discriminate|]. simpl.
  intros H. now rewrite IH.
Qed.

Lemma join_cons_char sep c x r :
  Json.join sep (String c x :: r) = String c (Json.join sep (x :: r)).
Proof. destruct r; reflexivity. Qed.

(** splitting at a character and joining with it gives the text back *)
Lemma join_split sep s :
  Json.join (String sep EmptyString) (Watcher.split sep s) = s.
Proof.
  induction s as [|c s IH]; simpl; [reflexivity|].
  destruct (Ascii.eqb_spec c sep) as [->|_].
  - destruct (split_nonempty sep s) as (x & r & E). rewrite E in *.
    change (Json.join (String sep "") ("" :: x :: r))
      with (String sep (Json.join (String sep "") (x :: r))).
    now rewrite IH.
  - destruct (split_nonempty sep s) as (x & r & E). rewrite E in *.
    now rewrite join_cons_char, IH.
Qed.

(** an assignment [key=value] written without blanks around its parts *)
Lemma parseLine_assignment env key value :
  let line := key +:+ "=" +:+ value in
  Str.trim line = line ->
  Str.trim key = key ->
  Str.trim value = value ->
  Str.truthy key = true ->
  Str.startsWith key "#" = false ->
  Statements.count "=" key = O ->
  Watcher.parseLine env line = Watcher.assign key value env.
Proof.
  intros line Hline Hkey Hvalue Htruthy Hhash Heq.
  unfold Watcher.parseLine. rewrite Hline.
  assert (Hl : Str.truthy line = true /\ Str.startsWith line "#" = false).
  { subst line. destruct key as [|c key]; [discriminate|].
    split; [reflexivity|]. unfold Str.startsWith in *.
    change (String c key +:+ "=" +:+ value)
      with (String c (key +:+ "=" +:+ value)).
    rewrite prefix_cons in *.
    destruct (ascii_dec "#" c); [|reflexivity].
    rewrite prefix_nil in Hhash. discriminate. }
  destruct Hl as [-> ->]. simpl andb. cbv iota.
  subst line.
  change (key +:+ "=" +:+ value) with (key +:+ String "=" value).
  rewrite split_append, (split_none "=" key Heq). simpl app. cbv iota.
  rewrite Htruthy, Hkey, (join_split "=" value), Hvalue.
  destruct (split_nonempty "=" value) as (x & r & ->). reflexivity.
Qed.

Lemma parseLine_comment env s :
  Watcher.parseLine env (String "#" s) = env.
Proof.
  unfold Watcher.parseLine, Str.trim. simpl Str.trimStart.
  change (Str.trimStart (String "#" s)) with (String "#" s).
  assert (H : exists r, Str.trimEnd (String "#" s) = String "#" r).
  { simpl. destruct (Str.trimEnd s); eauto. }
  destruct H as [r ->]. unfold Str.startsWith.
  rewrite prefix_cons, prefix_nil. reflexivity.
Qed.

(** X28.  The file is read line by line and a later assignment of a name
    replaces an earlier one; the value may itself contain the equals
    sign, and a line that starts with [#] changes nothing.  The name
    [__proto__] is the exception: the object that collects the variables
    has an accessor of that name, and a line that assigns it changes
    nothing. *)
Theorem parseEnvFile_last_line (text key value comment : string) :
  let line := key +:+ "=" +:+ value in
  Statements.count "010" line = O ->
  Statements.count "010" comment = O ->
  Str.trim line = line ->
  Str.trim key = key ->
  Str.trim value = value ->
  Str.truthy key = true ->
  Str.startsWith key "#" = false ->
  Statements.count "=" key = O ->
  (key <> "__proto__" ->
   Watcher.parseEnvFile (Some (text +:+ String "010" line))
   = <[key := value]> (Watcher.parseEnvFile (Some text))
   /\ Watcher.parseEnvFile (Some (text +:+ String "010" line)) !! key
      = Some value)
  /\ (key = "__proto__" ->
      Watcher.parseEnvFile (Some (text +:+ String "010" line))
      = Watcher.parseEnvFile (Some text))
  /\ Watcher.parseEnvFile (Some (text +:+ String "010" (String "#" comment)))
     = Watcher.parseEnvFile (Some text).
Proof.
  intros line Hnl Hcnl Hline Hkey Hvalue Htruthy Hhash Heq.
  assert (Hset : Watcher.parseEnvFile (Some (text +:+ String "010" line))
                 = Watcher.assign key value (Watcher.parseEnvFile (Some text))).
  { unfold Watcher.parseEnvFile.
    rewrite split_append, fold_left_app, (split_none "010" line Hnl). simpl.
    now apply parseLine_assignment. }
  split; [|split].
  - intros Hproto. rewrite Hset. unfold Watcher.assign.
    apply String.eqb_neq in Hproto. rewrite Hproto.
    split; [reflexivity | apply lookup_insert_eq].
  - intros ->. rewrite Hset. reflexivity.
  - unfold Watcher.parseEnvFile.
    rewrite split_append, fold_left_app, split_none.
    + simpl. apply parseLine_comment.
    + simpl. exact Hcnl.
Qed.

(** a password that is set twice, the second time with an equals sign;
    and a line that assigns [__proto__] *)
Lemma parseEnvFile_last_line_witness :
  Watcher.parseEnvFile (Some "MYSQL_PASSWORD=one
MYSQL_PASSWORD=a=b") !! "MYSQL_PASSWORD" = Some "a=b"
  /\ Watcher.parseEnvFile (Some "MYSQL_PASSWORD=one
__proto__=x") = Watcher.parseEnvFile (Some "MYSQL_PASSWORD=one").
Proof.
  split.
  - refine (proj2 (proj1 (parseEnvFile_last_line "MYSQL_PASSWORD=one"
                            "MYSQL_PASSWORD" "a=b" "" _ _ _ _ _ _ _ _) _));
      try reflexivity. discriminate.
  - refine (proj1 (proj2 (parseEnvFile_last_line "MYSQL_PASSWORD=one"
                            "__proto__" "x" "" _ _ _ _ _ _ _ _)) _);
      reflexivity.
Defined.

(** X29.  A configuration always has a user, [root] by default, so the
    start depends on the password and the port: the services start
    exactly when the password is not empty, the port is a number and the
    database accepts the connection; without a password they fail before
    any connection is attempted. *)
Theorem start_requirements (file : option string)
    (processEnv env : gmap string string) (ok : bool) :
  let config := Watcher.loadConfig file processEnv in
  let r := Server.initializeServices env (Watcher.connectionPart config) ok in
  Str.truthy (Watcher.MYSQL_USER config) = true
  /\ (fst r = Server.Returned tt <->
      Str.truthy (Watcher.MYSQL_PASSWORD config) = true
      /\ Watcher.MYSQL_PORT config <> Num.NaN /\ ok = true)
  /\ (Str.truthy (Watcher.MYSQL_PASSWORD config) = false ->
      fst r = Server.Threw
                (Client.JsError "MYSQL_USER and MYSQL_PASSWORD are required")
      /\ Client.trace (Server.driver (snd r)) = nil).
Proof.
  intros config r.
  assert (Huser : Str.truthy (Watcher.MYSQL_USER config) = true).
  { subst config. unfold Watcher.loadConfig. cbn [Watcher.MYSQL_USER].
    now apply envOr_truthy. }
  split; [exact Huser|].
  clearbody config. subst r.
  unfold Server.initializeServices, Server.initializeMySQLClient, Server.bind,
    Server.gets, Server.modify, Server.throw, Server.clientConnect, Client.new,
    Client.connect, Watcher.connectionPart.
  simpl. rewrite Huser.
  destruct (Str.truthy (Watcher.MYSQL_PASSWORD config)); simpl.
  - split; [|discriminate].
    destruct (Watcher.MYSQL_PORT config) as [|b|n]; simpl.
    + split; [discriminate|]. intros (_ & Hn & _). now contradiction Hn.
    + destruct ok; simpl; split; try discriminate; auto.
      intros (_ & _ & H). discriminate H.
    + destruct ok; simpl; split; try discriminate; auto.
      intros (_ & _ & H). discriminate H.
  - split; [|auto]. split; [discriminate|]. intros [H _]. discriminate H.
Qed.

(** a file that gives a host and no password *)
Lemma start_requirements_witness :
  let r := Server.initializeServices ∅
             (Watcher.connectionPart (Watcher.loadConfig (Some "MYSQL_HOST=db1") ∅))
             true in
  Client.trace (Server.driver (snd r)) = nil.
Proof.
  intros r.
  destruct (start_requirements (Some "MYSQL_HOST=db1") ∅ ∅ true)
    as (_ & _ & Hfail).
  destruct Hfail as [_ H]; [reflexivity | exact H].
Defined.

Lemma envOr_after_update (file : option string) (env : gmap string string)
    (name fallback : string) (value : option string)
    (env' : gmap string string) :
  let merged := env ∪ Watcher.parseEnvFile file in
  value = merged !! name ->
  env' !! name = match value with
                 | Some v => if Str.truthy v then Some v else env !! name
                 | None => env !! name
                 end ->
  Auth.envOr env' name fallback = Auth.envOr merged name fallback.
Proof.
  intros merged Hvalue Henv'. unfold Auth.envOr. rewrite Henv', Hvalue.
  subst merged.
  destruct (env !! name) as [w|] eqn:Hw.
  - rewrite (lookup_union_Some_l _ _ _ _ Hw).
    destruct (Str.truthy w) eqn:E; now rewrite ?E.
  - rewrite (lookup_union_r _ _ _ Hw).
    destruct (Watcher.parseEnvFile file !! name) as [v|]; [|reflexivity].
    destruct (Str.truthy v) eqn:E; now rewrite ?E.
Qed.

(** X30.  The accounts follow the file at the start: the registry built
    after [updateProcessEnv] is the one that the variables of the
    process, completed by those of the file, describe. *)
Theorem registry_follows_file (file : option string)
    (processEnv : gmap string string) :
  let config := Watcher.loadConfig file processEnv in
  Auth.initializeDefaultUsers (Watcher.updateProcessEnv config processEnv)
  = Auth.initializeDefaultUsers (processEnv ∪ Watcher.parseEnvFile file).
Proof.
  intros config.
  set (env' := Watcher.updateProcessEnv config processEnv).
  assert (H : forall name fallback value,
             value = (processEnv ∪ Watcher.parseEnvFile file) !! name ->
             env' !! name = match value with
                            | Some v => if Str.truthy v then Some v
                                        else processEnv !! name
                            | None => processEnv !! name
                            end ->
             Auth.envOr env' name fallback
             = Auth.envOr (processEnv ∪ Watcher.parseEnvFile file) name fallback).
  { intros name fallback value. apply envOr_after_update. }
  unfold Auth.initializeDefaultUsers.
  rewrite (H "MYSQL_ADMIN_USER" "admin" (Watcher.MYSQL_ADMIN_USER config)),
    (H "MYSQL_ADMIN_PASSWORD" "admin123" (Watcher.MYSQL_ADMIN_PASSWORD config)),
    (H "MYSQL_RW_USER" "readwrite" (Watcher.MYSQL_RW_USER config)),
    (H "MYSQL_RW_PASSWORD" "rw123" (Watcher.MYSQL_RW_PASSWORD config)),
    (H "MYSQL_RO_USER" "readonly" (Watcher.MYSQL_RO_USER config)),
    (H "MYSQL_RO_PASSWORD" "ro123" (Watcher.MYSQL_RO_PASSWORD config));
    try reflexivity; subst env'; env_lookup; reflexivity.
Qed.

(** ** Blanks and case *)

Lemma trimStart_allWhite ws :
  Spec.allWhite ws = true -> Str.trimStart ws = EmptyString.
Proof.
  induction ws as [|c ws IH]; simpl; [reflexivity|].
  intros [-> Hws]%andb_prop. auto.
Qed.

Lemma trimEnd_allWhite ws :
  Spec.allWhite ws = true -> Str.trimEnd ws = EmptyString.
Proof.
  induction ws as [|c ws IH]; simpl; [reflexivity|].
  intros [Hc Hws]%andb_prop. now rewrite IH, Hc.
Qed.

Lemma trimEnd_append_white s ws :
  Spec.allWhite ws = true -> Str.trimEnd (s +:+ ws) = Str.trimEnd s.
Proof.
  intros Hws. induction s as [|c s IH]; simpl.
  - now apply trimEnd_allWhite.
  - now rewrite IH.
Qed.

(** blanks before and after a text do not change what [trim] returns *)
Lemma trim_blanks ws s ws' :
  Spec.allWhite ws = true -> Spec.allWhite ws' = true ->
  Str.trim (ws +:+ s +:+ ws') = Str.trim s.
Proof.
  intros Hws Hws'. unfold Str.trim. rewrite trimStart_white by assumption.
  induction s as [|c s IH]; simpl.
  - now rewrite trimStart_allWhite.
  - destruct (Str.isWhite c); [exact IH|].
    now apply (trimEnd_append_white (String c s)).
Qed.

(** X2.  The class of a statement and whether it is cached do not
    depend on the blanks around it nor on the case of its letters. *)
Theorem classification_ignores_blanks_and_case (ws s ws' s' : string) :
  Spec.allWhite ws = true ->
  Spec.allWhite ws' = true ->
  Str.toLowerCase s' = Str.toLowerCase s ->
  Auth.parseQueryPermission (ws +:+ s' +:+ ws') = Auth.parseQueryPermission s
  /\ Cache.shouldCache (ws +:+ s' +:+ ws') = Cache.shouldCache s.
Proof.
  intros Hws Hws' Hcase.
  assert (Ht : Str.toLowerCase (Str.trim (ws +:+ s' +:+ ws'))
               = Str.toLowerCase (Str.trim s)).
  { rewrite trim_blanks by assumption. unfold Str.trim.
    now rewrite !toLowerCase_trimEnd, !toLowerCase_trimStart, Hcase. }
  unfold Auth.parseQueryPermission, Cache.shouldCache. cbv zeta.
  now rewrite Ht.
Qed.

Lemma classification_ignores_blanks_and_case_witness :
  Auth.parseQueryPermission "   Select * From T  "
  = Auth.parseQueryPermission "SELECT * FROM t"
  /\ Cache.shouldCache "   Select * From T  " = Cache.shouldCache "SELECT * FROM t".
Proof.
  apply (classification_ignores_blanks_and_case "   " "SELECT * FROM t" "  "
           "Select * From T"); reflexivity.
Defined.
